(** * Autonomo: validation pipeline and feature registry

    A shallow embedding of [core/safety-manager.js] (class [SafetyManager]),
    [core/feature-manager.js] (class [FeatureManager]) and of
    [Autonomo.evolve] from [index.js], followed by the properties of the
    specification that concern them.

    Conventions of the embedding.
    - A JavaScript string is a [string]: one [ascii] per code unit, so the
      strings covered are those whose code units are below 256.
    - A JavaScript number is a [Z] (counters, sizes, millisecond clocks).
    - A call that may throw returns a [Completion]; the payload of [Throw]
      is [error.message].
    - Collaborators that are not part of the repository (the Node module
      loader, the vm2 sandbox, the planner and coder agents, the clock) are
      Section variables or explicit arguments. *)

From Stdlib Require Import String Ascii List ZArith Bool Arith Lia.
From Stdlib Require Import Permutation Sorted.
From Stdlib Require Import DecimalString DecimalZ DecimalPos.
Import ListNotations.

Open Scope list_scope.
Open Scope string_scope.

(* ================================================================= *)
(** * Completions *)

Inductive Completion (A : Type) : Type :=
| Normal (a : A)
| Throw (message : string).
Arguments Normal {A} a.
Arguments Throw {A} message.

(* ================================================================= *)
(** * JavaScript strings *)

Module JsString.

(** The double quote character. *)
Definition dq : string := String "034"%char EmptyString.

Definition code (c : ascii) : nat := nat_of_ascii c.

Definition between (lo hi : nat) (c : ascii) : bool :=
  ((lo <=? code c) && (code c <=? hi))%nat.

Definition shift_up (c : ascii) : ascii := ascii_of_nat (code c + 32).
Definition shift_down (c : ascii) : ascii := ascii_of_nat (code c - 32).

(** [String.prototype.toLowerCase], one code unit at a time: A-Z, and the
    Latin-1 capitals 0xC0-0xDE except the multiplication sign 0xD7. *)
Definition lower_char (c : ascii) : ascii :=
  if between 65 90 c then shift_up c
  else if between 192 222 c && negb (code c =? 215)%nat then shift_up c
  else c.

Fixpoint toLowerCase (s : string) : string :=
  match s with
  | EmptyString => EmptyString
  | String c t => String (lower_char c) (toLowerCase t)
  end.

(** [Canonicalize] of a non-unicode, ignore-case regular expression:
    the upper-case code unit, except that a unit of 128 or more never
    maps below 128.  The capitals of 0xFF, 0xB5 and 0xDF are not single
    Latin-1 units, so these three stand for themselves here. *)
Definition canon_char (c : ascii) : ascii :=
  if between 97 122 c then shift_down c
  else if between 224 254 c && negb (code c =? 247)%nat then shift_down c
  else c.

(** [s.startsWith(p)] *)
Definition startsWith (s p : string) : bool := String.prefix p s.

(** [s.includes(sub)] *)
Fixpoint includes (s sub : string) : bool :=
  String.prefix sub s
  || match s with
     | EmptyString => false
     | String _ t => includes t sub
     end.

(** [s.endsWith(suffix)]: some tail of [s] is [suffix]. *)
Fixpoint endsWith (s suffix : string) : bool :=
  String.eqb s suffix
  || match s with
     | EmptyString => false
     | String _ t => endsWith t suffix
     end.

(** [s.split(sep).length] for a one-unit separator. *)
Fixpoint split_count (sep : ascii) (s : string) : nat :=
  match s with
  | EmptyString => 1
  | String c t => if Ascii.eqb c sep then S (split_count sep t) else split_count sep t
  end.

Fixpoint map_chars (f : ascii -> ascii) (s : string) : string :=
  match s with
  | EmptyString => EmptyString
  | String c t => String (f c) (map_chars f t)
  end.

(** [String(n)] for an integer within the safe integers, where a number
    prints all its digits; beyond them JavaScript prints a rounded or an
    exponent form, which is not modelled. *)
Definition of_Z (n : Z) : string := NilZero.string_of_int (Z.to_int n).

Fixpoint join (sep : string) (l : list string) : string :=
  match l with
  | [] => EmptyString
  | [x] => x
  | x :: rest => x ++ sep ++ join sep rest
  end.

End JsString.

(* ================================================================= *)
(** * Regular expressions

    The fragment of ECMAScript regular expressions that the source uses:
    literal characters, bracket sets, the classes [\s] and [\w], the
    quantifiers [*] and [+] on one class, a negative lookahead of a literal,
    and top-level alternation; flags [g] and [i]. *)

Module RegExp.

Inductive cls : Type :=
| Lit (c : ascii)            (* one literal character *)
| Set_of (cs : list ascii)   (* [...] *)
| Space                      (* \s *)
| Word.                      (* \w *)

Inductive atom : Type :=
| One (k : cls)
| Star (k : cls)             (* k* , greedy *)
| Plus (k : cls)             (* k+ , greedy *)
| NotAhead (lit : string).   (* (?!lit) *)

Record t : Type := mk {
  source : string;           (* the text between the slashes *)
  flags : string;
  ignoreCase : bool;
  alternatives : list (list atom)
}.

(** [RegExp.prototype.toString] *)
Definition toString (r : t) : string := "/" ++ source r ++ "/" ++ flags r.

(** White space of [\s] among the code units below 256. *)
Definition is_space (c : ascii) : bool :=
  let n := JsString.code c in
  (((9 <=? n) && (n <=? 13)) || (n =? 32) || (n =? 160))%nat.

Definition is_word (c : ascii) : bool :=
  JsString.between 48 57 c || JsString.between 65 90 c
  || JsString.between 97 122 c || (JsString.code c =? 95)%nat.

Definition same_char (ic : bool) (a b : ascii) : bool :=
  if ic then Ascii.eqb (JsString.canon_char a) (JsString.canon_char b)
  else Ascii.eqb a b.

Definition cls_match (ic : bool) (k : cls) (c : ascii) : bool :=
  match k with
  | Lit a => same_char ic a c
  | Set_of cs => existsb (fun a => same_char ic a c) cs
  | Space => is_space c
  | Word => is_word c
  end.

(** Does the literal [l] start [s]? *)
Fixpoint ahead (ic : bool) (l s : string) : bool :=
  match l, s with
  | EmptyString, _ => true
  | String a l', String c s' => same_char ic a c && ahead ic l' s'
  | String _ _, EmptyString => false
  end.

(** Greedy repetition of one class, then the continuation; gives one
    character back at a time when the continuation fails. *)
Fixpoint star (ic : bool) (k : cls) (cont : string -> option nat) (s : string)
  : option nat :=
  match s with
  | String c rest =>
      if cls_match ic k c then
        match star ic k cont rest with
        | Some n => Some (S n)
        | None => cont s
        end
      else cont s
  | EmptyString => cont s
  end.

(** A match of the sequence [p] at the start of [s]: its length. *)
Fixpoint match_here (ic : bool) (p : list atom) (s : string) : option nat :=
  match p with
  | [] => Some 0
  | One k :: p' =>
      match s with
      | String c rest =>
          if cls_match ic k c then option_map S (match_here ic p' rest) else None
      | EmptyString => None
      end
  | Star k :: p' => star ic k (match_here ic p') s
  | Plus k :: p' =>
      match s with
      | String c rest =>
          if cls_match ic k c
          then option_map S (star ic k (match_here ic p') rest)
          else None
      | EmptyString => None
      end
  | NotAhead l :: p' => if ahead ic l s then None else match_here ic p' s
  end.

Fixpoint first_alternative (ic : bool) (alts : list (list atom)) (s : string)
  : option nat :=
  match alts with
  | [] => None
  | p :: rest =>
      match match_here ic p s with
      | Some n => Some n
      | None => first_alternative ic rest s
      end
  end.

Definition match_at (r : t) (s : string) : option nat :=
  first_alternative (ignoreCase r) (alternatives r) s.

(** All matches of a global expression, left to right without overlap.
    [skip] counts the characters of the previous match still to pass. *)
Fixpoint scan (r : t) (skip : nat) (s : string) : list string :=
  match skip with
  | S k =>
      match s with
      | EmptyString => []
      | String _ rest => scan r k rest
      end
  | O =>
      match match_at r s with
      | Some n =>
          String.substring 0 n s ::
          match s with
          | EmptyString => []
          | String _ rest => scan r (Nat.pred n) rest
          end
      | None =>
          match s with
          | EmptyString => []
          | String _ rest => scan r 0 rest
          end
      end
  end.

(** [s.match(r)] for a global [r]: [null] when nothing matches. *)
Definition match_ (s : string) (r : t) : option (list string) :=
  match scan r 0 s with
  | [] => None
  | l => Some l
  end.

(** [(s.match(r) || []).length] *)
Definition count (s : string) (r : t) : nat :=
  match match_ s r with
  | Some l => List.length l
  | None => 0
  end.

(** The atoms of a literal text. *)
Fixpoint lit (s : string) : list atom :=
  match s with
  | EmptyString => []
  | String c rest => One (Lit c) :: lit rest
  end.

End RegExp.

(* ================================================================= *)
(** * JavaScript values

    Plans, inputs and results are plain data: the values that
    [JSON.parse] produces, and [undefined]. *)

#[warnings="-register-all"]
Inductive value : Type :=
| VUndefined
| VNull
| VBool (b : bool)
| VNum (n : Z)
| VStr (s : string)
| VArr (items : list value)
| VObj (fields : list (string * value)).

Module Js.

(** Property read [o.k]; [undefined] when absent or when [o] is a
    primitive. Reading a property of [undefined] or [null] throws and is
    handled where it can happen. *)
Fixpoint lookup (k : string) (fields : list (string * value)) : value :=
  match fields with
  | [] => VUndefined
  | (k', v) :: rest => if String.eqb k k' then v else lookup k rest
  end.

Definition get (o : value) (k : string) : value :=
  match o with
  | VObj fields => lookup k fields
  | _ => VUndefined
  end.

(** [ToBoolean] *)
Definition truthy (v : value) : bool :=
  match v with
  | VUndefined | VNull => false
  | VBool b => b
  | VNum n => negb (n =? 0)%Z
  | VStr s => negb (String.eqb s "")
  | VArr _ | VObj _ => true
  end.

(** [a || b] *)
Definition or_else (a b : value) : value := if truthy a then a else b.

(** [ToString], as a template literal applies it. *)
Fixpoint to_string (v : value) : string :=
  match v with
  | VUndefined => "undefined"
  | VNull => "null"
  | VBool true => "true"
  | VBool false => "false"
  | VNum n => JsString.of_Z n
  | VStr s => s
  | VArr items =>
      JsString.join ","
        (map (fun x => match x with
                       | VUndefined | VNull => ""
                       | _ => to_string x
                       end) items)
  | VObj _ => "[object Object]"
  end.

Definition hex_digit (n : nat) : ascii :=
  match n with
  | 0 => "0" | 1 => "1" | 2 => "2" | 3 => "3" | 4 => "4" | 5 => "5"
  | 6 => "6" | 7 => "7" | 8 => "8" | 9 => "9" | 10 => "a" | 11 => "b"
  | 12 => "c" | 13 => "d" | 14 => "e" | _ => "f"
  end%char.

(** [QuoteJSONString], one code unit at a time. *)
Definition escape_char (c : ascii) : string :=
  let n := JsString.code c in
  if (n =? 34)%nat then "\" ++ JsString.dq
  else if (n =? 92)%nat then "\\"
  else if (n =? 8)%nat then "\b"
  else if (n =? 12)%nat then "\f"
  else if (n =? 10)%nat then "\n"
  else if (n =? 13)%nat then "\r"
  else if (n =? 9)%nat then "\t"
  else if (n <? 32)%nat then
    "\u00" ++ String (hex_digit (n / 16)) (String (hex_digit (n mod 16)) "")
  else String c "".

Fixpoint escape (s : string) : string :=
  match s with
  | EmptyString => EmptyString
  | String c t => escape_char c ++ escape t
  end.

Definition quote (s : string) : string := JsString.dq ++ escape s ++ JsString.dq.

(** [JSON.stringify(v)]; [None] is [undefined]. An [undefined] member
    of an object is left out, one of an array is written [null]. *)
Fixpoint stringify (v : value) : option string :=
  match v with
  | VUndefined => None
  | VNull => Some "null"
  | VBool true => Some "true"
  | VBool false => Some "false"
  | VNum n => Some (JsString.of_Z n)
  | VStr s => Some (quote s)
  | VArr items =>
      Some ("[" ++ JsString.join ","
              (map (fun x => match stringify x with
                             | Some t => t
                             | None => "null"
                             end) items) ++ "]")
  | VObj fields =>
      Some ("{" ++ JsString.join ","
              (flat_map (fun kv => match stringify (snd kv) with
                                   | Some t => [quote (fst kv) ++ ":" ++ t]
                                   | None => []
                                   end) fields) ++ "}")
  end.

End Js.

(* ================================================================= *)
(** * Joi schemas

    [validatePlan] declares its schema with the Joi library and reads
    [error.details[0].message] of the outcome. This module renders the
    schema constructors the source uses and the first error that Joi's
    [validate] reports for them (default options: the first error ends
    validation, keys are visited in declaration order, then keys the schema
    does not know are refused). Conversion of numeric strings to numbers is
    not rendered. *)

Module Joi.

#[warnings="-register-all"]
Inductive schema : Type :=
| string_ (min max : option nat)          (* Joi.string().min(a).max(b) *)
| valid (allowed : list string)           (* Joi.string().valid(...) *)
| number (min max : option Z)             (* Joi.number().min(a).max(b) *)
| array (items : schema) (max : option nat)
| object (keys : list (string * bool * schema)).  (* key, required, schema *)

Definition path := option string.

Definition label (p : path) : string :=
  JsString.dq ++ match p with None => "value" | Some l => l end ++ JsString.dq.

Definition child (p : path) (k : string) : path :=
  Some match p with None => k | Some l => l ++ "." ++ k end.

Definition index (p : path) (i : nat) : path :=
  let ix := "[" ++ JsString.of_Z (Z.of_nat i) ++ "]" in
  Some match p with None => ix | Some l => l ++ ix end.

(** The earlier error wins. *)
Definition otherwise (e later : option string) : option string :=
  match e with
  | Some _ => e
  | None => later
  end.

Definition num (n : nat) : string := JsString.of_Z (Z.of_nat n).

Definition check_string (p : path) (min max : option nat) (v : value) : option string :=
  match v with
  | VStr s =>
      if String.eqb s "" then Some (label p ++ " is not allowed to be empty")
      else
        otherwise
          match min with
          | Some a =>
              if (String.length s <? a)%nat
              then Some (label p ++ " length must be at least " ++ num a
                           ++ " characters long")
              else None
          | None => None
          end
          match max with
          | Some b =>
              if (b <? String.length s)%nat
              then Some (label p ++ " length must be less than or equal to " ++ num b
                           ++ " characters long")
              else None
          | None => None
          end
  | _ => Some (label p ++ " must be a string")
  end.

Definition check_valid (p : path) (allowed : list string) (v : value) : option string :=
  match v with
  | VStr s =>
      if existsb (String.eqb s) allowed then None
      else Some (label p ++ " must be one of [" ++ JsString.join ", " allowed ++ "]")
  | _ => Some (label p ++ " must be one of [" ++ JsString.join ", " allowed ++ "]")
  end.

(** [Number.MAX_SAFE_INTEGER] *)
Definition max_safe : Z := 9007199254740991.

Definition digit (c : ascii) : option Z :=
  if JsString.between 48 57 c then Some (Z.of_nat (JsString.code c) - 48)%Z else None.

Fixpoint skip_spaces (s : string) : string :=
  match s with
  | EmptyString => EmptyString
  | String c t => if RegExp.is_space c then skip_spaces t else s
  end.

Fixpoint all_spaces (s : string) : bool :=
  match s with
  | EmptyString => true
  | String c t => RegExp.is_space c && all_spaces t
  end.

Fixpoint zeros_then_spaces (s : string) : bool :=
  match s with
  | EmptyString => true
  | String c t => if Ascii.eqb c "0" then zeros_then_spaces t else all_spaces s
  end.

(** The digits after the first one, then a point followed by zeros only
    if there is one, then white space to the end. *)
Fixpoint digits (acc : Z) (s : string) : option Z :=
  match s with
  | EmptyString => Some acc
  | String c t =>
      match digit c with
      | Some d => digits (acc * 10 + d) t
      | None =>
          if Ascii.eqb c "."
          then if zeros_then_spaces t then Some acc else None
          else if all_spaces s then Some acc else None
      end
  end.

(** The integer that a text denotes when it is a numeral of an integer:
    white space, a sign if any, digits, a point followed by zeros only if
    any, white space. Joi converts such a text to that number. *)
Definition integer_numeral (s : string) : option Z :=
  match skip_spaces s with
  | EmptyString => None
  | String c t =>
      let negative := Ascii.eqb c "-" in
      let body := if Ascii.eqb c "-" || Ascii.eqb c "+" then t else String c t in
      match body with
      | EmptyString => None
      | String c' t' =>
          match digit c' with
          | Some d =>
              option_map (fun n => if negative then (- n)%Z else n) (digits d t')
          | None => None
          end
      end
  end.

Fixpoint digitless (s : string) : bool :=
  match s with
  | EmptyString => true
  | String c t => match digit c with Some _ => false | None => digitless t end
  end.

(** The values for which [check_number] below is exact: any value that
    is no text, and a text that is the numeral of an integer or holds no
    digit at all, so that it is no numeral. *)
Definition exact_number (v : value) : Prop :=
  forall s, v = VStr s -> integer_numeral s <> None \/ digitless s = true.

(** [Joi.number().min(a).max(b)] with the default conversion. A number
    beyond the safe integers is refused as unsafe before the bounds are
    looked at, and so is the numeral of one. A numeral with a fraction or
    an exponent denotes a floating-point number, which this embedding
    does not have: such a text is outside what [check_number] models, and
    is refused here like a text that is no numeral. *)
Definition check_number (p : path) (min max : option Z) (v : value) : option string :=
  let check (n : Z) :=
    if (max_safe <? Z.abs n)%Z then Some (label p ++ " must be a safe number")
    else
      otherwise
        match min with
        | Some a =>
            if (n <? a)%Z
            then Some (label p ++ " must be greater than or equal to " ++ JsString.of_Z a)
            else None
        | None => None
        end
        match max with
        | Some b =>
            if (b <? n)%Z
            then Some (label p ++ " must be less than or equal to " ++ JsString.of_Z b)
            else None
        | None => None
        end in
  match v with
  | VNum n => check n
  | VStr s =>
      match integer_numeral s with
      | Some n => check n
      | None => Some (label p ++ " must be a number")
      end
  | _ => Some (label p ++ " must be a number")
  end.

Definition check_max_items (p : path) (max : option nat) (n : nat) : option string :=
  match max with
  | Some b =>
      if (b <? n)%nat
      then Some (label p ++ " must contain less than or equal to " ++ num b ++ " items")
      else None
  | None => None
  end.

Definition known (keys : list (string * bool * schema)) (k : string) : bool :=
  existsb (fun e => String.eqb k (fst (fst e))) keys.

Definition check_unknown (p : path) (keys : list (string * bool * schema))
           (fields : list (string * value)) : option string :=
  match find (fun kv => negb (known keys (fst kv))) fields with
  | Some kv => Some (label (child p (fst kv)) ++ " is not allowed")
  | None => None
  end.

(** The first error message of [schema.validate(v)], [None] when [v]
    conforms. *)
Fixpoint validate (p : path) (sc : schema) (v : value) {struct sc} : option string :=
  match sc with
  | string_ min max => check_string p min max v
  | valid allowed => check_valid p allowed v
  | number min max => check_number p min max v
  | array items max =>
      match v with
      | VArr l =>
          let fix each (i : nat) (l : list value) : option string :=
            match l with
            | [] => None
            | x :: rest =>
                otherwise
                  match x with
                  | VUndefined =>
                      Some (label (index p i) ++ " must not be a sparse array item")
                  | _ => validate (index p i) items x
                  end
                  (each (S i) rest)
            end in
          otherwise (each 0 l) (check_max_items p max (List.length l))
      | _ => Some (label p ++ " must be an array")
      end
  | object keys =>
      match v with
      | VObj fields =>
          let fix each (ks : list (string * bool * schema)) : option string :=
            match ks with
            | [] => None
            | (k, required, sub) :: rest =>
                otherwise
                  match Js.lookup k fields with
                  | VUndefined =>
                      if required then Some (label (child p k) ++ " is required")
                      else None
                  | x => validate (child p k) sub x
                  end
                  (each rest)
            end in
          otherwise (each keys) (check_unknown p keys fields)
      | _ => Some (label p ++ " must be of type object")
      end
  end.

End Joi.

(* ================================================================= *)
(** * Stages

    Every stage of an evolution cycle announces itself on its logger when
    it is entered. The embedding keeps these announcements, oldest first,
    as the record of which stages ran. *)

Inductive Event : Type :=
| Planning                      (* AgentOrchestrator.plan *)
| ValidatingPlan                (* SafetyManager.validatePlan *)
| GeneratingCode                (* AgentOrchestrator.generateCode *)
| TestingInSandbox              (* SafetyManager.testInSandbox *)
| StaticAnalysis                (* SafetyManager.performStaticAnalysis *)
| DynamicTesting                (* SafetyManager.performDynamicTesting *)
| Integrating                   (* FeatureManager.integrateFeature *)
| Recording (success : bool)    (* EvolutionTracker.recordEvolution *)
| Reflecting.                   (* AgentOrchestrator.reflect *)

(* ================================================================= *)
(** * SafetyManager ([core/safety-manager.js]) *)

Module SafetyManager.

Import JsString.

(** ** Configuration *)

Record SafetyRules : Type := {
  maxFileSize : Z;
  maxExecutionTime : Z;
  maxMemoryUsage : Z
}.

(** [loadSafetyRules]; the two arguments are
    [parseInt(process.env.MAX_FILE_SIZE_KB)] and
    [parseInt(process.env.SANDBOX_TIMEOUT_MS)], [None] for [NaN]. A
    product or a value of zero is falsy and gives way to the default. *)
Definition loadSafetyRules (max_file_size_kb sandbox_timeout_ms : option Z) : SafetyRules :=
  {| maxFileSize :=
       match max_file_size_kb with
       | Some k => if (k * 1024 =? 0)%Z then 100 * 1024 else k * 1024
       | None => 100 * 1024
       end%Z;
     maxExecutionTime :=
       match sandbox_timeout_ms with
       | Some t => if (t =? 0)%Z then 30000 else t
       | None => 30000
       end%Z;
     maxMemoryUsage := 50 * 1024 * 1024 |}.

Definition quotes : RegExp.cls := RegExp.Set_of ["'"; "034"; "`"]%char.
Definition quotes_source : string := "['" ++ dq ++ "`]".

(** The pattern that bans [require] of one module, with any of the three
    quote characters. *)
Definition require_of (name : string) : RegExp.t :=
  RegExp.mk ("require\(" ++ quotes_source ++ name ++ quotes_source ++ "\)") "gi" true
    [(RegExp.lit "require(" ++ [RegExp.One quotes] ++ RegExp.lit name
        ++ [RegExp.One quotes] ++ RegExp.lit ")")%list].

(** A pattern that is one literal text, flags [gi]. *)
Definition literal (source text : string) : RegExp.t :=
  RegExp.mk source "gi" true [RegExp.lit text].

Definition spaces : list RegExp.atom := [RegExp.Star RegExp.Space].

Definition loadBannedPatterns : list RegExp.t :=
  [ (* Dangerous Node.js modules and methods *)
    require_of "child_process";
    RegExp.mk ("require\(" ++ quotes_source ++ "fs" ++ quotes_source ++ "\)(?!\.promises)")
      "gi" true
      [(RegExp.lit "require(" ++ [RegExp.One quotes] ++ RegExp.lit "fs"
          ++ [RegExp.One quotes] ++ RegExp.lit ")" ++ [RegExp.NotAhead ".promises"])%list];
    require_of "net";
    require_of "http";
    require_of "https";
    require_of "cluster";
    require_of "worker_threads";
    (* Process manipulation *)
    literal "process\.exit" "process.exit";
    literal "process\.kill" "process.kill";
    literal "process\.abort" "process.abort";
    (* File system operations *)
    literal "\.writeFile" ".writeFile";
    literal "\.writeFileSync" ".writeFileSync";
    literal "\.unlink" ".unlink";
    literal "\.unlinkSync" ".unlinkSync";
    literal "\.rmdir" ".rmdir";
    literal "\.rmdirSync" ".rmdirSync";
    (* Network operations *)
    literal "fetch\(" "fetch(";
    literal "axios\." "axios.";
    literal "XMLHttpRequest" "XMLHttpRequest";
    (* Eval and code execution *)
    literal "eval\(" "eval(";
    literal "Function\(" "Function(";
    literal "setTimeout\(" "setTimeout(";
    literal "setInterval\(" "setInterval(";
    (* Global object access *)
    literal "global\." "global.";
    literal "globalThis\." "globalThis.";
    (* Dangerous patterns: infinite loops *)
    RegExp.mk "while\s*\(\s*true\s*\)" "gi" true
      [(RegExp.lit "while" ++ spaces ++ RegExp.lit "(" ++ spaces
          ++ RegExp.lit "true" ++ spaces ++ RegExp.lit ")")%list];
    RegExp.mk "for\s*\(\s*;\s*;\s*\)" "gi" true
      [(RegExp.lit "for" ++ spaces ++ RegExp.lit "(" ++ spaces ++ RegExp.lit ";"
          ++ spaces ++ RegExp.lit ";" ++ spaces ++ RegExp.lit ")")%list]
  ].

Definition loadAllowedModules : list string :=
  ["crypto"; "util"; "events"; "stream"; "uuid"; "joi"; "lodash"; "moment";
   "chalk"; "winston"].

(** ** Reports *)

Inductive Severity : Type := SevNone | SevLow | SevMedium | SevHigh.

Record ValidationReport : Type := {
  approved : bool;
  v_reason : string;
  severity : Severity
}.

Inductive Check : Type :=
| Safe                       (* { safe: true } *)
| Unsafe (reason : string).  (* { safe: false, reason } *)

Inductive Risk : Type := RiskLow | RiskMedium | RiskHigh.

Record ComplexityMetrics : Type := {
  lines : nat;
  functionCount : nat;
  loopCount : nat;
  conditionalCount : nat;
  risk : Risk;
  c_reason : string
}.

Record DynamicMetrics : Type := {
  executionTime : Z;
  memoryDelta : Z;
  result : value
}.

Inductive Metrics : Type :=
| OfComplexity (m : ComplexityMetrics)
| OfDynamic (m : DynamicMetrics)
| OfSandbox (staticAnalysis : option ComplexityMetrics)
            (dynamicTesting : option DynamicMetrics).

(** The object that the analysis and sandbox functions return; an absent
    property is [None]. *)
Record Report : Type := {
  safe : bool;
  reason : option string;
  pattern : option string;
  error : option string;
  metrics : option Metrics
}.

Definition rejected (why : string) : Report :=
  {| safe := false; reason := Some why; pattern := None; error := None;
     metrics := None |}.

(** ** Plan validation *)

Definition planSchema : Joi.schema :=
  Joi.object
    [ ("id", true, Joi.string_ None None);
      ("title", true, Joi.string_ (Some 3) (Some 100));
      ("description", true, Joi.string_ (Some 10) (Some 1000));
      ("category", true, Joi.valid ["api"; "utility"; "ui"; "integration"; "data"]);
      ("complexity", true, Joi.valid ["low"; "medium"; "high"]);
      ("estimatedLOC", false, Joi.number (Some 1%Z) (Some 2000%Z));
      ("dependencies", false, Joi.array (Joi.string_ None None) (Some 10));
      ("files", false,
       Joi.array
         (Joi.object [ ("path", true, Joi.string_ None None);
                       ("type", true, Joi.string_ None None);
                       ("purpose", true, Joi.string_ None None) ])
         (Some 5));
      ("safetyConsiderations", false, Joi.array (Joi.string_ None None) None) ].

Definition suspiciousKeywords : list string :=
  ["delete"; "remove"; "destroy"; "hack"; "exploit";
   "malware"; "virus"; "backdoor"; "shell"; "exec";
   "password"; "secret"; "token"; "credential"].

(** The loop over [plan.files]. *)
Fixpoint check_paths (files : list value) : Completion Check :=
  match files with
  | [] => Normal Safe
  | file :: rest =>
      match file with
      | VUndefined => Throw "Cannot read properties of undefined (reading 'path')"
      | VNull => Throw "Cannot read properties of null (reading 'path')"
      | _ =>
          match Js.get file "path" with
          | VStr path =>
              if startsWith path "dynamic/" then check_paths rest
              else Normal (Unsafe ("Unsafe file path: " ++ path
                                     ++ ". All files must be in dynamic/ directory"))
          | VUndefined =>
              Throw "Cannot read properties of undefined (reading 'startsWith')"
          | VNull =>
              Throw "Cannot read properties of null (reading 'startsWith')"
          | _ => Throw "file.path.startsWith is not a function"
          end
      end
  end.

Definition checkSuspiciousContent (plan : value) : Completion Check :=
  match Js.stringify plan with
  | None => Throw "Cannot read properties of undefined (reading 'toLowerCase')"
  | Some text =>
      let textContent := toLowerCase text in
      match find (fun keyword => includes textContent keyword) suspiciousKeywords with
      | Some keyword => Normal (Unsafe ("Suspicious keyword detected: " ++ keyword))
      | None =>
          let files := Js.get plan "files" in
          if Js.truthy files then
            match files with
            | VArr l => check_paths l
            | VStr _ =>
                (* the loop takes the text one character at a time *)
                Throw "Cannot read properties of undefined (reading 'startsWith')"
            | _ => Throw "plan.files is not iterable"
            end
          else Normal Safe
      end
  end.

Section Instance.

(** The fields of one [SafetyManager]. *)
Variable safetyRules : SafetyRules.
Variable bannedPatterns : list RegExp.t.
Variable allowedModules : list string.

Fixpoint check_dependencies (dependencies : list value) : Check :=
  match dependencies with
  | [] => Safe
  | dep :: rest =>
      if match dep with
         | VStr name => existsb (String.eqb name) allowedModules
         | _ => false
         end
      then check_dependencies rest
      else Unsafe ("Dependency '" ++ Js.to_string dep
                     ++ "' is not in the allowed modules list")
  end.

(** [validateDependencies]; the loop takes an array item by item and a
    text character by character. *)
Definition validateDependencies (dependencies : value) : Completion Check :=
  match dependencies with
  | VArr l => Normal (check_dependencies l)
  | VStr s =>
      Normal (check_dependencies
                (map (fun c => VStr (String c EmptyString)) (list_ascii_of_string s)))
  | _ => Throw "dependencies is not iterable"
  end.

Definition verdict (ok : bool) (why : string) (sev : Severity) : ValidationReport :=
  {| approved := ok; v_reason := why; severity := sev |}.

(** [validatePlan]. The first log line reads [plan.id] before the
    [try] block, so a plan that is [undefined] or [null] throws. *)
Definition validatePlan (plan : value) : Completion ValidationReport :=
  match plan with
  | VUndefined => Throw "Cannot read properties of undefined (reading 'id')"
  | VNull => Throw "Cannot read properties of null (reading 'id')"
  | _ =>
      Normal
        match Joi.validate None planSchema plan with
        | Some message => verdict false ("Plan validation failed: " ++ message) SevHigh
        | None =>
            match checkSuspiciousContent plan with
            | Throw message => verdict false ("Validation error: " ++ message) SevHigh
            | Normal (Unsafe why) => verdict false why SevHigh
            | Normal Safe =>
                match validateDependencies
                        (Js.or_else (Js.get plan "dependencies") (VArr [])) with
                | Throw message => verdict false ("Validation error: " ++ message) SevHigh
                | Normal (Unsafe why) => verdict false why SevMedium
                | Normal Safe => verdict true "Plan passed all safety checks" SevNone
                end
            end
        end
  end.

(** ** Static analysis *)

Definition functions_re : RegExp.t :=
  RegExp.mk "function\s+\w+" "g" false
    [(RegExp.lit "function" ++ [RegExp.Plus RegExp.Space; RegExp.Plus RegExp.Word])%list].

Definition loops_re : RegExp.t :=
  RegExp.mk "for\s*\(|while\s*\(|do\s*{" "g" false
    [ (RegExp.lit "for" ++ spaces ++ RegExp.lit "(")%list;
      (RegExp.lit "while" ++ spaces ++ RegExp.lit "(")%list;
      (RegExp.lit "do" ++ spaces ++ RegExp.lit "{")%list ].

Definition conditionals_re : RegExp.t :=
  RegExp.mk "if\s*\(|switch\s*\(" "g" false
    [ (RegExp.lit "if" ++ spaces ++ RegExp.lit "(")%list;
      (RegExp.lit "switch" ++ spaces ++ RegExp.lit "(")%list ].

Definition analyzeComplexity (code : string) : ComplexityMetrics :=
  let lines := split_count "010" code in
  let functionCount := RegExp.count code functions_re in
  let loopCount := RegExp.count code loops_re in
  let conditionalCount := RegExp.count code conditionals_re in
  let '(risk, reason) :=
    if (500 <? lines)%nat then (RiskHigh, "Too many lines of code")
    else if (20 <? functionCount)%nat then (RiskHigh, "Too many functions")
    else if (10 <? loopCount)%nat then (RiskMedium, "High number of loops")
    else if (15 <? conditionalCount)%nat then (RiskMedium, "High number of conditionals")
    else (RiskLow, "Code complexity is acceptable") in
  {| lines := lines; functionCount := functionCount; loopCount := loopCount;
     conditionalCount := conditionalCount; risk := risk; c_reason := reason |}.

(** The loop over [bannedPatterns]: the report of the first pattern,
    in list order, that the code matches. *)
Fixpoint check_patterns (patterns : list RegExp.t) (code : string) : option Report :=
  match patterns with
  | [] => None
  | pattern :: rest =>
      match RegExp.match_ code pattern with
      | Some matches =>
          Some {| safe := false;
                  reason := Some ("Banned pattern detected: " ++ hd "undefined" matches);
                  pattern := Some (RegExp.toString pattern);
                  error := None;
                  metrics := None |}
      | None => check_patterns rest code
      end
  end.

Definition code_length (code : string) : Z := Z.of_nat (String.length code).

Definition performStaticAnalysis (code : string) : Report :=
  if (maxFileSize safetyRules <? code_length code)%Z then
    rejected ("Code size (" ++ of_Z (code_length code)
                ++ ") exceeds maximum allowed ("
                ++ of_Z (maxFileSize safetyRules) ++ ")")
  else
    match check_patterns bannedPatterns code with
    | Some report => report
    | None =>
        let complexityMetrics := analyzeComplexity code in
        match risk complexityMetrics with
        | RiskHigh =>
            rejected ("Code complexity too high: " ++ c_reason complexityMetrics)
        | _ =>
            {| safe := true; reason := None; pattern := None; error := None;
               metrics := Some (OfComplexity complexityMetrics) |}
        end
    end.

(** ** Sandbox execution *)

(** What one [vm.run] is observed to do: the clock and the heap before
    the run, and either the value returned with the clock and the heap
    after it, or the message of the error that vm2 raised (a runtime
    error of the code, a refused module, or vm2's own timeout). *)
Inductive VmOutcome : Type :=
| Returned (result : value) (endTime endHeap : Z)
| Raised (message : string).

Record SandboxRun : Type := {
  startTime : Z;
  startHeap : Z;
  outcome : VmOutcome
}.

Variable vm_run : string -> SandboxRun.

Definition sandbox_script (code : string) : string :=
  "
          (() => {
            " ++ code ++ "
            return { status: 'executed', timestamp: Date.now() };
          })()
        ".

Definition performDynamicTesting (code : string) : Report :=
  let run := vm_run (sandbox_script code) in
  match outcome run with
  | Returned result endTime endHeap =>
      let executionTime := (endTime - startTime run)%Z in
      let memoryDelta := (endHeap - startHeap run)%Z in
      if (maxExecutionTime safetyRules <? executionTime)%Z then
        rejected ("Execution time (" ++ of_Z executionTime ++ "ms) exceeded limit ("
                    ++ of_Z (maxExecutionTime safetyRules) ++ "ms)")
      else if (maxMemoryUsage safetyRules <? memoryDelta)%Z then
        rejected ("Memory usage (" ++ of_Z memoryDelta ++ " bytes) exceeded limit ("
                    ++ of_Z (maxMemoryUsage safetyRules) ++ " bytes)")
      else
        {| safe := true; reason := None; pattern := None; error := None;
           metrics := Some (OfDynamic {| executionTime := executionTime;
                                          memoryDelta := memoryDelta;
                                          result := result |}) |}
  | Raised message =>
      {| safe := false; reason := Some ("Dynamic testing failed: " ++ message);
         pattern := None; error := Some message; metrics := None |}
  end.

Definition complexity_of (r : Report) : option ComplexityMetrics :=
  match metrics r with
  | Some (OfComplexity m) => Some m
  | _ => None
  end.

Definition dynamic_of (r : Report) : option DynamicMetrics :=
  match metrics r with
  | Some (OfDynamic m) => Some m
  | _ => None
  end.

(** [testInSandbox], with the stages it entered. Neither analysis
    throws, so the [catch] of the source is never taken. *)
Definition testInSandbox (code : string) : list Event * Report :=
  let staticCheck := performStaticAnalysis code in
  if negb (safe staticCheck) then
    ([TestingInSandbox; StaticAnalysis], staticCheck)
  else
    let dynamicCheck := performDynamicTesting code in
    if negb (safe dynamicCheck) then
      ([TestingInSandbox; StaticAnalysis; DynamicTesting], dynamicCheck)
    else
      ([TestingInSandbox; StaticAnalysis; DynamicTesting],
       {| safe := true;
          reason := Some "Code passed all sandbox tests";
          pattern := None;
          error := None;
          metrics := Some (OfSandbox (complexity_of staticCheck)
                                     (dynamic_of dynamicCheck)) |}).

(** ** Quarantine *)

(** [new Date(t).toISOString()] *)
Variable toISOString : Z -> string.

Definition quarantine_content (now : Z) (code why : string) : string :=
  "
/**
 * QUARANTINED CODE
 * Reason: " ++ why ++ "
 * Timestamp: " ++ toISOString now ++ "
 * DO NOT EXECUTE
 */

/*
" ++ code ++ "
*/
".

(** [quarantineCode]: writes one file under [logs/quarantine] and
    returns its path. The pictograph of the banner lies outside the code
    units of the embedding and is left out of the content. The store is the list of files of that directory,
    newest last; a file of the same name is replaced. *)
Definition write_file (path content : string) (files : list (string * string))
  : list (string * string) :=
  filter (fun f => negb (String.eqb (fst f) path)) files ++ [(path, content)].

Definition quarantineCode (now : Z) (code why : string)
           (store : list (string * string)) : string * list (string * string) :=
  let quarantinePath := "logs/quarantine/quarantine-" ++ of_Z now ++ ".js" in
  (quarantinePath, write_file quarantinePath (quarantine_content now code why) store).

End Instance.

(** ** Vocabulary of the properties *)

(** The code has no match of the pattern. *)
Definition unmatched (code : string) (p : RegExp.t) : Prop :=
  RegExp.match_ code p = None.

(** The report that names the pattern [p] through its first match [m]. *)
Definition banned (p : RegExp.t) (m : string) : Report :=
  {| safe := false;
     reason := Some ("Banned pattern detected: " ++ m);
     pattern := Some (RegExp.toString p);
     error := None;
     metrics := None |}.

Definition unmatchedb (code : string) (p : RegExp.t) : bool :=
  match RegExp.match_ code p with
  | None => true
  | Some _ => false
  end.

(** ** The sandbox environment *)

(** The [require] that [createSandboxEnvironment] hands to the code: the
    module of an allowed name, an error for any other. *)
Definition sandbox_require (allowedModules : list string) (name : string)
  : Completion string :=
  if existsb (String.eqb name) allowedModules then Normal name
  else Throw ("Module '" ++ name ++ "' is not allowed in sandbox").

(** The keys that the schema requires of a plan. *)
Definition required_keys : list string :=
  ["id"; "title"; "description"; "category"; "complexity"].

(** A declared file whose path lies, by its first characters, in the
    storage root. *)
Definition path_inside (file : value) : Prop :=
  exists path, Js.get file "path" = VStr path /\ startsWith path "dynamic/" = true.

(** None of the suspicious keywords occurs in the serialised plan. *)
Definition keywords_absent (plan : value) : Prop :=
  exists text,
    Js.stringify plan = Some text
    /\ Forall (fun keyword => includes (toLowerCase text) keyword = false)
              suspiciousKeywords.

(** Every declared file of the plan, if it declares any, is inside. *)
Definition paths_inside (plan : value) : Prop :=
  match Js.get plan "files" with
  | VArr files => Forall path_inside files
  | v => Js.truthy v = false
  end.

Definition dependency_allowed (allowedModules : list string) (dep : value) : Prop :=
  exists name, dep = VStr name /\ In name allowedModules.

(** Every declared dependency of the plan, if it declares any, is
    allowed. *)
Definition dependencies_allowed (allowedModules : list string) (plan : value) : Prop :=
  match Js.get plan "dependencies" with
  | VArr deps => Forall (dependency_allowed allowedModules) deps
  | v => Js.truthy v = false
  end.

End SafetyManager.

(* ================================================================= *)
(** * A JavaScript [Map] with string keys

    Entries keep the order of first insertion, as [Map.prototype.values]
    shows them. *)

Module JsMap.

Section Entries.
Context {V : Type}.

Definition t := list (string * V).

Fixpoint get (k : string) (m : t) : option V :=
  match m with
  | [] => None
  | (k', v) :: rest => if String.eqb k k' then Some v else get k rest
  end.

Fixpoint set (k : string) (v : V) (m : t) : t :=
  match m with
  | [] => [(k, v)]
  | (k', v') :: rest =>
      if String.eqb k k' then (k, v) :: rest else (k', v') :: set k v rest
  end.

Definition values (m : t) : list V := map snd m.

(** [Map.prototype.delete] *)
Definition delete (k : string) (m : t) : t :=
  filter (fun e => negb (String.eqb k (fst e))) m.

End Entries.

Arguments t V : clear implicits.

End JsMap.

(* ================================================================= *)
(** * JavaScript arrays

    [Array.prototype.sort] is stable, so with a comparator that is the
    difference of two numeric keys its result is determined: the stable
    sort by that key. *)

Module JsArray.

Section Sort.

Context {A : Type}.
Variable key : A -> Z.

(** The place of [x] in a list in descending order of key: after the
    elements of a greater key, before those of an equal or lesser one. *)
Fixpoint insert (x : A) (l : list A) : list A :=
  match l with
  | [] => [x]
  | y :: rest => if (key x <? key y)%Z then y :: insert x rest else x :: l
  end.

(** [l.sort((a, b) => key(b) - key(a))] *)
Fixpoint sort_desc (l : list A) : list A :=
  match l with
  | [] => []
  | x :: rest => insert x (sort_desc rest)
  end.

End Sort.

(** [l.slice(start)]: a negative [start] counts from the end. *)
Definition slice {A : Type} (start : Z) (l : list A) : list A :=
  let len := Z.of_nat (List.length l) in
  let k := if (start <? 0)%Z then Z.max (len + start) 0 else Z.min start len in
  skipn (Z.to_nat k) l.

(** In descending order of key. *)
Definition descending {A : Type} (key : A -> Z) (l : list A) : Prop :=
  Sorted (fun a b => (key b <= key a)%Z) l.

End JsArray.

(* ================================================================= *)
(** * FeatureManager ([core/feature-manager.js]) *)

(** What a loaded feature module exports, as far as the manager probes it. *)
Module NodeModule.

(** The observed behaviour of an exported function on one input: whether
    the value it returns (awaited) resolves or rejects, and after how many
    milliseconds. A synchronous throw is a rejection after no time. A
    rejection with a reason other than [undefined] and [null] is known by
    what [reason.message] reads in a template literal ("undefined" for a
    reason that has no message); a rejection with [undefined] or [null]
    has no [message] to read. *)
Inductive Settled : Type :=
| Resolves (result : value)
| Rejects (message : string)
| RejectsBare (null : bool).   (* the reason is [undefined], or [null] *)

(** The message of the [TypeError] that reading [error.message] raises
    when [error] is [undefined] or [null]. *)
Definition no_message (null : bool) : string :=
  "Cannot read properties of " ++ (if null then "null" else "undefined")
    ++ " (reading 'message')".

Record Call : Type := {
  elapsed : Z;
  settled : Settled
}.

Definition Fn : Type := value -> Call.

(** [module.metadata]; its members are strings where present. *)
Record Metadata : Type := {
  id : option string;
  title : option string;
  description : option string;
  category : option string;
  complexity : option string;
  generated : option string
}.

Record Route : Type := {
  method : string;
  path : string;
  handler_name : string;
  route_description : string
}.

(** [module.routes]: absent or falsy, an array, or another truthy value,
    of which the manager reads no more than whether its [length] exceeds
    0 (a string of text does, an object counts by its [length] member). *)
Inductive Routes : Type :=
| NoRoutes
| RouteTable (table : list Route)
| OtherRoutes (long : bool).

Record t : Type := {
  callable : option Fn;          (* the module itself is a function *)
  execute : option Fn;
  get : option Fn;
  process : option Fn;
  validate : option Fn;
  transform : option Fn;
  handler : option Fn;
  health : option (Completion value);   (* what [health()] returns, or the
                                           message of the error it throws *)
  routes_value : Routes;         (* [module.routes] *)
  schedule : bool;               (* [module.schedule] is truthy *)
  webhook : bool;                (* [module.webhook] is truthy *)
  metadata : option Metadata
}.

(** [module.routes] when [Array.isArray(module.routes)]. *)
Definition routes (m : t) : option (list Route) :=
  match routes_value m with
  | RouteTable table => Some table
  | _ => None
  end.

(** [module.routes && module.routes.length > 0] *)
Definition routes_length_positive (m : t) : bool :=
  match routes_value m with
  | NoRoutes => false
  | RouteTable [] => false
  | RouteTable (_ :: _) => true
  | OtherRoutes long => long
  end.

(** [module.metadata?.field], [None] for [undefined]. *)
Definition meta (m : t) (field : Metadata -> option string) : option string :=
  match metadata m with
  | Some md => field md
  | None => None
  end.

(** [a || b] on an optional string: the empty string is falsy. *)
Definition or_else (a : option string) (b : string) : string :=
  match a with
  | Some s => if String.eqb s "" then b else s
  | None => b
  end.

End NodeModule.

Module FeatureManager.

Import JsString.

Inductive Created : Type :=
| FromMetadata (generated : string)   (* new Date(module.metadata.generated) *)
| FromBirthtime (birthtime : Z).      (* stats.birthtime *)

Record Feature : Type := {
  id : string;
  name : string;
  description : string;
  category : string;
  complexity : string;
  filePath : string;
  filename : string;
  module : NodeModule.t;
  created : Created;
  lastModified : Z;
  lastUsed : option Z;
  usageCount : nat;
  active : bool;
  routes : list NodeModule.Route;
  capabilities : list string
}.

(** A file of the storage root. *)
Record File : Type := {
  content : string;
  birthtime : Z;
  mtime : Z
}.

(** The manager and what it owns: the [features] map, the files of
    [dynamicDir] in the order [readdir] lists them, and how many
    identifiers [uuidv4] has handed out. File-system calls succeed. *)
Record State : Type := {
  features : JsMap.t Feature;
  dynamicDir : list (string * File);
  drawn : nat
}.

(** [new FeatureManager()] over a storage root. *)
Definition start (files : list (string * File)) (drawn : nat) : State :=
  {| features := []; dynamicDir := files; drawn := drawn |}.

Definition with_features (fs : JsMap.t Feature) (st : State) : State :=
  {| features := fs; dynamicDir := dynamicDir st; drawn := drawn st |}.

Definition set_usage (now : Z) (f : Feature) : Feature :=
  {| id := id f; name := name f; description := description f;
     category := category f; complexity := complexity f;
     filePath := filePath f; filename := filename f; module := module f;
     created := created f; lastModified := lastModified f;
     lastUsed := Some now; usageCount := S (usageCount f);
     active := active f; routes := routes f; capabilities := capabilities f |}.

Definition set_active (b : bool) (f : Feature) : Feature :=
  {| id := id f; name := name f; description := description f;
     category := category f; complexity := complexity f;
     filePath := filePath f; filename := filename f; module := module f;
     created := created f; lastModified := lastModified f;
     lastUsed := lastUsed f; usageCount := usageCount f;
     active := b; routes := routes f; capabilities := capabilities f |}.

Fixpoint read_file (name : string) (files : list (string * File)) : option File :=
  match files with
  | [] => None
  | (n, f) :: rest => if String.eqb name n then Some f else read_file name rest
  end.

(** [fs.writeFile]: a new file is listed last, an existing one keeps its
    place and its birth time. *)
Fixpoint write_file (now : Z) (name text : string) (files : list (string * File))
  : list (string * File) :=
  match files with
  | [] => [(name, {| content := text; birthtime := now; mtime := now |})]
  | (n, f) :: rest =>
      if String.eqb name n
      then (n, {| content := text; birthtime := birthtime f; mtime := now |}) :: rest
      else (n, f) :: write_file now name text rest
  end.

(** [s.replace(/\s+/g, '-')] *)
Fixpoint dash_spaces (in_run : bool) (s : string) : string :=
  match s with
  | EmptyString => EmptyString
  | String c t =>
      if RegExp.is_space c
      then if in_run then dash_spaces true t else String "-" (dash_spaces true t)
      else String c (dash_spaces false t)
  end.

(** [s.replace(/[^a-zA-Z0-9]/g, '-')] *)
Definition dash_symbols (s : string) : string :=
  map_chars (fun c => if between 48 57 c || between 65 90 c || between 97 122 c
                      then c else "-"%char) s.

(** [s.replace('.js', '')]: the first occurrence only. *)
Fixpoint drop_js (s : string) : string :=
  if String.prefix ".js" s then String.substring 3 (String.length s - 3) s
  else match s with
       | EmptyString => EmptyString
       | String c t => String c (drop_js t)
       end.

Definition route_path (m : NodeModule.t) : string :=
  "/api/" ++ NodeModule.or_else
               (option_map (fun t => dash_spaces false (toLowerCase t))
                           (NodeModule.meta m NodeModule.title))
               "feature".

Definition extractRoutes (m : NodeModule.t) : list NodeModule.Route :=
  match NodeModule.routes m with
  | Some declared => declared
  | None =>
      (match NodeModule.execute m with
       | Some _ => [ {| NodeModule.method := "POST";
                        NodeModule.path := route_path m;
                        NodeModule.handler_name := "execute";
                        NodeModule.route_description := "Execute the main feature function" |} ]
       | None => []
       end
       ++
       match NodeModule.get m with
       | Some _ => [ {| NodeModule.method := "GET";
                        NodeModule.path := route_path m;
                        NodeModule.handler_name := "get";
                        NodeModule.route_description := "Get feature data" |} ]
       | None => []
       end)%list
  end.

Definition has {A} (o : option A) : bool :=
  match o with Some _ => true | None => false end.

Definition analyzeCapabilities (m : NodeModule.t) : list string :=
  ((if has (NodeModule.execute m) then ["executable"] else [])
   ++ (if has (NodeModule.get m) then ["data-provider"] else [])
   ++ (if has (NodeModule.process m) then ["processor"] else [])
   ++ (if has (NodeModule.validate m) then ["validator"] else [])
   ++ (if has (NodeModule.transform m) then ["transformer"] else [])
   ++ (if NodeModule.routes_length_positive m then ["api-provider"] else [])
   ++ (if NodeModule.schedule m then ["scheduled"] else [])
   ++ (if NodeModule.webhook m then ["webhook-handler"] else []))%list.

(** The response of a successful [executeFeature]. *)
Record Identity : Type := {
  i_id : string;
  i_name : string;
  i_usageCount : nat
}.

Record Execution : Type := {
  success : bool;
  result : value;
  feature : Identity;
  timestamp : Z
}.

(** The entry point that [executeFeature] dispatches to: [module.execute],
    else the module itself, else [module.handler]. *)
Definition entry_point (m : NodeModule.t) : option NodeModule.Fn :=
  match NodeModule.execute m with
  | Some f => Some f
  | None =>
      match NodeModule.callable m with
      | Some f => Some f
      | None => NodeModule.handler m
      end
  end.

Definition test_timeout : Z := 5000.

(** The health probe of [testFeature]: the message of the error it ends
    in, [None] when the module has no [health] or reports itself healthy. *)
Definition health_failure (m : NodeModule.t) : option string :=
  match NodeModule.health m with
  | None => None
  | Some (Throw message) => Some message
  | Some (Normal VUndefined) =>
      Some "Cannot read properties of undefined (reading 'status')"
  | Some (Normal VNull) =>
      Some "Cannot read properties of null (reading 'status')"
  | Some (Normal health) =>
      match Js.get health "status" with
      | VStr "healthy" => None
      | _ => Some ("Health check failed: "
                     ++ match Js.stringify health with
                        | Some text => text
                        | None => "undefined"
                        end)
      end
  end.

(** The safe input of the self-test: [{ test: true }]. *)
Definition test_input : value := VObj [("test", VBool true)].

(** [testFeature]: the health probe, then one call of [execute] on
    [{ test: true }] raced against a timer of [test_timeout] ms. A failed
    or late call is logged as a warning, which is returned; a failed probe
    deactivates the feature and rethrows, and so does a call rejected
    with [undefined] or [null], because the warning reads [error.message].
    The second component is the feature object after the call. *)
Definition testFeature (f : Feature) : Completion (option string) * Feature :=
  match health_failure (module f) with
  | Some message => (Throw message, set_active false f)
  | None =>
      match NodeModule.execute (module f) with
      | None => (Normal None, f)
      | Some run =>
          let call := run test_input in
          if (NodeModule.elapsed call <? test_timeout)%Z then
            match NodeModule.settled call with
            | NodeModule.Resolves _ => (Normal None, f)
            | NodeModule.Rejects message => (Normal (Some message), f)
            | NodeModule.RejectsBare null =>
                (* the warning itself fails, and the outer [catch] takes over *)
                (Throw (NodeModule.no_message null), set_active false f)
            end
          else (Normal (Some "Test timeout"), f)
      end
  end.

(** [module.metadata?.id], the empty string when there is none. *)
Definition declared_id (m : NodeModule.t) : string :=
  NodeModule.or_else (NodeModule.meta m NodeModule.id) "".

(** The feature wrapper that [loadFeature] creates around a module. *)
Definition describe (filename : string) (file : File) (module : NodeModule.t)
           (id : string) : Feature :=
  {| id := id;
     name := NodeModule.or_else (NodeModule.meta module NodeModule.title)
               (drop_js filename);
     description :=
       NodeModule.or_else (NodeModule.meta module NodeModule.description)
         "AI-generated feature";
     category :=
       NodeModule.or_else (NodeModule.meta module NodeModule.category) "utility";
     complexity :=
       NodeModule.or_else (NodeModule.meta module NodeModule.complexity) "medium";
     filePath := "dynamic/" ++ filename;
     filename := filename;
     module := module;
     created :=
       match NodeModule.meta module NodeModule.generated with
       | Some g => if String.eqb g "" then FromBirthtime (birthtime file)
                   else FromMetadata g
       | None => FromBirthtime (birthtime file)
       end;
     lastModified := mtime file;
     lastUsed := None;
     usageCount := 0;
     active := true;
     routes := extractRoutes module;
     capabilities := analyzeCapabilities module |}.

(** The name of the file that [integrateFeature] writes. *)
Definition feature_filename (now : Z) (title : string) : string :=
  let safeTitle := toLowerCase (dash_symbols title) in
  "feature-" ++ of_Z now ++ "-" ++ safeTitle ++ ".js".

Section Manager.

(** [require(absolutePath)] with an emptied cache, as a function of the
    text of the file: the exports of the module, or the error that loading
    raised. *)
Variable require : string -> Completion NodeModule.t.

(** The [n]-th identifier that [uuidv4()] hands out. *)
Variable uuidv4 : nat -> string.

(** [new Date(t).toISOString()] *)
Variable toISOString : Z -> string.

Definition loadFeature (filename : string) (st : State) : Completion Feature * State :=
  match read_file filename (dynamicDir st) with
  | None => (Throw ("Cannot find module 'dynamic/" ++ filename ++ "'"), st)
  | Some file =>
      match require (content file) with
      | Throw message => (Throw message, st)
      | Normal module =>
          let fresh := String.eqb (declared_id module) "" in
          let feature :=
            describe filename file module
              (if fresh then uuidv4 (drawn st) else declared_id module) in
          (Normal feature,
           {| features := JsMap.set (id feature) feature (features st);
              dynamicDir := dynamicDir st;
              drawn := if fresh then S (drawn st) else drawn st |})
      end
  end.

(** The loop of [loadAllFeatures]: a file that fails to load is logged
    and skipped. *)
Fixpoint load_each (files : list string) (st : State) : State :=
  match files with
  | [] => st
  | file :: rest =>
      if endsWith file ".js"
      then load_each rest (snd (loadFeature file st))
      else load_each rest st
  end.

Definition loadAllFeatures (st : State) : list Feature * State :=
  let st' := load_each (map fst (dynamicDir st)) st in
  (JsMap.values (features st'), st').

Definition executeFeature (now : Z) (featureId : string) (input : value) (st : State)
  : Completion Execution * State :=
  match JsMap.get featureId (features st) with
  | None => (Throw ("Feature not found: " ++ featureId), st)
  | Some feature =>
      if negb (active feature) then (Throw ("Feature is inactive: " ++ name feature), st)
      else
        (* Update usage tracking *)
        let feature := set_usage now feature in
        let st := with_features (JsMap.set featureId feature (features st)) st in
        let input := match input with VUndefined => VObj [] | _ => input end in
        match entry_point (module feature) with
        | None =>
            (Throw "Feature execution failed: No executable method found in feature", st)
        | Some run =>
            let call := run input in
            match NodeModule.settled call with
            | NodeModule.Resolves result =>
                (Normal {| success := true;
                           result := result;
                           feature := {| i_id := id feature;
                                         i_name := name feature;
                                         i_usageCount := usageCount feature |};
                           timestamp := (now + NodeModule.elapsed call)%Z |},
                 st)
            | NodeModule.Rejects message =>
                (Throw ("Feature execution failed: " ++ message), st)
            | NodeModule.RejectsBare null =>
                (* the [catch] block fails before it throws its own error *)
                (Throw (NodeModule.no_message null), st)
            end
        end
  end.

Definition field (plan : value) (k : string) : string := Js.to_string (Js.get plan k).

(** [wrapFeatureCode]; the pictograph of the banner comment lies outside
    the code units of the embedding and is left out. *)
Definition wrapFeatureCode (now : Z) (code : string) (plan : value) : string :=
  "
/**
 * Auto-generated feature by Autonomo
 * 
 * Plan ID: " ++ field plan "id" ++ "
 * Title: " ++ field plan "title" ++ "
 * Description: " ++ field plan "description" ++ "
 * Generated: " ++ toISOString now ++ "
 * Category: " ++ field plan "category" ++ "
 * Complexity: " ++ field plan "complexity" ++ "
 */

const winston = require('winston');

const logger = winston.createLogger({
  level: 'info',
  format: winston.format.simple(),
  transports: [new winston.transports.Console()]
});

// Wrap user code in error handling
const userCode = () => {
  " ++ code ++ "
};

// Execute user code
let exports;
try {
  exports = userCode();
} catch (error) {
  logger.error('Feature initialization error:', error);
  exports = {};
}

// Ensure proper module exports
if (typeof exports !== 'object' || exports === null) {
  exports = { execute: exports };
}

// Add metadata
exports.metadata = {
  id: '" ++ field plan "id" ++ "',
  title: '" ++ field plan "title" ++ "',
  description: '" ++ field plan "description" ++ "',
  category: '" ++ field plan "category" ++ "',
  complexity: '" ++ field plan "complexity" ++ "',
  generated: '" ++ toISOString now ++ "',
  agent: 'feature-manager',
  version: '1.0.0'
};

// Add health check
exports.health = () => ({
  status: 'healthy',
  name: exports.metadata.title,
  uptime: process.uptime()
});

module.exports = exports;
".

(** [integrateFeature]. The feature that [loadFeature] returns is the
    object stored in the map, so what [testFeature] does to it shows in
    the map. *)
Definition integrateFeature (now : Z) (code : string) (plan : value) (st : State)
  : Completion Feature * State :=
  match plan with
  | VUndefined => (Throw "Cannot read properties of undefined (reading 'id')", st)
  | VNull => (Throw "Cannot read properties of null (reading 'id')", st)
  | _ =>
      match Js.get plan "title" with
      | VStr title =>
          let filename := feature_filename now title in
          let wrappedCode := wrapFeatureCode now code plan in
          let st := {| features := features st;
                       dynamicDir := write_file now filename wrappedCode (dynamicDir st);
                       drawn := drawn st |} in
          match loadFeature filename st with
          | (Throw message, st) => (Throw message, st)
          | (Normal feature, st) =>
              match testFeature feature with
              | (Throw message, feature) =>
                  (Throw message,
                   with_features (JsMap.set (id feature) feature (features st)) st)
              | (Normal _, feature) =>
                  (Normal feature,
                   with_features (JsMap.set (id feature) feature (features st)) st)
              end
          end
      | VUndefined | VNull =>
          (Throw "Cannot read properties of undefined (reading 'replace')", st)
      | _ => (Throw "plan.title.replace is not a function", st)
      end
  end.

Definition deactivateFeature (featureId : string) (st : State) : State :=
  match JsMap.get featureId (features st) with
  | Some feature =>
      with_features (JsMap.set featureId (set_active false feature) (features st)) st
  | None => st
  end.

End Manager.

(** The fields of a feature other than [lastUsed] and [usageCount]. *)
Definition same_identity (f g : Feature) : Prop :=
  id g = id f /\ name g = name f /\ description g = description f
  /\ category g = category f /\ complexity g = complexity f
  /\ filePath g = filePath f /\ filename g = filename f /\ module g = module f
  /\ created g = created f /\ lastModified g = lastModified f
  /\ active g = active f /\ routes g = routes f
  /\ capabilities g = capabilities f.

(** ** Queries and removal *)

(** [f.lastUsed] as a number: [null] counts as 0 in a subtraction. *)
Definition last_used_ms (f : Feature) : Z :=
  match lastUsed f with
  | Some t => t
  | None => 0%Z
  end.

Definition getActiveFeatures (st : State) : list Feature :=
  JsArray.sort_desc last_used_ms (filter active (JsMap.values (features st))).

Definition getFeature (featureId : string) (st : State) : option Feature :=
  JsMap.get featureId (features st).

Definition getFeaturesByCategory (wanted : string) (st : State) : list Feature :=
  filter (fun f => active f && String.eqb (category f) wanted)
         (JsMap.values (features st)).

Fixpoint remove_file (name : string) (files : list (string * File))
  : list (string * File) :=
  match files with
  | [] => []
  | (n, f) :: rest =>
      if String.eqb name n then remove_file name rest else (n, f) :: remove_file name rest
  end.

(** [fs.unlink(path)] on the storage root: it fails when the path names
    no file there. *)
Definition unlink (path : string) (files : list (string * File))
  : Completion (list (string * File)) :=
  let name := String.substring 8 (String.length path - 8) path in
  if String.prefix "dynamic/" path && has (read_file name files)
  then Normal (remove_file name files)
  else Throw ("ENOENT: no such file or directory, unlink '" ++ path ++ "'").

(** [deleteFeature]: the file goes first, then the entry; when the file
    cannot be removed the error is thrown again and the entry stays. *)
Definition deleteFeature (featureId : string) (st : State) : Completion unit * State :=
  match JsMap.get featureId (features st) with
  | Some feature =>
      match unlink (filePath feature) (dynamicDir st) with
      | Normal files =>
          (Normal tt,
           {| features := JsMap.delete featureId (features st);
              dynamicDir := files;
              drawn := drawn st |})
      | Throw message => (Throw message, st)
      end
  | None => (Normal tt, st)
  end.

(** The requests that the route [POST /features/:id/execute] serves for
    one feature, in order, each with its time and its input; the route
    answers an error with a status and goes on. *)
Fixpoint execute_each (featureId : string) (calls : list (Z * value)) (st : State)
  : State :=
  match calls with
  | [] => st
  | (now, input) :: rest =>
      execute_each featureId rest (snd (executeFeature now featureId input st))
  end.

(** The fields of a feature other than [active]. *)
Definition same_but_active (f g : Feature) : Prop :=
  id g = id f /\ name g = name f /\ description g = description f
  /\ category g = category f /\ complexity g = complexity f
  /\ filePath g = filePath f /\ filename g = filename f /\ module g = module f
  /\ created g = created f /\ lastModified g = lastModified f
  /\ lastUsed g = lastUsed f /\ usageCount g = usageCount f
  /\ routes g = routes f /\ capabilities g = capabilities f.

(** The invariant of the [features] map: no key twice, and every feature
    under its own id. *)
Definition well_keyed (m : JsMap.t Feature) : Prop :=
  NoDup (map fst m) /\ Forall (fun e => fst e = id (snd e)) m.

(** The names that [analyzeCapabilities] can give, in its order. *)
Definition capability_names : list string :=
  ["executable"; "data-provider"; "processor"; "validator"; "transformer";
   "api-provider"; "scheduled"; "webhook-handler"].

(** A file that the scan of [loadAllFeatures] loads: a [.js] file of the
    root whose module [require] accepts. *)
Definition loadable (require : string -> Completion NodeModule.t)
           (files : list (string * File)) (name : string) : bool :=
  endsWith name ".js"
  && match read_file name files with
     | Some file =>
         match require (content file) with
         | Normal _ => true
         | Throw _ => false
         end
     | None => false
     end.

(** The characters of a file name that [integrateFeature] derives from a
    title. *)
Definition plain_char (c : ascii) : bool :=
  between 48 57 c || between 97 122 c || Ascii.eqb c "-".

Fixpoint all_chars (p : ascii -> bool) (s : string) : bool :=
  match s with
  | EmptyString => true
  | String c t => p c && all_chars p t
  end.

(** The characters of that file name, its extension included. *)
Definition file_char (c : ascii) : bool := plain_char c || Ascii.eqb c ".".

End FeatureManager.

(* ================================================================= *)
(** * Autonomo.evolve ([index.js]) *)

Module Autonomo.

Import SafetyManager.

(** What [EvolutionTracker.recordEvolution] appends to its history. *)
Record EvolutionRecord : Type := {
  r_success : bool;
  r_request : value;
  r_mode : string;
  r_plan : option value;
  r_feature : option FeatureManager.Feature;
  r_error : option string;
  r_timestamp : Z
}.

(** The application: the stages entered so far, the feature manager, the
    files of [logs/quarantine] and the evolution history. *)
Record World : Type := {
  stages : list Event;
  manager : FeatureManager.State;
  quarantine : list (string * string);
  evolutionLog : list EvolutionRecord
}.

(** The value that a successful [evolve] returns. *)
Record Summary : Type := {
  s_id : string;
  s_name : string;
  s_description : string
}.

Record Evolution : Type := {
  e_record : EvolutionRecord;
  e_feature : Summary;
  e_plan : value
}.

Definition enter (events : list Event) (w : World) : World :=
  {| stages := (stages w ++ events)%list; manager := manager w;
     quarantine := quarantine w; evolutionLog := evolutionLog w |}.

Definition with_manager (m : FeatureManager.State) (w : World) : World :=
  {| stages := stages w; manager := m;
     quarantine := quarantine w; evolutionLog := evolutionLog w |}.

(** [recordEvolution]: the record joins the history. *)
Definition recordEvolution (r : EvolutionRecord) (w : World) : World :=
  {| stages := (stages w ++ [Recording (r_success r)])%list; manager := manager w;
     quarantine := quarantine w; evolutionLog := (evolutionLog w ++ [r])%list |}.

(** The record of a failed cycle. *)
Definition rejection (now : Z) (request : value) (mode message : string)
  : EvolutionRecord :=
  {| r_success := false; r_request := request; r_mode := mode;
     r_plan := None; r_feature := None; r_error := Some message;
     r_timestamp := now |}.

Section Evolve.

(** The fields of the safety manager. *)
Variable safetyRules : SafetyRules.

(** The collaborators: the planner and coder agents, the reflector, the
    vm2 sandbox, the module loader, [uuidv4] and the date formatter. *)
Variable planner : value -> string -> Completion value.
Variable coder : value -> Completion string.
Variable reflector : EvolutionRecord -> Completion unit.
Variable vm_run : string -> SandboxRun.
Variable require : string -> Completion NodeModule.t.
Variable uuidv4 : nat -> string.
Variable toISOString : Z -> string.

(** The [catch] block of [evolve]: the failure is recorded with the
    message of the error, which is then thrown again. *)
Definition failed (now : Z) (request : value) (mode message : string) (w : World)
  : Completion Evolution * World :=
  (Throw message, recordEvolution (rejection now request mode message) w).

Definition evolve (now : Z) (request : value) (mode : string) (w : World)
  : Completion Evolution * World :=
  (* Step 1: Planning *)
  let w := enter [Planning] w in
  match planner request mode with
  | Throw message => failed now request mode message w
  | Normal plan =>
      (* Step 2: Safety validation *)
      let w := enter [ValidatingPlan] w in
      match validatePlan loadAllowedModules plan with
      | Throw message => failed now request mode message w
      | Normal safetyCheck =>
          if negb (approved safetyCheck) then
            failed now request mode
              ("Safety validation failed: " ++ v_reason safetyCheck) w
          else
            (* Step 3: Code generation *)
            let w := enter [GeneratingCode] w in
            match coder plan with
            | Throw message => failed now request mode message w
            | Normal generatedCode =>
                (* Step 4: Safety sandbox testing *)
                let '(entered, sandboxResult) :=
                  testInSandbox safetyRules loadBannedPatterns vm_run generatedCode in
                let w := enter entered w in
                if negb (safe sandboxResult) then
                  failed now request mode
                    ("Code failed sandbox test: "
                       ++ match reason sandboxResult with
                          | Some why => why
                          | None => "undefined"
                          end) w
                else
                  (* Step 5: Feature integration *)
                  let w := enter [Integrating] w in
                  match FeatureManager.integrateFeature require uuidv4 toISOString
                          now generatedCode plan (manager w) with
                  | (Throw message, m) =>
                      failed now request mode message (with_manager m w)
                  | (Normal feature, m) =>
                      let w := with_manager m w in
                      (* Step 6: Evolution tracking *)
                      let evolutionRecord :=
                        {| r_success := true; r_request := request; r_mode := mode;
                           r_plan := Some plan; r_feature := Some feature;
                           r_error := None; r_timestamp := now |} in
                      let w := recordEvolution evolutionRecord w in
                      (* Step 7: Self-reflection and learning *)
                      let w := enter [Reflecting] w in
                      match reflector evolutionRecord with
                      | Throw message => failed now request mode message w
                      | Normal _ =>
                          (Normal {| e_record := evolutionRecord;
                                     e_feature :=
                                       {| s_id := FeatureManager.id feature;
                                          s_name := FeatureManager.name feature;
                                          s_description :=
                                            FeatureManager.description feature |};
                                     e_plan := plan |},
                           w)
                      end
                  end
            end
      end
  end.

End Evolve.

End Autonomo.

(* ================================================================= *)
(** * EvolutionTracker queries ([core/evolution-tracker.js]) *)

Module EvolutionTracker.

Import Autonomo.

(** [getLastEvolution]: the time stamp of the last record, [null] for an
    empty history. *)
Definition getLastEvolution (log : list EvolutionRecord) : option Z :=
  match List.length log with
  | O => None
  | S n => option_map r_timestamp (nth_error log n)
  end.

(** [getEvolutionHistory(limit)]: [slice(-limit)], newest first. *)
Definition getEvolutionHistory (limit : Z) (log : list EvolutionRecord)
  : list EvolutionRecord :=
  JsArray.sort_desc r_timestamp (JsArray.slice (- limit) log).

Definition getSuccessfulEvolutions (log : list EvolutionRecord) : list EvolutionRecord :=
  filter r_success log.

Definition getFailedEvolutions (log : list EvolutionRecord) : list EvolutionRecord :=
  filter (fun e => negb (r_success e)) log.

End EvolutionTracker.

(* ================================================================= *)
(** * Sample inputs

    Concrete plans, modules, loaders and states on which the properties
    below are exercised. *)

Module Samples.

Import JsString.

Definition uuid (n : nat) : string := "uuid-" ++ of_Z (Z.of_nat n).

(** A stand-in for the ISO rendering of a time stamp. *)
Definition iso (t : Z) : string := "T" ++ of_Z t.

(** [async (input) => ({ doubled: input.value * 2 })]; the product is
    [NaN] when [input.value] is not a number, written [null] as JSON
    writes it. *)
Definition doubling : NodeModule.Fn :=
  fun input =>
    {| NodeModule.elapsed := 1;
       NodeModule.settled :=
         NodeModule.Resolves
           (VObj [("doubled", match Js.get input "value" with
                              | VNum n => VNum (n * 2)
                              | _ => VNull
                              end)]) |}.

(** [async () => { throw new Error('Broken'); }] *)
Definition throwing : NodeModule.Fn :=
  fun _ => {| NodeModule.elapsed := 1; NodeModule.settled := NodeModule.Rejects "Broken" |}.

(** [() => Promise.reject()]: the reason of the rejection is
    [undefined]. *)
Definition rejecting_bare : NodeModule.Fn :=
  fun _ => {| NodeModule.elapsed := 1;
              NodeModule.settled := NodeModule.RejectsBare false |}.

(** A function that settles after six seconds. *)
Definition slow : NodeModule.Fn :=
  fun _ => {| NodeModule.elapsed := 6000;
              NodeModule.settled := NodeModule.Resolves (VObj []) |}.

Definition healthy : Completion value :=
  Normal (VObj [("status", VStr "healthy")]).

Definition bare (execute : option NodeModule.Fn) (health : option (Completion value))
           (metadata : option NodeModule.Metadata) : NodeModule.t :=
  {| NodeModule.callable := None; NodeModule.execute := execute;
     NodeModule.get := None; NodeModule.process := None;
     NodeModule.validate := None; NodeModule.transform := None;
     NodeModule.handler := None; NodeModule.health := health;
     NodeModule.routes_value := NodeModule.NoRoutes; NodeModule.schedule := false;
     NodeModule.webhook := false; NodeModule.metadata := metadata |}.

Definition doubler_metadata : NodeModule.Metadata :=
  {| NodeModule.id := Some "plan-doubler";
     NodeModule.title := Some "Doubler";
     NodeModule.description := Some "Doubles the value it is given";
     NodeModule.category := Some "utility";
     NodeModule.complexity := Some "low";
     NodeModule.generated := Some "T1000" |}.

Definition doubler : NodeModule.t := bare (Some doubling) (Some healthy) (Some doubler_metadata).

(** A hand-written feature file and the loader that knows it. *)
Definition doubler_js : string :=
  "module.exports = { execute: async (input) => ({ doubled: input.value * 2 }), metadata: { id: 'plan-doubler', title: 'Doubler', description: 'Doubles the value it is given', category: 'utility', complexity: 'low', generated: 'T1000' }, health: () => ({ status: 'healthy' }) };".

Definition broken_js : string :=
  "module.exports = { execute: async () => { throw new Error('Broken'); }, health: () => ({ status: 'healthy' }) };".

Definition slow_js : string :=
  "module.exports = { execute: () => new Promise(r => setTimeout(r, 6000, {})), health: () => ({ status: 'healthy' }) };".

Definition sick_js : string :=
  "module.exports = { execute: async () => ({}), health: () => ({ status: 'down' }) };".

Definition hand_written (text : string) : Completion NodeModule.t :=
  if String.eqb text doubler_js then Normal doubler
  else if String.eqb text broken_js then Normal (bare (Some throwing) (Some healthy) None)
  else if String.eqb text slow_js then Normal (bare (Some slow) (Some healthy) None)
  else if String.eqb text sick_js
       then Normal (bare (Some doubling) (Some (Normal (VObj [("status", VStr "down")]))) None)
  else Throw "Unexpected token".

Definition file (text : string) : FeatureManager.File :=
  {| FeatureManager.content := text; FeatureManager.birthtime := 1000;
     FeatureManager.mtime := 1000 |}.

(** The manager after [loadAllFeatures] over a root that holds the
    doubler. *)
Definition loaded : FeatureManager.State :=
  snd (FeatureManager.loadAllFeatures hand_written uuid
         (FeatureManager.start [("doubler.js", file doubler_js)] 0)).

Definition deactivated : FeatureManager.State :=
  FeatureManager.deactivateFeature "plan-doubler" loaded.

(** The manager over a root that holds the feature whose [execute]
    throws; the file declares no id, so the feature is "uuid-0". *)
Definition loaded_broken : FeatureManager.State :=
  snd (FeatureManager.loadAllFeatures hand_written uuid
         (FeatureManager.start [("broken.js", file broken_js)] 0)).

(** The four fields that Scenario A of the specification writes out, on
    their own. *)
Definition scenario_A : value :=
  VObj [ ("title", VStr "Hack the system");
         ("description", VStr "...");
         ("category", VStr "utility");
         ("complexity", VStr "low") ].

(** The plan of Scenario A: the fields it writes out, with the
    identifier that a plan carries and the description that the scenario
    leaves open. *)
Definition scenario_A_plan (id description : string) : value :=
  VObj [ ("id", VStr id);
         ("title", VStr "Hack the system");
         ("description", VStr description);
         ("category", VStr "utility");
         ("complexity", VStr "low") ].

(** The plan of the repository's test of suspicious keywords, which is
    the plan of Scenario A in full. *)
Definition hack_plan : value :=
  VObj [ ("id", VStr "hack-plan");
         ("title", VStr "Hack the system");
         ("description", VStr "This will hack something");
         ("category", VStr "utility");
         ("complexity", VStr "low") ].

(** The verdict on a plan in which "hack" is the first suspicious
    keyword found. *)
Definition hack_verdict : SafetyManager.ValidationReport :=
  {| SafetyManager.approved := false;
     SafetyManager.v_reason := "Suspicious keyword detected: hack";
     SafetyManager.severity := SafetyManager.SevHigh |}.

Definition rules : SafetyManager.SafetyRules := SafetyManager.loadSafetyRules None None.

(** Three sandboxes: one in which the code returns after 5 ms, one in
    which it throws, one in which it returns after 31 seconds. *)
Definition returning_vm (script : string) : SafetyManager.SandboxRun :=
  {| SafetyManager.startTime := 1000;
     SafetyManager.startHeap := 5000000;
     SafetyManager.outcome :=
       SafetyManager.Returned (VObj [("status", VStr "executed"); ("timestamp", VNum 1004)])
                              1005 5001000 |}.

Definition raising_vm (script : string) : SafetyManager.SandboxRun :=
  {| SafetyManager.startTime := 1000;
     SafetyManager.startHeap := 5000000;
     SafetyManager.outcome := SafetyManager.Raised "Intentional error" |}.

Definition late_vm (script : string) : SafetyManager.SandboxRun :=
  {| SafetyManager.startTime := 1000;
     SafetyManager.startHeap := 5000000;
     SafetyManager.outcome := SafetyManager.Returned (VObj []) 32000 5001000 |}.

(** Scenario C of the specification: the artifact and its plan. *)
Definition doubler_code : string :=
  "return { execute: async (input) => ({ doubled: input.value * 2 }) };".

Definition doubler_plan : value :=
  VObj [ ("id", VStr "plan-doubler");
         ("title", VStr "Doubler");
         ("description", VStr "Doubles the value it is given");
         ("category", VStr "utility");
         ("complexity", VStr "low") ].

(** A loader that refuses every text with the line that declares
    [exports] anew, and knows the hand-written files. *)
Definition strict_loader (text : string) : Completion NodeModule.t :=
  if includes text (String "010" "let exports;")
  then Throw "Identifier 'exports' has already been declared"
  else hand_written text.

(** The plan of the repository's test of an approved plan. *)
Definition valid_plan : value :=
  VObj [ ("id", VStr "test-plan-001");
         ("title", VStr "Valid Feature");
         ("description", VStr "A safe and valid feature plan");
         ("category", VStr "utility");
         ("complexity", VStr "low");
         ("estimatedLOC", VNum 50);
         ("dependencies", VArr [VStr "crypto"]);
         ("files", VArr [VObj [ ("path", VStr "dynamic/test-feature.js");
                                ("type", VStr "main");
                                ("purpose", VStr "Main feature implementation") ]]);
         ("safetyConsiderations", VArr [VStr "Input validation"; VStr "Error handling"]) ].

(** A plan that gives its estimate of the size as a text. *)
Definition text_size_plan : value :=
  VObj [ ("id", VStr "test-plan-003");
         ("title", VStr "Valid Feature");
         ("description", VStr "A safe and valid feature plan");
         ("category", VStr "utility");
         ("complexity", VStr "low");
         ("estimatedLOC", VStr "50") ].

(** A plan that asks for a module off the list. *)
Definition fs_plan : value :=
  VObj [ ("id", VStr "test-plan-002");
         ("title", VStr "File Reader");
         ("description", VStr "Reads a file from the disk");
         ("category", VStr "utility");
         ("complexity", VStr "low");
         ("dependencies", VArr [VStr "crypto"; VStr "fs"; VStr "net"]) ].

(** An application that has just started over an empty storage root. *)
Definition fresh : Autonomo.World :=
  {| Autonomo.stages := [];
     Autonomo.manager := FeatureManager.start [] 0;
     Autonomo.quarantine := [];
     Autonomo.evolutionLog := [] |}.

(** One evolution cycle at time 2000 with a planner that answers [plan],
    a coder that answers [code] and the sandbox [vm]. *)
Definition cycle (plan : value) (code : string)
           (vm : string -> SafetyManager.SandboxRun)
  : Completion Autonomo.Evolution * Autonomo.World :=
  Autonomo.evolve rules (fun _ _ => Normal plan) (fun _ => Normal code)
    (fun _ => Normal tt) vm hand_written uuid iso
    2000 (VStr "Add a feature") "guided" fresh.

(** One cycle for the doubler of Scenario C, over the loader that
    refuses the wrapper. *)
Definition doubler_cycle : Completion Autonomo.Evolution * Autonomo.World :=
  Autonomo.evolve rules (fun _ _ => Normal doubler_plan) (fun _ => Normal doubler_code)
    (fun _ => Normal tt) returning_vm strict_loader uuid iso
    2000 (VStr "Add a doubler") "guided" fresh.

End Samples.

(* ================================================================= *)
(** * Properties *)

(** ** The map *)

Section MapFacts.

Context {V : Type}.

Lemma get_set_same (k : string) (v : V) (m : JsMap.t V) :
  JsMap.get k (JsMap.set k v m) = Some v.
Proof.
  induction m as [|[k' v'] rest IH]; simpl.
  - now rewrite String.eqb_refl.
  - destruct (String.eqb k k') eqn:E; simpl.
    + now rewrite String.eqb_refl.
    + now rewrite E.
Qed.

Lemma get_set_other (k k' : string) (v : V) (m : JsMap.t V) :
  k <> k' -> JsMap.get k (JsMap.set k' v m) = JsMap.get k m.
Proof.
  intros Hne. induction m as [|[k0 v0] rest IH]; simpl.
  - destruct (String.eqb_spec k k'); [contradiction | reflexivity].
  - destruct (String.eqb_spec k' k0) as [->|Hk0]; simpl.
    + destruct (String.eqb_spec k k0); [contradiction | reflexivity].
    + destruct (String.eqb_spec k k0); [reflexivity | exact IH].
Qed.

Lemma set_keeps_keys (k : string) (v v' : V) (m : JsMap.t V) :
  JsMap.get k m = Some v -> map fst (JsMap.set k v' m) = map fst m.
Proof.
  induction m as [|[k0 v0] rest IH]; simpl; [discriminate|].
  destruct (String.eqb_spec k k0) as [->|Hne]; simpl.
  - reflexivity.
  - intros H. now rewrite IH.
Qed.

Lemma get_In_values (k : string) (v : V) (m : JsMap.t V) :
  JsMap.get k m = Some v -> In v (JsMap.values m).
Proof.
  unfold JsMap.values.
  induction m as [|[k' v'] rest IH]; simpl; [discriminate|].
  destruct (String.eqb k k').
  - intros [= ->]. now left.
  - intros H. right. now apply IH.
Qed.

End MapFacts.

(** ** Invocation ([executeFeature]) *)

Module InvokeFacts.

Import FeatureManager.

(** C3. Invoking an id that the registry does not hold fails with the
    "Feature not found" error, and invoking a feature whose [active] flag
    is false fails with the "Feature is inactive" error. Both are thrown
    errors, not silent returns, and the manager is left exactly as it was:
    the feature keeps its [usageCount] and its [lastUsed]. *)
Theorem executeFeature_rejects_unknown_and_inactive
        (now : Z) (featureId : string) (input : value) (st : State) :
  (JsMap.get featureId (features st) = None ->
   executeFeature now featureId input st
   = (Throw ("Feature not found: " ++ featureId), st))
  /\
  (forall f : Feature,
      JsMap.get featureId (features st) = Some f ->
      active f = false ->
      executeFeature now featureId input st
      = (Throw ("Feature is inactive: " ++ name f), st)
      /\ JsMap.get featureId (features (snd (executeFeature now featureId input st)))
         = Some f).
Proof.
  split.
  - intros Hget. unfold executeFeature. now rewrite Hget.
  - intros f Hget Hoff.
    assert (E : executeFeature now featureId input st
                = (Throw ("Feature is inactive: " ++ name f), st)).
    { unfold executeFeature. rewrite Hget, Hoff. reflexivity. }
    split; [exact E|]. rewrite E. exact Hget.
Qed.

(** C10. Invoking an existing, active feature first counts the use: in
    the state that [executeFeature] leaves, whatever its outcome, the
    feature has [usageCount] one higher and [lastUsed] set to the time of
    the call, every other field of the feature is as before, and no other
    entry, key, file or counter of the manager has changed. When the
    callee throws, the call fails with "Feature execution failed" and the
    count is not taken back. *)
Theorem executeFeature_counts_before_dispatch
        (now : Z) (featureId : string) (input : value) (st : State) (f : Feature) :
  JsMap.get featureId (features st) = Some f ->
  active f = true ->
  let outcome := fst (executeFeature now featureId input st) in
  let st' := snd (executeFeature now featureId input st) in
  (exists g,
      JsMap.get featureId (features st') = Some g
      /\ usageCount g = S (usageCount f)
      /\ lastUsed g = Some now
      /\ same_identity f g)
  /\ (forall k, k <> featureId ->
                JsMap.get k (features st') = JsMap.get k (features st))
  /\ map fst (features st') = map fst (features st)
  /\ dynamicDir st' = dynamicDir st
  /\ drawn st' = drawn st
  /\ (forall run message,
         entry_point (module f) = Some run ->
         NodeModule.settled
           (run match input with VUndefined => VObj [] | _ => input end)
         = NodeModule.Rejects message ->
         outcome = Throw ("Feature execution failed: " ++ message))
  /\ (entry_point (module f) = None ->
      outcome = Throw "Feature execution failed: No executable method found in feature").
Proof.
  intros Hget Hon outcome st'. subst outcome st'.
  unfold executeFeature. rewrite Hget, Hon. simpl negb. cbv iota.
  set (g := set_usage now f).
  set (st1 := with_features (JsMap.set featureId g (features st)) st).
  assert (Hst : forall o : Completion Execution * State,
             snd o = st1 ->
             (exists g0, JsMap.get featureId (features (snd o)) = Some g0
                         /\ usageCount g0 = S (usageCount f)
                         /\ lastUsed g0 = Some now /\ same_identity f g0)
             /\ (forall k, k <> featureId ->
                           JsMap.get k (features (snd o)) = JsMap.get k (features st))
             /\ map fst (features (snd o)) = map fst (features st)
             /\ dynamicDir (snd o) = dynamicDir st
             /\ drawn (snd o) = drawn st).
  { intros o ->. subst st1. simpl. repeat split.
    - exists g. split; [apply get_set_same|]. subst g. simpl.
      repeat split; reflexivity.
    - intros k Hk. now apply get_set_other.
    - now apply set_keeps_keys with (v := f). }
  change (module g) with (module f).
  destruct (entry_point (module f)) as [run|] eqn:Hentry.
  - destruct (NodeModule.settled
                (run match input with VUndefined => VObj [] | _ => input end))
      as [result|message|null] eqn:Hcall.
    + destruct (Hst (Normal {| success := true; result := result;
                               feature := {| i_id := id g; i_name := name g;
                                             i_usageCount := usageCount g |};
                               timestamp := (now + NodeModule.elapsed
                                  (run match input with VUndefined => VObj [] | _ => input end))%Z |},
                     st1) eq_refl) as (H1 & H2 & H3 & H4 & H5).
      repeat split; try assumption.
      * intros run' message [= <-] Hrej. simpl. congruence.
      * discriminate.
    + destruct (Hst (Throw ("Feature execution failed: " ++ message), st1) eq_refl)
        as (H1 & H2 & H3 & H4 & H5).
      repeat split; try assumption.
      * intros run' message' [= <-] Hrej. simpl. congruence.
      * discriminate.
    + destruct (Hst (Throw (NodeModule.no_message null), st1) eq_refl)
        as (H1 & H2 & H3 & H4 & H5).
      repeat split; try assumption.
      * intros run' message' [= <-] Hrej. congruence.
      * discriminate.
  - destruct (Hst (Throw "Feature execution failed: No executable method found in feature",
                   st1) eq_refl) as (H1 & H2 & H3 & H4 & H5).
    repeat split; try assumption.
    + discriminate.
Qed.

End InvokeFacts.

Module InvokeWitnesses.

Import FeatureManager.

Lemma executeFeature_rejects_unknown_and_inactive_witness :
  executeFeature 2000 "no-such-feature" (VObj []) Samples.loaded
  = (Throw "Feature not found: no-such-feature", Samples.loaded)
  /\ executeFeature 2000 "plan-doubler" (VObj [("value", VNum 5)]) Samples.deactivated
     = (Throw "Feature is inactive: Doubler", Samples.deactivated).
Proof.
  split.
  - apply (proj1 (InvokeFacts.executeFeature_rejects_unknown_and_inactive
                    2000 "no-such-feature" (VObj []) Samples.loaded)).
    reflexivity.
  - edestruct (proj2 (InvokeFacts.executeFeature_rejects_unknown_and_inactive
                        2000 "plan-doubler" (VObj [("value", VNum 5)])
                        Samples.deactivated)) as [H _];
      [reflexivity | reflexivity | exact H].
Defined.

Lemma executeFeature_counts_before_dispatch_witness :
  fst (executeFeature 2000 "uuid-0" (VObj []) Samples.loaded_broken)
  = Throw "Feature execution failed: Broken"
  /\ exists g,
      JsMap.get "uuid-0"
        (features (snd (executeFeature 2000 "uuid-0" (VObj []) Samples.loaded_broken)))
      = Some g
      /\ usageCount g = 1 /\ lastUsed g = Some 2000%Z.
Proof.
  edestruct (InvokeFacts.executeFeature_counts_before_dispatch
               2000 "uuid-0" (VObj []) Samples.loaded_broken)
    as ((g & Hg & Hcount & Hused & _) & _ & _ & _ & _ & Hthrow & _);
    [reflexivity | reflexivity |].
  split.
  - apply (Hthrow Samples.throwing "Broken"); reflexivity.
  - exists g. repeat split; assumption.
Defined.

End InvokeWitnesses.

(** ** Texts *)

Module StringFacts.

Import JsString.

Lemma includes_after (a s sub : string) :
  includes s sub = true -> includes (a ++ s) sub = true.
Proof.
  intros H. induction a as [|c a IH]; simpl; [exact H|].
  rewrite IH. apply orb_true_r.
Qed.

Lemma prefix_before (sub a b : string) :
  String.prefix sub a = true -> String.prefix sub (a ++ b) = true.
Proof.
  revert a. induction sub as [|c sub IH]; intros a H; [now destruct (a ++ b)|].
  destruct a as [|c' a]; simpl in *; [discriminate|].
  destruct (ascii_dec c c'); [now apply IH | discriminate].
Qed.

Lemma includes_before (a b sub : string) :
  includes a sub = true -> includes (a ++ b) sub = true.
Proof.
  induction a as [|c a IH].
  - simpl. rewrite orb_false_r. intros H.
    destruct sub; [|discriminate H]. now destruct b.
  - cbn [includes]. intros H.
    change (String c a ++ b) with (String c (a ++ b)). cbn [includes].
    apply orb_prop in H as [H|H].
    + apply (prefix_before _ _ b) in H.
      change (String c a ++ b) with (String c (a ++ b)) in H.
      rewrite H. reflexivity.
    + rewrite (IH H). apply orb_true_r.
Qed.

Lemma toLowerCase_app (a b : string) :
  toLowerCase (a ++ b) = toLowerCase a ++ toLowerCase b.
Proof. induction a as [|c a IH]; simpl; [reflexivity | now rewrite IH]. Qed.

End StringFacts.

(** ** Static analysis ([performStaticAnalysis]) *)

Module StaticFacts.

Import SafetyManager.

Lemma unmatched_all (code : string) (ps : list RegExp.t) :
  forallb (unmatchedb code) ps = true -> Forall (unmatched code) ps.
Proof.
  induction ps as [|p ps IH]; simpl; [constructor|].
  intros H. apply andb_prop in H as [Hp Hps]. constructor.
  - unfold unmatchedb in Hp. unfold unmatched.
    now destruct (RegExp.match_ code p).
  - now apply IH.
Qed.

Lemma check_patterns_first (pre : list RegExp.t) (p : RegExp.t) (post : list RegExp.t)
      (code m : string) (ms : list string) :
  Forall (unmatched code) pre ->
  RegExp.match_ code p = Some (m :: ms) ->
  check_patterns (pre ++ p :: post) code = Some (banned p m).
Proof.
  intros Hpre Hp. induction Hpre as [|q pre Hq _ IH]; simpl.
  - now rewrite Hp.
  - unfold unmatched in Hq. now rewrite Hq.
Qed.

Lemma within_limit (rules : SafetyRules) (code : string) :
  (code_length code <= maxFileSize rules)%Z ->
  (maxFileSize rules <? code_length code)%Z = false.
Proof. intros H. now apply Z.ltb_ge. Qed.

Lemma match_nonempty (code : string) (p : RegExp.t) :
  RegExp.match_ code p <> None ->
  exists m ms, RegExp.match_ code p = Some (m :: ms).
Proof.
  unfold RegExp.match_. destruct (RegExp.scan p 0 code) as [|m ms].
  - intros H. now contradiction H.
  - intros _. now exists m, ms.
Qed.

(** Where a listed pattern matches, the loop stops at the first pattern
    of the list that matches. *)
Lemma check_patterns_names_first (ps : list RegExp.t) (p : RegExp.t) (code : string) :
  In p ps ->
  RegExp.match_ code p <> None ->
  exists pre q post m ms,
    ps = (pre ++ q :: post)%list
    /\ Forall (unmatched code) pre
    /\ RegExp.match_ code q = Some (m :: ms)
    /\ check_patterns ps code = Some (banned q m).
Proof.
  induction ps as [|q ps IH]; simpl; [contradiction|].
  intros Hin Hp.
  destruct (RegExp.match_ code q) as [matches|] eqn:Hq.
  - destruct (match_nonempty code q) as (m & ms & E); [congruence|].
    exists [], q, ps, m, ms. rewrite Hq in E. injection E as ->.
    repeat split; [constructor | exact Hq].
  - destruct Hin as [->|Hin]; [contradiction|].
    destruct (IH Hin Hp) as (pre & q' & post & m & ms & -> & Hpre & Hq' & Hrun).
    exists (q :: pre), q', post, m, ms.
    repeat split; [now constructor | exact Hq' | exact Hrun].
Qed.

(** C8. For every code text within the size limit that contains one of
    the banned patterns, static analysis returns a report that is not
    approved and whose reason names the pattern at which the check stops,
    the first pattern of the list that the code matches (the first match
    rejects): the reason cites the text of that pattern's first match and
    the report carries the pattern's source. When the pattern in hand is
    itself the first that matches, it is the one named. For the code
    "while (true) {}" the reason cites the match "while (true)" of the
    infinite-loop pattern. *)
Theorem static_analysis_names_first_banned_pattern (rules : SafetyRules) :
  (forall (code : string),
      (code_length code <= maxFileSize rules)%Z ->
      (forall p, In p loadBannedPatterns ->
                 RegExp.match_ code p <> None ->
                 safe (performStaticAnalysis rules loadBannedPatterns code) = false
                 /\ exists pre q post m ms,
                      loadBannedPatterns = (pre ++ q :: post)%list
                      /\ Forall (unmatched code) pre
                      /\ RegExp.match_ code q = Some (m :: ms)
                      /\ reason (performStaticAnalysis rules loadBannedPatterns code)
                         = Some ("Banned pattern detected: " ++ m)
                      /\ pattern (performStaticAnalysis rules loadBannedPatterns code)
                         = Some (RegExp.toString q))
      /\
      (forall pre p post m ms,
          loadBannedPatterns = (pre ++ p :: post)%list ->
          Forall (unmatched code) pre ->
          RegExp.match_ code p = Some (m :: ms) ->
          performStaticAnalysis rules loadBannedPatterns code = banned p m))
  /\
  ((15 <= maxFileSize rules)%Z ->
   performStaticAnalysis rules loadBannedPatterns "while (true) {}"
   = {| safe := false;
        reason := Some "Banned pattern detected: while (true)";
        pattern := Some "/while\s*\(\s*true\s*\)/gi";
        error := None;
        metrics := None |}).
Proof.
  split.
  - intros code Hsize. split.
    + intros p Hin Hp. unfold performStaticAnalysis.
      rewrite (within_limit rules code Hsize).
      destruct (check_patterns_names_first loadBannedPatterns p code Hin Hp)
        as (pre & q & post & m & ms & Hlist & Hpre & Hq & ->).
      split; [reflexivity|].
      exists pre, q, post, m, ms. repeat split; assumption.
    + intros pre p post m ms Hlist Hpre Hp. unfold performStaticAnalysis.
      rewrite (within_limit rules code Hsize), Hlist.
      now rewrite (check_patterns_first pre p post code m ms Hpre Hp).
  - intros Hsize. unfold performStaticAnalysis.
    rewrite (within_limit rules "while (true) {}" Hsize).
    vm_compute. reflexivity.
Qed.

Lemma static_analysis_names_first_banned_pattern_witness :
  safe (performStaticAnalysis (loadSafetyRules None None) loadBannedPatterns
          "fs.unlinkSync('/app.js');") = false
  /\ performStaticAnalysis (loadSafetyRules None None) loadBannedPatterns
       "const x = eval('1'); for (;;) {}"
     = banned (literal "eval\(" "eval(") "eval("
  /\ reason (performStaticAnalysis (loadSafetyRules None None) loadBannedPatterns
               "while (true) {}")
     = Some "Banned pattern detected: while (true)".
Proof.
  pose proof (static_analysis_names_first_banned_pattern (loadSafetyRules None None))
    as [Hall Hloop].
  split; [|split].
  - apply (proj1 (Hall "fs.unlinkSync('/app.js');" ltac:(vm_compute; discriminate)))
      with (p := literal "\.unlinkSync" ".unlinkSync").
    + vm_compute. tauto.
    + vm_compute. discriminate.
  - apply (proj2 (Hall "const x = eval('1'); for (;;) {}" ltac:(vm_compute; discriminate)))
      with (pre := firstn 19 loadBannedPatterns) (post := skipn 20 loadBannedPatterns)
           (ms := []).
    + vm_compute. reflexivity.
    + apply unmatched_all. vm_compute. reflexivity.
    + vm_compute. reflexivity.
  - rewrite Hloop; [vm_compute; reflexivity | vm_compute; discriminate].
Defined.

End StaticFacts.

(** ** Plan validation ([validatePlan]) *)

Module PlanFacts.

Import SafetyManager JsString StringFacts.

(** The serialised plan of Scenario A holds "hack", from its title. *)
Lemma scenario_A_text (id description : string) :
  exists text,
    Js.stringify (Samples.scenario_A_plan id description) = Some text
    /\ includes (toLowerCase text) "hack" = true.
Proof.
  eexists. split; [reflexivity|].
  cbn [flat_map snd fst List.app JsString.join Js.stringify].
  rewrite !toLowerCase_app.
  apply includes_after, includes_before.
  do 2 apply includes_after.
  apply includes_before. vm_compute. reflexivity.
Qed.

(** C7. The plan of Scenario A, in full the plan [hack-plan] of the
    repository's test, is rejected, and the reason, "Suspicious keyword
    detected: hack", contains "hack". The same holds for its four fields
    with any identifier and any description in place of the one that the
    scenario leaves open: such a plan is never approved, and when it
    passes the schema and its text holds none of the keywords that are
    looked for before "hack" ("delete", "remove", "destroy"), the reason
    is that one. *)
Theorem hack_plan_is_rejected_for_its_keyword (allowedModules : list string) :
  (Samples.hack_plan
   = Samples.scenario_A_plan "hack-plan" "This will hack something"
   /\ validatePlan allowedModules Samples.hack_plan = Normal Samples.hack_verdict
   /\ approved Samples.hack_verdict = false
   /\ includes (v_reason Samples.hack_verdict) "hack" = true)
  /\
  (forall (id description : string),
      exists r,
        validatePlan allowedModules (Samples.scenario_A_plan id description) = Normal r
        /\ approved r = false)
  /\
  (forall (id description text : string),
      Joi.validate None planSchema (Samples.scenario_A_plan id description) = None ->
      Js.stringify (Samples.scenario_A_plan id description) = Some text ->
      includes (toLowerCase text) "delete" = false ->
      includes (toLowerCase text) "remove" = false ->
      includes (toLowerCase text) "destroy" = false ->
      validatePlan allowedModules (Samples.scenario_A_plan id description)
      = Normal Samples.hack_verdict).
Proof.
  assert (Hkeyword : forall id description text,
             Js.stringify (Samples.scenario_A_plan id description) = Some text ->
             exists keyword,
               find (fun keyword => includes (toLowerCase text) keyword) suspiciousKeywords
               = Some keyword).
  { intros id description text Htext.
    destruct (scenario_A_text id description) as (text' & Htext' & Hhack).
    rewrite Htext in Htext'. injection Htext' as <-.
    destruct (find _ suspiciousKeywords) as [keyword|] eqn:Hfind;
      [now exists keyword|].
    assert (Hin : In "hack" suspiciousKeywords) by (vm_compute; tauto).
    pose proof (find_none _ _ Hfind "hack" Hin) as Hno. cbv beta in Hno.
    congruence. }
  split; [|split].
  - split; [reflexivity|]. split; [vm_compute; reflexivity|].
    split; vm_compute; reflexivity.
  - intros id description.
    destruct (scenario_A_text id description) as (text & Htext & _).
    destruct (Hkeyword id description text Htext) as (keyword & Hfind).
    unfold validatePlan, Samples.scenario_A_plan.
    fold (Samples.scenario_A_plan id description).
    destruct (Joi.validate None planSchema _) as [message|];
      [eexists; split; reflexivity|].
    unfold checkSuspiciousContent. rewrite Htext. cbv zeta. rewrite Hfind.
    eexists. split; reflexivity.
  - intros id description text Hschema Htext Hdelete Hremove Hdestroy.
    destruct (scenario_A_text id description) as (text' & Htext' & Hhack).
    rewrite Htext in Htext'. injection Htext' as <-.
    assert (E : checkSuspiciousContent (Samples.scenario_A_plan id description)
                = Normal (Unsafe "Suspicious keyword detected: hack")).
    { unfold checkSuspiciousContent. rewrite Htext.
      unfold suspiciousKeywords. cbn [find].
      rewrite Hdelete, Hremove, Hdestroy, Hhack. reflexivity. }
    unfold validatePlan.
    unfold Samples.scenario_A_plan at 1.
    rewrite Hschema, E. reflexivity.
Qed.

Lemma hack_plan_is_rejected_for_its_keyword_witness :
  validatePlan loadAllowedModules
    (Samples.scenario_A_plan "plan-7" "Hack the planet, one system at a time")
  = Normal Samples.hack_verdict.
Proof.
  refine (proj2 (proj2 (hack_plan_is_rejected_for_its_keyword loadAllowedModules))
            "plan-7" "Hack the planet, one system at a time" _ _ _ _ _ _);
    vm_compute; reflexivity.
Defined.

End PlanFacts.

(** ** Sandbox execution ([performDynamicTesting]) *)

Module SandboxFacts.

Import SafetyManager JsString.

(** C9 as stated fails: the report of a run in which the code throws
    carries the error message and neither measurement; the report of a
    run that exceeds the time limit cites the elapsed time in its reason
    and carries no heap delta. Neither has [metrics]. *)
Lemma failed_run_carries_no_measurements :
  performDynamicTesting Samples.rules Samples.raising_vm
    "throw new Error('Intentional error');"
  = {| safe := false;
       reason := Some "Dynamic testing failed: Intentional error";
       pattern := None;
       error := Some "Intentional error";
       metrics := None |}
  /\ performDynamicTesting Samples.rules Samples.late_vm "let n = 0;"
     = {| safe := false;
          reason := Some "Execution time (31000ms) exceeded limit (30000ms)";
          pattern := None;
          error := None;
          metrics := None |}.
Proof. split; vm_compute; reflexivity. Qed.

(** C9, as the code has it. A run that succeeds reports the elapsed
    time and the heap growth, with the value returned, in [metrics]. A run
    that fails reports no [metrics]: when vm2 raises an error (a runtime
    error of the code, or vm2's timeout) the report carries that message
    only; when the elapsed time exceeds the limit the reason cites the
    elapsed time and not the heap growth; when the heap growth exceeds the
    limit the reason cites the heap growth and not the elapsed time. *)
Theorem performDynamicTesting_measurements
        (rules : SafetyRules) (vm_run : string -> SandboxRun) (code : string) :
  let run := vm_run (sandbox_script code) in
  let report := performDynamicTesting rules vm_run code in
  (safe report = true ->
   exists result endTime endHeap,
     outcome run = Returned result endTime endHeap
     /\ metrics report
        = Some (OfDynamic {| executionTime := endTime - startTime run;
                             memoryDelta := endHeap - startHeap run;
                             result := result |}))
  /\
  (safe report = false ->
   metrics report = None
   /\ ((exists message,
           outcome run = Raised message
           /\ reason report = Some ("Dynamic testing failed: " ++ message)
           /\ error report = Some message)
       \/ (exists result endTime endHeap,
              outcome run = Returned result endTime endHeap
              /\ (maxExecutionTime rules < endTime - startTime run)%Z
              /\ reason report
                 = Some ("Execution time (" ++ of_Z (endTime - startTime run)
                           ++ "ms) exceeded limit ("
                           ++ of_Z (maxExecutionTime rules) ++ "ms)"))
       \/ (exists result endTime endHeap,
              outcome run = Returned result endTime endHeap
              /\ (maxMemoryUsage rules < endHeap - startHeap run)%Z
              /\ reason report
                 = Some ("Memory usage (" ++ of_Z (endHeap - startHeap run)
                           ++ " bytes) exceeded limit ("
                           ++ of_Z (maxMemoryUsage rules) ++ " bytes)")))).
Proof.
  intros run report. subst run report. unfold performDynamicTesting.
  destruct (outcome (vm_run (sandbox_script code))) as [result endTime endHeap|message].
  - destruct (maxExecutionTime rules <? endTime - startTime (vm_run (sandbox_script code)))%Z
      eqn:Htime.
    + split; [discriminate|]. intros _. split; [reflexivity|].
      right. left. exists result, endTime, endHeap.
      apply Z.ltb_lt in Htime.
      split; [reflexivity|]. split; [exact Htime | reflexivity].
    + destruct (maxMemoryUsage rules <? endHeap - startHeap (vm_run (sandbox_script code)))%Z
        eqn:Hheap.
      * split; [discriminate|]. intros _. split; [reflexivity|].
        right. right. exists result, endTime, endHeap.
        apply Z.ltb_lt in Hheap.
        split; [reflexivity|]. split; [exact Hheap | reflexivity].
      * split; [|discriminate]. intros _. exists result, endTime, endHeap.
        split; reflexivity.
  - split; [discriminate|]. intros _. split; [reflexivity|].
    left. exists message. repeat split; reflexivity.
Qed.

Lemma performDynamicTesting_measurements_witness :
  (exists m, metrics (performDynamicTesting Samples.rules Samples.returning_vm
                        "return { sum: 15 };") = Some (OfDynamic m)
             /\ executionTime m = 5%Z /\ memoryDelta m = 1000%Z)
  /\ metrics (performDynamicTesting Samples.rules Samples.raising_vm
                "throw new Error('Intentional error');") = None.
Proof.
  split.
  - destruct (proj1 (performDynamicTesting_measurements Samples.rules Samples.returning_vm
                       "return { sum: 15 };") eq_refl)
      as (result & endTime & endHeap & Hrun & Hmetrics).
    injection Hrun as <- <- <-.
    eexists. split; [exact Hmetrics|]. split; reflexivity.
  - apply (proj2 (performDynamicTesting_measurements Samples.rules Samples.raising_vm
                    "throw new Error('Intentional error');")).
    reflexivity.
Defined.

End SandboxFacts.

(** ** The pipeline ([evolve]) *)

Module PipelineFacts.

Import SafetyManager Autonomo.

Lemma check_patterns_reason (ps : list RegExp.t) (code : string) (r : Report) :
  check_patterns ps code = Some r -> exists why, reason r = Some why.
Proof.
  induction ps as [|p ps IH]; simpl; [discriminate|].
  destruct (RegExp.match_ code p).
  - intros [= <-]. eexists. reflexivity.
  - exact IH.
Qed.

Lemma static_rejection_has_reason (rules : SafetyRules) (code : string) :
  safe (performStaticAnalysis rules loadBannedPatterns code) = false ->
  exists why, reason (performStaticAnalysis rules loadBannedPatterns code) = Some why.
Proof.
  unfold performStaticAnalysis.
  destruct (maxFileSize rules <? code_length code)%Z; [eexists; reflexivity|].
  destruct (check_patterns loadBannedPatterns code) as [r|] eqn:E.
  - intros _. now apply check_patterns_reason with (ps := loadBannedPatterns) (code := code).
  - destruct (risk (analyzeComplexity code)); try discriminate.
    eexists. reflexivity.
Qed.

Lemma dynamic_rejection_has_reason
      (rules : SafetyRules) (vm_run : string -> SandboxRun) (code : string) :
  safe (performDynamicTesting rules vm_run code) = false ->
  exists why, reason (performDynamicTesting rules vm_run code) = Some why.
Proof.
  unfold performDynamicTesting.
  destruct (outcome (vm_run (sandbox_script code))); [|eexists; reflexivity].
  destruct (maxExecutionTime rules <? _)%Z; [eexists; reflexivity|].
  destruct (maxMemoryUsage rules <? _)%Z; [eexists; reflexivity|].
  discriminate.
Qed.

Section Run.

Variable safetyRules : SafetyRules.
Variable planner : value -> string -> Completion value.
Variable coder : value -> Completion string.
Variable reflector : EvolutionRecord -> Completion unit.
Variable vm_run : string -> SandboxRun.
Variable require : string -> Completion NodeModule.t.
Variable uuidv4 : nat -> string.
Variable toISOString : Z -> string.

Local Abbreviation run :=
  (evolve safetyRules planner coder reflector vm_run require uuidv4 toISOString).

(** C2. When a stage reports a result that is not approved, [evolve]
    ends in its rejected outcome: it throws an error whose message is the
    stage's reason, word for word, after the prefix of the stage, and a
    failed record with that message joins the history. No later stage is
    entered: after a rejected plan the stages entered are planning, plan
    validation and the recording of the failure; after a rejection by the
    static analysis they end with the static analysis; after a rejection
    by the sandbox run they end with the sandbox run. In all three cases
    the feature manager, its map and its files, is as it was. *)
Theorem rejection_short_circuits
        (now : Z) (request : value) (mode : string) (w : World) (plan : value)
        (check : ValidationReport) :
  planner request mode = Normal plan ->
  validatePlan loadAllowedModules plan = Normal check ->
  (approved check = false ->
   let message := "Safety validation failed: " ++ v_reason check in
   fst (run now request mode w) = Throw message
   /\ stages (snd (run now request mode w))
      = (stages w ++ [Planning; ValidatingPlan; Recording false])%list
   /\ manager (snd (run now request mode w)) = manager w
   /\ evolutionLog (snd (run now request mode w))
      = (evolutionLog w ++ [rejection now request mode message])%list)
  /\
  (forall code : string,
      approved check = true ->
      coder plan = Normal code ->
      let static := performStaticAnalysis safetyRules loadBannedPatterns code in
      let dynamic := performDynamicTesting safetyRules vm_run code in
      (safe static = false ->
       exists why,
         reason static = Some why
         /\ fst (run now request mode w) = Throw ("Code failed sandbox test: " ++ why)
         /\ stages (snd (run now request mode w))
            = (stages w ++ [Planning; ValidatingPlan; GeneratingCode;
                            TestingInSandbox; StaticAnalysis; Recording false])%list
         /\ manager (snd (run now request mode w)) = manager w
         /\ evolutionLog (snd (run now request mode w))
            = (evolutionLog w
                 ++ [rejection now request mode ("Code failed sandbox test: " ++ why)])%list)
      /\
      (safe static = true ->
       safe dynamic = false ->
       exists why,
         reason dynamic = Some why
         /\ fst (run now request mode w) = Throw ("Code failed sandbox test: " ++ why)
         /\ stages (snd (run now request mode w))
            = (stages w ++ [Planning; ValidatingPlan; GeneratingCode;
                            TestingInSandbox; StaticAnalysis; DynamicTesting;
                            Recording false])%list
         /\ manager (snd (run now request mode w)) = manager w
         /\ evolutionLog (snd (run now request mode w))
            = (evolutionLog w
                 ++ [rejection now request mode ("Code failed sandbox test: " ++ why)])%list)).
Proof.
  intros Hplan Hcheck. unfold rejection. split.
  - intros Hno. cbv zeta. unfold evolve. rewrite Hplan, Hcheck, Hno. simpl.
    repeat split. now rewrite <- !app_assoc.
  - intros code Hyes Hcode. cbv zeta. split.
    + intros Hstatic.
      destruct (static_rejection_has_reason safetyRules code Hstatic) as [why Hwhy].
      exists why. split; [exact Hwhy|].
      unfold evolve, testInSandbox. rewrite Hplan, Hcheck, Hyes, Hcode, Hstatic. simpl.
      rewrite Hstatic, Hwhy. simpl.
      repeat split. now rewrite <- !app_assoc.
    + intros Hstatic Hdynamic.
      destruct (dynamic_rejection_has_reason safetyRules vm_run code Hdynamic) as [why Hwhy].
      exists why. split; [exact Hwhy|].
      unfold evolve, testInSandbox.
      rewrite Hplan, Hcheck, Hyes, Hcode, Hstatic, Hdynamic. simpl.
      rewrite Hdynamic, Hwhy. simpl.
      repeat split. now rewrite <- !app_assoc.
Qed.

(** C1, as the code has it. A cycle that is rejected, at whatever
    stage, is recorded in the evolution history: the last record of the
    history is the failed record that carries the message thrown. The
    quarantine directory is not part of the cycle: [evolve] leaves it as
    it was, whatever the outcome. A quarantine file, holding the code and
    the reason, is written by [quarantineCode] when it is called. *)
Theorem evolve_records_rejection_and_leaves_quarantine
        (now : Z) (request : value) (mode : string) (w : World) :
  quarantine (snd (run now request mode w)) = quarantine w
  /\
  (forall message : string,
      fst (run now request mode w) = Throw message ->
      exists earlier,
        evolutionLog (snd (run now request mode w))
        = (earlier ++ [rejection now request mode message])%list)
  /\
  (forall (code why : string) (store : list (string * string)),
      fst (quarantineCode toISOString now code why store)
      = "logs/quarantine/quarantine-" ++ JsString.of_Z now ++ ".js"
      /\ In (fst (quarantineCode toISOString now code why store),
             quarantine_content toISOString now code why)
            (snd (quarantineCode toISOString now code why store))).
Proof.
  split; [|split].
  - unfold evolve, failed, recordEvolution.
    repeat match goal with
           | |- context [match ?x with _ => _ end] => destruct x
           end; reflexivity.
  - intros message. unfold evolve, failed, recordEvolution.
    repeat match goal with
           | |- context [match ?x with _ => _ end] => destruct x
           end; simpl; intros [= <-]; eexists; reflexivity.
  - intros code why store. split; [reflexivity|].
    unfold quarantineCode, write_file. simpl.
    apply in_or_app. right. now left.
Qed.

End Run.

Lemma rejection_short_circuits_witness :
  (fst (Samples.cycle Samples.hack_plan "return {};" Samples.returning_vm)
   = Throw "Safety validation failed: Suspicious keyword detected: hack"
   /\ stages (snd (Samples.cycle Samples.hack_plan "return {};" Samples.returning_vm))
      = [Planning; ValidatingPlan; Recording false])
  /\
  (fst (Samples.cycle Samples.valid_plan "while (true) {}" Samples.returning_vm)
   = Throw "Code failed sandbox test: Banned pattern detected: while (true)"
   /\ stages (snd (Samples.cycle Samples.valid_plan "while (true) {}" Samples.returning_vm))
      = [Planning; ValidatingPlan; GeneratingCode; TestingInSandbox; StaticAnalysis;
         Recording false])
  /\
  (fst (Samples.cycle Samples.valid_plan "throw new Error('Intentional error');"
          Samples.raising_vm)
   = Throw "Code failed sandbox test: Dynamic testing failed: Intentional error"
   /\ stages (snd (Samples.cycle Samples.valid_plan "throw new Error('Intentional error');"
                     Samples.raising_vm))
      = [Planning; ValidatingPlan; GeneratingCode; TestingInSandbox; StaticAnalysis;
         DynamicTesting; Recording false]).
Proof.
  split; [|split].
  - edestruct (proj1 (rejection_short_circuits Samples.rules
                        (fun _ _ => Normal Samples.hack_plan)
                        (fun _ => Normal "return {};") (fun _ => Normal tt)
                        Samples.returning_vm Samples.hand_written Samples.uuid Samples.iso
                        2000 (VStr "Add a feature") "guided" Samples.fresh
                        Samples.hack_plan _ eq_refl ltac:(vm_compute; reflexivity)))
      as (Hthrow & Hstages & _); [vm_compute; reflexivity|].
    split; [exact Hthrow | exact Hstages].
  - edestruct (proj1 (proj2 (rejection_short_circuits Samples.rules
                        (fun _ _ => Normal Samples.valid_plan)
                        (fun _ => Normal "while (true) {}") (fun _ => Normal tt)
                        Samples.returning_vm Samples.hand_written Samples.uuid Samples.iso
                        2000 (VStr "Add a feature") "guided" Samples.fresh
                        Samples.valid_plan _ eq_refl ltac:(vm_compute; reflexivity))
                        "while (true) {}" ltac:(vm_compute; reflexivity) eq_refl))
      as (why & Hwhy & Hthrow & Hstages & _); [vm_compute; reflexivity|].
    vm_compute in Hwhy. injection Hwhy as <-.
    split; [exact Hthrow | exact Hstages].
  - edestruct (proj2 (proj2 (rejection_short_circuits Samples.rules
                        (fun _ _ => Normal Samples.valid_plan)
                        (fun _ => Normal "throw new Error('Intentional error');")
                        (fun _ => Normal tt)
                        Samples.raising_vm Samples.hand_written Samples.uuid Samples.iso
                        2000 (VStr "Add a feature") "guided" Samples.fresh
                        Samples.valid_plan _ eq_refl ltac:(vm_compute; reflexivity))
                        "throw new Error('Intentional error');"
                        ltac:(vm_compute; reflexivity) eq_refl))
      as (why & Hwhy & Hthrow & Hstages & _);
      [vm_compute; reflexivity | vm_compute; reflexivity |].
    vm_compute in Hwhy. injection Hwhy as <-.
    split; [exact Hthrow | exact Hstages].
Defined.

(** C1 as stated fails: a cycle whose plan is rejected, and a cycle
    whose code is rejected by the static analysis, both end with the
    quarantine directory as empty as it was; neither the code nor the
    reason is written there. *)
Lemma rejected_cycle_writes_no_quarantine_file :
  (fst (Samples.cycle Samples.hack_plan "return {};" Samples.returning_vm)
   = Throw "Safety validation failed: Suspicious keyword detected: hack"
   /\ quarantine (snd (Samples.cycle Samples.hack_plan "return {};" Samples.returning_vm))
      = [])
  /\
  (fst (Samples.cycle Samples.valid_plan "while (true) {}" Samples.returning_vm)
   = Throw "Code failed sandbox test: Banned pattern detected: while (true)"
   /\ quarantine (snd (Samples.cycle Samples.valid_plan "while (true) {}"
                         Samples.returning_vm))
      = [])
  /\
  (fst (Samples.cycle Samples.valid_plan "throw new Error('Intentional error');"
          Samples.raising_vm)
   = Throw "Code failed sandbox test: Dynamic testing failed: Intentional error"
   /\ quarantine (snd (Samples.cycle Samples.valid_plan
                         "throw new Error('Intentional error');" Samples.raising_vm))
      = []).
Proof. repeat split; vm_compute; reflexivity. Qed.

Lemma evolve_records_rejection_and_leaves_quarantine_witness :
  exists earlier,
    evolutionLog (snd (Samples.cycle Samples.valid_plan "while (true) {}"
                         Samples.returning_vm))
    = (earlier
         ++ [rejection 2000 (VStr "Add a feature") "guided"
               "Code failed sandbox test: Banned pattern detected: while (true)"])%list.
Proof.
  apply (proj1 (proj2 (evolve_records_rejection_and_leaves_quarantine Samples.rules
                         (fun _ _ => Normal Samples.valid_plan)
                         (fun _ => Normal "while (true) {}") (fun _ => Normal tt)
                         Samples.returning_vm Samples.hand_written Samples.uuid Samples.iso
                         2000 (VStr "Add a feature") "guided" Samples.fresh))).
  vm_compute. reflexivity.
Defined.

End PipelineFacts.

(** ** Registration ([integrateFeature], [testFeature], [loadAllFeatures]) *)

Module RegistrationFacts.

Import StringFacts.

Import FeatureManager JsString.


(** *** Files *)

Lemma read_written (now : Z) (name text : string) (files : list (string * File)) :
  exists file,
    read_file name (write_file now name text files) = Some file
    /\ content file = text.
Proof.
  induction files as [|[n f] rest IH]; simpl.
  - rewrite String.eqb_refl. eexists. split; reflexivity.
  - destruct (String.eqb name n) eqn:E; simpl; rewrite E.
    + eexists. split; reflexivity.
    + exact IH.
Qed.

Lemma read_file_In (name : string) (file : File) (files : list (string * File)) :
  read_file name files = Some file -> In (name, file) files.
Proof.
  induction files as [|[n f] rest IH]; simpl; [discriminate|].
  destruct (String.eqb_spec name n) as [->|Hne].
  - intros [= ->]. now left.
  - intros H. right. now apply IH.
Qed.

(** *** Reloading *)

Section Reload.

Variable require : string -> Completion NodeModule.t.
Variable uuidv4 : nat -> string.

Local Abbreviation load := (loadFeature require uuidv4).

Lemma loadFeature_keeps_files (name : string) (st : State) :
  dynamicDir (snd (load name st)) = dynamicDir st.
Proof.
  unfold loadFeature.
  destruct (read_file name (dynamicDir st)); [|reflexivity].
  now destruct (require (content f)).
Qed.

(** One persisted artifact: its name, its file, the module it loads to,
    with a declared id. *)
Variable dir : list (string * File).
Variable fname : string.
Variable file : File.
Variable m : NodeModule.t.

Hypothesis stored : read_file fname dir = Some file.
Hypothesis loads : require (content file) = Normal m.
Hypothesis declares : declared_id m <> "".
Hypothesis is_js : endsWith fname ".js" = true.
Hypothesis no_clash :
  forall name file' m',
    In (name, file') dir -> name <> fname ->
    require (content file') = Normal m' -> declared_id m' <> declared_id m.
Hypothesis no_draw : forall n, uuidv4 n <> declared_id m.

Lemma reload_this (st : State) :
  dynamicDir st = dir ->
  JsMap.get (declared_id m) (features (snd (load fname st)))
  = Some (describe fname file m (declared_id m)).
Proof.
  intros Hdir. unfold loadFeature. rewrite Hdir, stored, loads.
  apply String.eqb_neq in declares. rewrite declares. simpl.
  apply get_set_same.
Qed.

Lemma reload_other (name : string) (st : State) :
  dynamicDir st = dir ->
  name <> fname ->
  JsMap.get (declared_id m) (features (snd (load name st)))
  = JsMap.get (declared_id m) (features st).
Proof.
  intros Hdir Hname. unfold loadFeature. rewrite Hdir.
  destruct (read_file name dir) as [file'|] eqn:Hread; [|reflexivity].
  destruct (require (content file')) as [m'|] eqn:Hm'; [|reflexivity].
  simpl. apply get_set_other.
  destruct (String.eqb (declared_id m') "").
  - intros E. exact (no_draw (drawn st) (eq_sym E)).
  - intros E. apply (no_clash name file' m' (read_file_In _ _ _ Hread) Hname Hm').
    now symmetry.
Qed.

Lemma load_each_reaches (files : list string) (st : State) :
  dynamicDir st = dir ->
  In fname files
  \/ JsMap.get (declared_id m) (features st) = Some (describe fname file m (declared_id m)) ->
  JsMap.get (declared_id m) (features (load_each require uuidv4 files st))
  = Some (describe fname file m (declared_id m)).
Proof.
  revert st. induction files as [|name rest IH]; intros st Hdir Hcase; simpl.
  - destruct Hcase as [[]|H]. exact H.
  - destruct (String.eqb_spec name fname) as [->|Hname].
    + rewrite is_js. apply IH.
      * now rewrite loadFeature_keeps_files.
      * right. now apply reload_this.
    + assert (Hrest : In fname rest
                      \/ JsMap.get (declared_id m) (features st)
                         = Some (describe fname file m (declared_id m))).
      { destruct Hcase as [[E|Hin]|H]; [contradiction | now left | now right]. }
      destruct (endsWith name ".js").
      * apply IH.
        -- now rewrite loadFeature_keeps_files.
        -- destruct Hrest as [Hin|H]; [now left|].
           right. now rewrite reload_other.
      * now apply IH.
Qed.

End Reload.

(** *** The wrapper and the module loader *)

(** Every text that [wrapFeatureCode] produces declares [exports] anew,
    with [let], at the top level of the module. *)
Lemma wrapper_declares_exports
      (toISOString : Z -> string) (now : Z) (code : string) (plan : value) :
  includes (wrapFeatureCode toISOString now code plan) (String "010" "let exports;") = true.
Proof.
  unfold wrapFeatureCode.
  do 14 apply includes_after.
  apply includes_before. vm_compute. reflexivity.
Qed.

(** C4, on a loader that refuses the wrapper. The text that
    [integrateFeature] persists declares [exports] with [let] at the top
    level of a CommonJS module, where Node has already bound [exports] as
    a parameter of the module function; Node refuses such a text when it
    loads it. On every loader that does so, [integrateFeature] throws the
    loader's error, the map of features is what it was, and invoking the
    id of the plan fails with "Feature not found": no result, no counter
    of 1, no [lastUsed]. *)
Theorem refused_wrapper_registers_nothing
        (require : string -> Completion NodeModule.t) (uuidv4 : nat -> string)
        (toISOString : Z -> string)
        (now later : Z) (code : string) (plan input : value) (title message : string)
        (st : State) :
  Js.get plan "title" = VStr title ->
  require (wrapFeatureCode toISOString now code plan) = Throw message ->
  let registration := integrateFeature require uuidv4 toISOString now code plan st in
  fst registration = Throw message
  /\ features (snd registration) = features st
  /\ (JsMap.get (field plan "id") (features st) = None ->
      executeFeature later (field plan "id") input (snd registration)
      = (Throw ("Feature not found: " ++ field plan "id"), snd registration)).
Proof.
  intros Htitle Hrefused registration. subst registration.
  assert (E : integrateFeature require uuidv4 toISOString now code plan st
              = (Throw message,
                 {| features := features st;
                    dynamicDir := write_file now (feature_filename now title)
                                    (wrapFeatureCode toISOString now code plan)
                                    (dynamicDir st);
                    drawn := drawn st |})).
  { unfold integrateFeature.
    destruct plan; try discriminate Htitle. rewrite Htitle.
    unfold loadFeature. cbn [dynamicDir].
    destruct (read_written now (feature_filename now title)
                (wrapFeatureCode toISOString now code (VObj fields)) (dynamicDir st))
      as (file & -> & ->).
    now rewrite Hrefused. }
  rewrite E. simpl. repeat split.
  intros Hnew. unfold executeFeature. simpl. now rewrite Hnew.
Qed.



Lemma refused_wrapper_registers_nothing_witness :
  fst (integrateFeature Samples.strict_loader Samples.uuid Samples.iso
         1000 Samples.doubler_code Samples.doubler_plan (start [] 0))
  = Throw "Identifier 'exports' has already been declared"
  /\ fst (executeFeature 2000 "plan-doubler" (VObj [("value", VNum 5)])
            (snd (integrateFeature Samples.strict_loader Samples.uuid Samples.iso
                    1000 Samples.doubler_code Samples.doubler_plan (start [] 0))))
     = Throw "Feature not found: plan-doubler".
Proof.
  destruct (refused_wrapper_registers_nothing
              Samples.strict_loader Samples.uuid Samples.iso 1000 2000
              Samples.doubler_code Samples.doubler_plan (VObj [("value", VNum 5)])
              "Doubler" "Identifier 'exports' has already been declared"
              (start [] 0) eq_refl ltac:(vm_compute; reflexivity))
    as (Hthrow & _ & Hinvoke).
  split; [exact Hthrow|].
  exact (f_equal fst (Hinvoke eq_refl)).
Defined.

End RegistrationFacts.

(** ** Arrays *)

Section SortFacts.

Context {A : Type}.
Variable key : A -> Z.

Lemma insert_permutation (x : A) (l : list A) :
  Permutation (JsArray.insert key x l) (x :: l).
Proof.
  induction l as [|y rest IH]; simpl; [reflexivity|].
  destruct (key x <? key y)%Z; [|reflexivity].
  rewrite IH. apply perm_swap.
Qed.

Lemma sort_desc_permutation (l : list A) :
  Permutation (JsArray.sort_desc key l) l.
Proof.
  induction l as [|x rest IH]; simpl; [reflexivity|].
  rewrite insert_permutation. now constructor.
Qed.

Lemma insert_descending (x : A) (l : list A) :
  JsArray.descending key l -> JsArray.descending key (JsArray.insert key x l).
Proof.
  unfold JsArray.descending. induction l as [|y rest IH]; simpl; intros Hl.
  - repeat constructor.
  - destruct (key x <? key y)%Z eqn:E.
    + apply Sorted_inv in Hl as [Hrest Hhd]. constructor; [now apply IH|].
      destruct rest as [|z rest]; simpl.
      * constructor. apply Z.ltb_lt in E. lia.
      * destruct (key x <? key z)%Z.
        -- constructor. now inversion Hhd.
        -- constructor. apply Z.ltb_lt in E. lia.
    + constructor; [exact Hl|]. constructor. apply Z.ltb_ge in E. exact E.
Qed.

Lemma sort_desc_descending (l : list A) :
  JsArray.descending key (JsArray.sort_desc key l).
Proof.
  induction l as [|x rest IH]; simpl; [constructor|].
  now apply insert_descending.
Qed.

End SortFacts.

(** ** More of the map *)

Section MapMore.

Context {V : Type}.

Lemma get_delete_same (k : string) (m : JsMap.t V) :
  JsMap.get k (JsMap.delete k m) = None.
Proof.
  unfold JsMap.delete. induction m as [|[k' v] rest IH]; simpl; [reflexivity|].
  destruct (String.eqb k k') eqn:E; simpl; [exact IH|].
  now rewrite E.
Qed.

Lemma get_delete_other (k k' : string) (m : JsMap.t V) :
  k <> k' -> JsMap.get k (JsMap.delete k' m) = JsMap.get k m.
Proof.
  intros Hne. unfold JsMap.delete.
  induction m as [|[k0 v] rest IH]; simpl; [reflexivity|].
  destruct (String.eqb_spec k' k0) as [->|Hk0]; simpl.
  - destruct (String.eqb_spec k k0); [contradiction | exact IH].
  - destruct (String.eqb_spec k k0); [reflexivity | exact IH].
Qed.

Lemma get_In (k : string) (v : V) (m : JsMap.t V) :
  JsMap.get k m = Some v -> In (k, v) m.
Proof.
  induction m as [|[k' v'] rest IH]; simpl; [discriminate|].
  destruct (String.eqb_spec k k') as [->|Hne].
  - intros [= ->]. now left.
  - intros H. right. now apply IH.
Qed.

Lemma get_None_keys (k : string) (m : JsMap.t V) :
  JsMap.get k m = None -> ~ In k (map fst m).
Proof.
  induction m as [|[k' v'] rest IH]; simpl; [tauto|].
  destruct (String.eqb_spec k k') as [->|Hne]; [discriminate|].
  intros H [E|Hin]; [now symmetry in E | now apply IH].
Qed.

Lemma set_keys_new (k : string) (v : V) (m : JsMap.t V) :
  JsMap.get k m = None -> map fst (JsMap.set k v m) = (map fst m ++ [k])%list.
Proof.
  induction m as [|[k' v'] rest IH]; simpl; [reflexivity|].
  destruct (String.eqb_spec k k') as [->|Hne]; [discriminate|].
  intros H. simpl. now rewrite IH.
Qed.

Lemma set_set (k : string) (v v' : V) (m : JsMap.t V) :
  JsMap.set k v (JsMap.set k v' m) = JsMap.set k v m.
Proof.
  induction m as [|[k' v0] rest IH]; simpl.
  - now rewrite String.eqb_refl.
  - destruct (String.eqb k k') eqn:E; simpl.
    + now rewrite String.eqb_refl.
    + now rewrite E, IH.
Qed.

Lemma set_In (k : string) (v : V) (m : JsMap.t V) (e : string * V) :
  In e (JsMap.set k v m) -> e = (k, v) \/ In e m.
Proof.
  induction m as [|[k' v'] rest IH]; simpl.
  - intros [<-|[]]. now left.
  - destruct (String.eqb k k'); simpl.
    + intros [<-|H]; [now left | right; now right].
    + intros [<-|H]; [right; now left|].
      destruct (IH H) as [->|Hin]; [now left | right; now right].
Qed.

Lemma set_keeps_NoDup (k : string) (v : V) (m : JsMap.t V) :
  NoDup (map fst m) -> NoDup (map fst (JsMap.set k v m)).
Proof.
  intros Hm. destruct (JsMap.get k m) as [v0|] eqn:E.
  - now rewrite (set_keeps_keys k v0 v m E).
  - rewrite (set_keys_new k v m E).
    apply NoDup_app; [exact Hm | repeat constructor; simpl; tauto |].
    intros x Hx [<-|[]]. now apply (get_None_keys k m E).
Qed.

Lemma delete_incl (k : string) (m : JsMap.t V) (e : string * V) :
  In e (JsMap.delete k m) -> In e m.
Proof. unfold JsMap.delete. intros H. now apply filter_In in H. Qed.

Lemma delete_keeps_NoDup (k : string) (m : JsMap.t V) :
  NoDup (map fst m) -> NoDup (map fst (JsMap.delete k m)).
Proof.
  unfold JsMap.delete. induction m as [|[k' v'] rest IH]; simpl; [constructor|].
  intros Hm. inversion Hm as [|? ? Hnot Hrest]; subst.
  destruct (String.eqb k k'); simpl; [now apply IH|].
  constructor; [|now apply IH].
  intros Hin. apply Hnot. apply in_map_iff in Hin as ([k0 v0] & Hk & Hin).
  apply filter_In in Hin as [Hin _]. apply in_map_iff. now exists (k0, v0).
Qed.

End MapMore.

(** ** The registry as a whole *)

Module RegistryFacts.

Import FeatureManager JsString.

Lemma entry_is_keyed (m : JsMap.t Feature) (k : string) (f : Feature) :
  well_keyed m -> JsMap.get k m = Some f -> k = id f.
Proof.
  intros [_ Hall] Hget. apply get_In in Hget.
  rewrite Forall_forall in Hall. exact (Hall (k, f) Hget).
Qed.

Lemma well_keyed_set (m : JsMap.t Feature) (f : Feature) :
  well_keyed m -> well_keyed (JsMap.set (id f) f m).
Proof.
  intros [Hkeys Hall]. split; [now apply set_keeps_NoDup|].
  rewrite Forall_forall in *. intros e He.
  destruct (set_In _ _ _ _ He) as [->|Hin]; [reflexivity | now apply Hall].
Qed.

Lemma well_keyed_update (m : JsMap.t Feature) (k : string) (f g : Feature) :
  well_keyed m -> JsMap.get k m = Some f -> id g = id f ->
  well_keyed (JsMap.set k g m).
Proof.
  intros Hm Hget Hid. rewrite (entry_is_keyed m k f Hm Hget), <- Hid.
  now apply well_keyed_set.
Qed.

Lemma well_keyed_delete (m : JsMap.t Feature) (k : string) :
  well_keyed m -> well_keyed (JsMap.delete k m).
Proof.
  intros [Hkeys Hall]. split; [now apply delete_keeps_NoDup|].
  rewrite Forall_forall in *. intros e He. apply Hall. now apply delete_incl in He.
Qed.

Section Loader.

Variable require : string -> Completion NodeModule.t.
Variable uuidv4 : nat -> string.
Variable toISOString : Z -> string.

Lemma loadFeature_keeps_keyed (name : string) (st : State) :
  well_keyed (features st) ->
  well_keyed (features (snd (loadFeature require uuidv4 name st))).
Proof.
  intros H. unfold loadFeature.
  destruct (read_file name (dynamicDir st)) as [file|]; [|exact H].
  destruct (require (content file)) as [m|]; [|exact H].
  cbv zeta. cbn [snd features]. now apply well_keyed_set.
Qed.

Lemma load_each_keeps_keyed (names : list string) (st : State) :
  well_keyed (features st) ->
  well_keyed (features (load_each require uuidv4 names st)).
Proof.
  revert st. induction names as [|name rest IH]; intros st H; simpl; [exact H|].
  destruct (endsWith name ".js"); [|now apply IH].
  apply IH. now apply loadFeature_keeps_keyed.
Qed.

(** X5. The map of features keeps its invariant under every operation
    of the manager: no key occurs twice and every feature is stored under
    its own id. It holds of a new manager and is kept by [loadFeature],
    [loadAllFeatures], [executeFeature], [integrateFeature],
    [deactivateFeature] and [deleteFeature], whether they succeed or
    throw. *)
Theorem registry_stays_well_keyed (st : State) :
  well_keyed (features (start (dynamicDir st) (drawn st)))
  /\
  (well_keyed (features st) ->
   (forall name, well_keyed (features (snd (loadFeature require uuidv4 name st))))
   /\ well_keyed (features (snd (loadAllFeatures require uuidv4 st)))
   /\ (forall now featureId input,
          well_keyed (features (snd (executeFeature now featureId input st))))
   /\ (forall now code plan,
          well_keyed (features (snd (integrateFeature require uuidv4 toISOString
                                       now code plan st))))
   /\ (forall featureId, well_keyed (features (deactivateFeature featureId st)))
   /\ (forall featureId, well_keyed (features (snd (deleteFeature featureId st))))).
Proof.
  split; [split; [constructor | constructor]|].
  intros H. split; [|split; [|split; [|split; [|split]]]].
  - intros name. now apply loadFeature_keeps_keyed.
  - unfold loadAllFeatures. simpl. now apply load_each_keeps_keyed.
  - intros now featureId input. unfold executeFeature.
    destruct (JsMap.get featureId (features st)) as [f|] eqn:Hget; [|exact H].
    destruct (active f); [|exact H]. simpl negb. cbv iota.
    assert (Hnew : well_keyed (JsMap.set featureId (set_usage now f) (features st)))
      by now apply well_keyed_update with (f := f).
    destruct (entry_point (module (set_usage now f))) as [run|]; [|exact Hnew].
    destruct (NodeModule.settled _); exact Hnew.
  - intros now code plan. unfold integrateFeature.
    destruct plan; try exact H;
      destruct (Js.get _ "title") as [| | | |title| |]; try exact H.
    match goal with
    | |- context [loadFeature require uuidv4 ?n ?s] =>
        pose proof (loadFeature_keeps_keyed n s H) as Hload;
        destruct (loadFeature require uuidv4 n s) as [[g|message] st2]
    end; [|exact Hload].
    cbn [snd] in Hload.
    destruct (testFeature g) as [[warning|message] g'];
      unfold with_features; cbn [snd features]; now apply well_keyed_set.
  - intros featureId. unfold deactivateFeature.
    destruct (JsMap.get featureId (features st)) as [f|] eqn:Hget; [|exact H].
    simpl. now apply well_keyed_update with (f := f).
  - intros featureId. unfold deleteFeature.
    destruct (JsMap.get featureId (features st)) as [f|]; [|exact H].
    destruct (unlink (filePath f) (dynamicDir st)); [|exact H].
    simpl. now apply well_keyed_delete.
Qed.

End Loader.

Lemma registry_stays_well_keyed_witness :
  well_keyed (features Samples.loaded)
  /\ well_keyed (features (snd (executeFeature 2000 "plan-doubler" (VObj [])
                                   Samples.loaded)))
  /\ well_keyed (features (snd (deleteFeature "plan-doubler" Samples.loaded))).
Proof.
  assert (H0 : well_keyed (features Samples.loaded)).
  { apply (proj1 (proj2 (proj2 (registry_stays_well_keyed
                                  Samples.hand_written Samples.uuid Samples.iso
                                  (start [("doubler.js", Samples.file Samples.doubler_js)] 0))
                                  (proj1 (registry_stays_well_keyed
                                            Samples.hand_written Samples.uuid Samples.iso
                                            (start [("doubler.js",
                                                     Samples.file Samples.doubler_js)] 0)))))). }
  split; [exact H0|]. split.
  - apply (proj1 (proj2 (proj2 (proj2 (registry_stays_well_keyed
                                         Samples.hand_written Samples.uuid Samples.iso
                                         Samples.loaded) H0)))).
  - apply (proj2 (proj2 (proj2 (proj2 (proj2 (proj2 (registry_stays_well_keyed
                                         Samples.hand_written Samples.uuid Samples.iso
                                         Samples.loaded) H0)))))).
Defined.

End RegistryFacts.

(** ** Deactivation, listing and deletion *)

Module LifecycleFacts.

Import FeatureManager JsString.

(** X1. [deactivateFeature] on a known id clears the [active] flag of
    that feature and changes nothing else: the other fields of the
    feature, the other entries, the order of the keys, the files and the
    counter of identifiers are as before. On an unknown id it does
    nothing at all, and doing it twice is the same as doing it once. *)
Theorem deactivateFeature_clears_one_flag (featureId : string) (st : State) :
  (JsMap.get featureId (features st) = None -> deactivateFeature featureId st = st)
  /\ (forall f,
         JsMap.get featureId (features st) = Some f ->
         exists g,
           JsMap.get featureId (features (deactivateFeature featureId st)) = Some g
           /\ active g = false
           /\ same_but_active f g)
  /\ (forall k, k <> featureId ->
                JsMap.get k (features (deactivateFeature featureId st))
                = JsMap.get k (features st))
  /\ map fst (features (deactivateFeature featureId st)) = map fst (features st)
  /\ dynamicDir (deactivateFeature featureId st) = dynamicDir st
  /\ drawn (deactivateFeature featureId st) = drawn st
  /\ deactivateFeature featureId (deactivateFeature featureId st)
     = deactivateFeature featureId st.
Proof.
  unfold deactivateFeature.
  destruct (JsMap.get featureId (features st)) as [f|] eqn:Hget.
  - split; [discriminate|]. split; [|split; [|split; [|split; [|split]]]].
    + intros f' [= <-]. exists (set_active false f). simpl.
      split; [apply get_set_same|]. split; [reflexivity|].
      repeat split; reflexivity.
    + intros k Hk. simpl. now apply get_set_other.
    + simpl. now apply set_keeps_keys with (v := f).
    + reflexivity.
    + reflexivity.
    + simpl. rewrite get_set_same. unfold with_features. simpl.
      now rewrite set_set.
  - split; [reflexivity|]. split; [discriminate|].
    rewrite Hget. repeat split; reflexivity.
Qed.

Lemma deactivateFeature_clears_one_flag_witness :
  deactivateFeature "no-such-feature" Samples.loaded = Samples.loaded
  /\ exists g,
      JsMap.get "plan-doubler" (features (deactivateFeature "plan-doubler" Samples.loaded))
      = Some g
      /\ active g = false.
Proof.
  split.
  - apply (proj1 (deactivateFeature_clears_one_flag "no-such-feature" Samples.loaded)).
    reflexivity.
  - edestruct (proj1 (proj2 (deactivateFeature_clears_one_flag
                               "plan-doubler" Samples.loaded)))
      as (g & Hg & Hoff & _); [reflexivity|].
    exists g. split; assumption.
Defined.

Lemma listed_is_active (st : State) (f : Feature) :
  In f (getActiveFeatures st)
  <-> In f (JsMap.values (features st)) /\ active f = true.
Proof.
  unfold getActiveFeatures.
  pose proof (sort_desc_permutation last_used_ms
                (filter active (JsMap.values (features st)))) as Hperm.
  rewrite <- filter_In. split; intros H.
  - now apply (Permutation_in _ Hperm).
  - now apply (Permutation_in _ (Permutation_sym Hperm)).
Qed.

(** X2. What [getActiveFeatures] lists is exactly the active features of
    the map, each as often as the map holds it, most recently used first
    (a feature never used counts as used at time 0); no inactive feature
    is listed. *)
Theorem getActiveFeatures_lists_active_by_recency (st : State) :
  Permutation (getActiveFeatures st) (filter active (JsMap.values (features st)))
  /\ JsArray.descending last_used_ms (getActiveFeatures st)
  /\ (forall f, In f (getActiveFeatures st)
                <-> In f (JsMap.values (features st)) /\ active f = true)
  /\ List.length (getActiveFeatures st) <= List.length (features st).
Proof.
  unfold getActiveFeatures.
  pose proof (sort_desc_permutation last_used_ms
                (filter active (JsMap.values (features st)))) as Hperm.
  split; [exact Hperm|]. split; [apply sort_desc_descending|]. split.
  - intros f. apply listed_is_active.
  - rewrite (Permutation_length Hperm).
    etransitivity; [apply filter_length_le|].
    unfold JsMap.values. now rewrite length_map.
Qed.

(** X3. Deactivation takes a feature off the service: in a registry
    that satisfies its invariant, after [deactivateFeature] of a known id
    no feature of that id is listed by [getActiveFeatures] or by
    [getFeaturesByCategory], and invoking the id throws "Feature is
    inactive" and leaves the registry as it is. *)
Theorem deactivated_feature_is_out_of_service
        (now : Z) (featureId : string) (input : value) (st : State) (f : Feature) :
  well_keyed (features st) ->
  JsMap.get featureId (features st) = Some f ->
  let st' := deactivateFeature featureId st in
  (forall g, In g (getActiveFeatures st') -> id g <> featureId)
  /\ (forall wanted g, In g (getFeaturesByCategory wanted st') -> id g <> featureId)
  /\ executeFeature now featureId input st'
     = (Throw ("Feature is inactive: " ++ name f), st').
Proof.
  intros Hkeyed Hget st'.
  assert (Hst' : features st' = JsMap.set featureId (set_active false f) (features st)).
  { subst st'. unfold deactivateFeature. now rewrite Hget. }
  assert (Hkeyed' : well_keyed (features st')).
  { rewrite Hst'. now apply RegistryFacts.well_keyed_update with (f := f). }
  assert (Hentry : JsMap.get featureId (features st') = Some (set_active false f)).
  { rewrite Hst'. apply get_set_same. }
  assert (Hout : forall g, In g (JsMap.values (features st')) -> active g = true ->
                           id g <> featureId).
  { intros g Hin Hon Hid.
    unfold JsMap.values in Hin. apply in_map_iff in Hin as ([k g'] & Hg & Hin).
    simpl in Hg. subst g'.
    destruct Hkeyed' as [Hnodup Hall].
    rewrite Forall_forall in Hall. pose proof (Hall _ Hin) as Hk. simpl in Hk.
    assert (Hsame : JsMap.get k (features st') = Some g).
    { clear - Hnodup Hin. induction (features st') as [|[k0 g0] rest IH];
        simpl in *; [contradiction|].
      inversion Hnodup as [|? ? Hnot Hrest]; subst.
      destruct Hin as [[= -> ->]|Hin].
      - now rewrite String.eqb_refl.
      - destruct (String.eqb_spec k k0) as [->|Hne]; [|now apply IH].
        exfalso. apply Hnot. apply in_map_iff. now exists (k0, g). }
    rewrite Hk, Hid, Hentry in Hsame. injection Hsame as <-.
    simpl in Hon. discriminate. }
  split; [|split].
  - intros g Hin.
    apply listed_is_active in Hin as [Hin Hon].
    now apply Hout.
  - intros wanted g Hin. unfold getFeaturesByCategory in Hin.
    apply filter_In in Hin as [Hin Hon]. apply andb_prop in Hon as [Hon _].
    now apply Hout.
  - unfold executeFeature. rewrite Hentry. reflexivity.
Qed.

Lemma deactivated_feature_is_out_of_service_witness :
  (forall g, In g (getActiveFeatures Samples.deactivated) -> id g <> "plan-doubler")
  /\ fst (executeFeature 2000 "plan-doubler" (VObj []) Samples.deactivated)
     = Throw "Feature is inactive: Doubler".
Proof.
  edestruct (deactivated_feature_is_out_of_service
               2000 "plan-doubler" (VObj []) Samples.loaded)
    as (Hlist & _ & Hthrow).
  - apply RegistryFacts.well_keyed_set with (m := []). split; constructor.
  - reflexivity.
  - split; [exact Hlist|].
    unfold Samples.deactivated. rewrite Hthrow. reflexivity.
Defined.

End LifecycleFacts.

Module DeletionFacts.

Import FeatureManager JsString.

Lemma substring_all (s : string) : String.substring 0 (String.length s) s = s.
Proof. induction s as [|c s IH]; simpl; [reflexivity | now rewrite IH]. Qed.

Lemma stored_name (name : string) :
  String.substring 8 (String.length ("dynamic/" ++ name) - 8) ("dynamic/" ++ name) = name
  /\ String.prefix "dynamic/" ("dynamic/" ++ name) = true.
Proof.
  split.
  - simpl. rewrite Nat.sub_0_r. apply substring_all.
  - simpl. now destruct name.
Qed.

Lemma read_removed (name : string) (files : list (string * File)) :
  read_file name (remove_file name files) = None.
Proof.
  induction files as [|[n f] rest IH]; simpl; [reflexivity|].
  destruct (String.eqb name n) eqn:E; simpl; [exact IH|].
  now rewrite E.
Qed.

Lemma read_remove_other (n name : string) (files : list (string * File)) :
  n <> name -> read_file n (remove_file name files) = read_file n files.
Proof.
  intros Hne. induction files as [|[n0 f] rest IH]; simpl; [reflexivity|].
  destruct (String.eqb_spec name n0) as [->|Hn0]; simpl.
  - destruct (String.eqb_spec n n0); [contradiction | exact IH].
  - destruct (String.eqb_spec n n0); [reflexivity | exact IH].
Qed.

(** X4. [deleteFeature] removes the file and the entry together or
    neither. For a feature whose file is in the storage root, the file and
    the entry are both gone afterwards, every other feature and file is
    untouched, and invoking the id throws "Feature not found". When the
    file cannot be removed (it is no longer there), the error is thrown
    and the manager is exactly as before, entry included. An unknown id is
    not an error and changes nothing. *)
Theorem deleteFeature_removes_both_or_neither (featureId : string) (st : State) :
  (JsMap.get featureId (features st) = None ->
   deleteFeature featureId st = (Normal tt, st))
  /\
  (forall f file,
      JsMap.get featureId (features st) = Some f ->
      filePath f = "dynamic/" ++ filename f ->
      read_file (filename f) (dynamicDir st) = Some file ->
      let st' := snd (deleteFeature featureId st) in
      fst (deleteFeature featureId st) = Normal tt
      /\ JsMap.get featureId (features st') = None
      /\ read_file (filename f) (dynamicDir st') = None
      /\ (forall k, k <> featureId ->
                    JsMap.get k (features st') = JsMap.get k (features st))
      /\ (forall n, n <> filename f ->
                    read_file n (dynamicDir st') = read_file n (dynamicDir st))
      /\ (forall now input,
             executeFeature now featureId input st'
             = (Throw ("Feature not found: " ++ featureId), st')))
  /\
  (forall f,
      JsMap.get featureId (features st) = Some f ->
      filePath f = "dynamic/" ++ filename f ->
      read_file (filename f) (dynamicDir st) = None ->
      deleteFeature featureId st
      = (Throw ("ENOENT: no such file or directory, unlink '" ++ filePath f ++ "'"), st))
  /\
  (forall f message,
      JsMap.get featureId (features st) = Some f ->
      unlink (filePath f) (dynamicDir st) = Throw message ->
      deleteFeature featureId st = (Throw message, st)).
Proof.
  split; [|split; [|split]].
  - intros Hget. unfold deleteFeature. now rewrite Hget.
  - intros f file Hget Hpath Hfile st'. subst st'.
    unfold deleteFeature, unlink. rewrite Hget, Hpath.
    destruct (stored_name (filename f)) as [-> ->]. rewrite Hfile. simpl.
    split; [reflexivity|]. split; [apply get_delete_same|].
    split; [apply read_removed|].
    split; [intros k Hk; now apply get_delete_other|].
    split; [intros n Hn; now apply read_remove_other|].
    intros now input. unfold executeFeature. simpl. now rewrite get_delete_same.
  - intros f Hget Hpath Hfile.
    unfold deleteFeature, unlink. rewrite Hget, Hpath.
    destruct (stored_name (filename f)) as [-> ->]. rewrite Hfile. reflexivity.
  - intros f message Hget Hfail. unfold deleteFeature. now rewrite Hget, Hfail.
Qed.

Lemma deleteFeature_removes_both_or_neither_witness :
  fst (deleteFeature "plan-doubler" Samples.loaded) = Normal tt
  /\ JsMap.get "plan-doubler" (features (snd (deleteFeature "plan-doubler" Samples.loaded)))
     = None
  /\ read_file "doubler.js" (dynamicDir (snd (deleteFeature "plan-doubler" Samples.loaded)))
     = None
  /\ fst (deleteFeature "plan-doubler"
            {| features := features Samples.loaded; dynamicDir := []; drawn := 0 |})
     = Throw "ENOENT: no such file or directory, unlink 'dynamic/doubler.js'".
Proof.
  edestruct (proj1 (proj2 (deleteFeature_removes_both_or_neither
                             "plan-doubler" Samples.loaded)))
    as (Hok & Hentry & Hfile & _);
    [reflexivity | reflexivity | reflexivity |].
  split; [exact Hok|]. split; [exact Hentry|]. split; [exact Hfile|].
  match goal with
  | |- fst ?d = Throw ?message =>
      assert (H : d = (Throw message,
                       {| features := features Samples.loaded;
                          dynamicDir := []; drawn := 0 |}))
  end.
  { eapply eq_trans;
      [ eapply (proj1 (proj2 (proj2 (deleteFeature_removes_both_or_neither
                                       "plan-doubler"
                                       {| features := features Samples.loaded;
                                          dynamicDir := []; drawn := 0 |}))));
        reflexivity
      | reflexivity ]. }
  rewrite H. reflexivity.
Defined.

End DeletionFacts.

(** ** Probing a module ([analyzeCapabilities], [extractRoutes]) *)

Module ProbeFacts.

Import FeatureManager JsString.

Ltac probe m :=
  unfold analyzeCapabilities;
  destruct (NodeModule.execute m), (NodeModule.get m), (NodeModule.process m),
    (NodeModule.validate m), (NodeModule.transform m),
    (NodeModule.routes_length_positive m),
    (NodeModule.schedule m), (NodeModule.webhook m).

Lemma capabilities_mask (m : NodeModule.t) :
  analyzeCapabilities m
  = map fst
      (filter snd
         (combine capability_names
            [ has (NodeModule.execute m); has (NodeModule.get m);
              has (NodeModule.process m); has (NodeModule.validate m);
              has (NodeModule.transform m);
              NodeModule.routes_length_positive m;
              NodeModule.schedule m; NodeModule.webhook m ])).
Proof. probe m; reflexivity. Qed.

Lemma filtered_keys_NoDup {A : Type} (l : list (A * bool)) :
  NoDup (map fst l) -> NoDup (map fst (filter snd l)).
Proof.
  induction l as [|[a b] rest IH]; simpl; [constructor|].
  intros H. inversion H as [|? ? Hnot Hrest]; subst.
  destruct b; simpl; [|now apply IH].
  constructor; [|now apply IH].
  intros Hin. apply Hnot. apply in_map_iff in Hin as (e & He & Hin).
  apply filter_In in Hin as [Hin _]. apply in_map_iff. now exists e.
Qed.

Lemma filtered_keys_incl {A : Type} (l : list (A * bool)) :
  incl (map fst (filter snd l)) (map fst l).
Proof.
  intros a Hin. apply in_map_iff in Hin as (e & He & Hin).
  apply filter_In in Hin as [Hin _]. apply in_map_iff. now exists e.
Qed.

Lemma capability_names_NoDup : NoDup capability_names.
Proof.
  unfold capability_names.
  repeat (constructor; [simpl; intuition discriminate|]). constructor.
Qed.

Lemma selected_iff {A : Type} (l : list (A * bool)) (a : A) :
  In a (map fst (filter snd l)) <-> In (a, true) l.
Proof.
  rewrite in_map_iff. split.
  - intros ([a' b] & E & Hin). simpl in E. subst a'.
    apply filter_In in Hin as [Hin Hb]. simpl in Hb. now subst b.
  - intros Hin. exists (a, true). split; [reflexivity|].
    apply filter_In. now split.
Qed.

Ltac pick :=
  rewrite capabilities_mask, selected_iff; unfold capability_names; simpl;
  split;
  [ let P := fresh "P" in
    intros P;
    repeat (destruct P as [P|P]; [try discriminate P; try (now injection P)|]);
    contradiction
  | let P := fresh "P" in intros P; rewrite P; tauto ].

(** X6. The capabilities of a module are a selection from the eight
    fixed names, without repetition: a name is given exactly when the
    module has the matching shape. "api-provider" is given exactly when
    [module.routes] is truthy and its [length] exceeds 0: for a route
    table that is not empty, and also for a value that is no array but
    has such a length, a text for one, from which [extractRoutes] takes
    no route. An empty route table gives no "api-provider". *)
Theorem analyzeCapabilities_selects_fixed_names (m : NodeModule.t) :
  NoDup (analyzeCapabilities m)
  /\ incl (analyzeCapabilities m) capability_names
  /\ (In "executable" (analyzeCapabilities m) <-> has (NodeModule.execute m) = true)
  /\ (In "data-provider" (analyzeCapabilities m) <-> has (NodeModule.get m) = true)
  /\ (In "processor" (analyzeCapabilities m) <-> has (NodeModule.process m) = true)
  /\ (In "validator" (analyzeCapabilities m) <-> has (NodeModule.validate m) = true)
  /\ (In "transformer" (analyzeCapabilities m) <-> has (NodeModule.transform m) = true)
  /\ (In "api-provider" (analyzeCapabilities m)
      <-> (exists r table,
              NodeModule.routes_value m = NodeModule.RouteTable (r :: table))
          \/ NodeModule.routes_value m = NodeModule.OtherRoutes true)
  /\ (NodeModule.routes_value m = NodeModule.OtherRoutes true ->
      In "api-provider" (analyzeCapabilities m) /\ NodeModule.routes m = None)
  /\ (In "scheduled" (analyzeCapabilities m) <-> NodeModule.schedule m = true)
  /\ (In "webhook-handler" (analyzeCapabilities m) <-> NodeModule.webhook m = true).
Proof.
  assert (Hroutes : In "api-provider" (analyzeCapabilities m)
                    <-> NodeModule.routes_length_positive m = true) by pick.
  assert (E : NodeModule.routes_length_positive m = true
              <-> (exists r table,
                      NodeModule.routes_value m = NodeModule.RouteTable (r :: table))
                  \/ NodeModule.routes_value m = NodeModule.OtherRoutes true).
  { unfold NodeModule.routes_length_positive.
    destruct (NodeModule.routes_value m) as [|[|r table]|[|]]; split; intros H;
      try discriminate H; try reflexivity;
      try (destruct H as [(? & ? & H)|H]; discriminate H).
    - left. eexists. eexists. reflexivity.
    - now right. }
  split; [|split].
  - rewrite capabilities_mask. apply filtered_keys_NoDup.
    exact capability_names_NoDup.
  - rewrite capabilities_mask. exact (filtered_keys_incl _).
  - split; [pick|]. split; [pick|]. split; [pick|]. split; [pick|].
    split; [pick|]. split; [now rewrite Hroutes|]. split; [|split; pick].
    intros H. split.
    + apply Hroutes, E. now right.
    + unfold NodeModule.routes. now rewrite H.
Qed.

Lemma analyzeCapabilities_selects_fixed_names_witness :
  let m := {| NodeModule.callable := None; NodeModule.execute := None;
              NodeModule.get := None; NodeModule.process := None;
              NodeModule.validate := None; NodeModule.transform := None;
              NodeModule.handler := None; NodeModule.health := None;
              NodeModule.routes_value := NodeModule.OtherRoutes true;
              NodeModule.schedule := false; NodeModule.webhook := false;
              NodeModule.metadata := None |} in
  In "api-provider" (analyzeCapabilities m) /\ extractRoutes m = [].
Proof.
  intros m. split; [|reflexivity].
  exact (proj1 (proj1 (proj2 (proj2 (proj2 (proj2 (proj2 (proj2 (proj2 (proj2
                (analyzeCapabilities_selects_fixed_names m))))))))) eq_refl)).
Defined.

Lemma no_space_app (a b : string) :
  all_chars (fun c => negb (RegExp.is_space c)) a = true ->
  all_chars (fun c => negb (RegExp.is_space c)) b = true ->
  all_chars (fun c => negb (RegExp.is_space c)) (a ++ b) = true.
Proof.
  intros Ha Hb. induction a as [|c a IH]; simpl in *; [exact Hb|].
  apply andb_prop in Ha as [Hc Ha]. now rewrite Hc, IH.
Qed.

Lemma dash_spaces_has_no_space (in_run : bool) (s : string) :
  all_chars (fun c => negb (RegExp.is_space c)) (dash_spaces in_run s) = true.
Proof.
  revert in_run. induction s as [|c s IH]; intros in_run; simpl; [reflexivity|].
  destruct (RegExp.is_space c) eqn:E.
  - destruct in_run; [apply IH|]. simpl. apply IH.
  - simpl. rewrite E. apply IH.
Qed.

(** X7. The routes of a module: a route table that the module declares
    is taken as it is, an empty one included; without a table there are
    at most two routes, a POST for [execute] and a GET for [get], each
    only when the module exports that function, both on the same path.
    That path starts with "/api/" and holds no white space. *)
Theorem extractRoutes_declared_or_synthesized (m : NodeModule.t) :
  (forall table, NodeModule.routes m = Some table -> extractRoutes m = table)
  /\
  (NodeModule.routes m = None ->
   List.length (extractRoutes m) <= 2
   /\ forall r, In r (extractRoutes m) ->
                NodeModule.path r = route_path m
                /\ ((NodeModule.method r = "POST"
                     /\ NodeModule.handler_name r = "execute"
                     /\ In "executable" (analyzeCapabilities m))
                    \/ (NodeModule.method r = "GET"
                        /\ NodeModule.handler_name r = "get"
                        /\ In "data-provider" (analyzeCapabilities m))))
  /\ String.prefix "/api/" (route_path m) = true
  /\ all_chars (fun c => negb (RegExp.is_space c)) (route_path m) = true.
Proof.
  split; [|split; [|split]].
  - intros table H. unfold extractRoutes. now rewrite H.
  - intros H. unfold extractRoutes. rewrite H.
    assert (He : In "executable" (analyzeCapabilities m)
                 <-> has (NodeModule.execute m) = true) by pick.
    assert (Hg : In "data-provider" (analyzeCapabilities m)
                 <-> has (NodeModule.get m) = true) by pick.
    destruct (NodeModule.execute m), (NodeModule.get m); simpl.
    + split; [lia|]. intros r [<-|[<-|[]]]; simpl.
      * split; [reflexivity|]. left. repeat split. now apply He.
      * split; [reflexivity|]. right. repeat split. now apply Hg.
    + split; [lia|]. intros r [<-|[]]; simpl.
      split; [reflexivity|]. left. repeat split. now apply He.
    + split; [lia|]. intros r [<-|[]]; simpl.
      split; [reflexivity|]. right. repeat split. now apply Hg.
    + split; [lia | intros r []].
  - unfold route_path. simpl. now destruct (NodeModule.or_else _ _).
  - unfold route_path. apply no_space_app; [reflexivity|].
    unfold NodeModule.or_else.
    destruct (NodeModule.meta m NodeModule.title) as [title|]; simpl; [|reflexivity].
    destruct (String.eqb _ ""); [reflexivity | apply dash_spaces_has_no_space].
Qed.

Lemma extractRoutes_declared_or_synthesized_witness :
  extractRoutes (Samples.bare (Some Samples.doubling) None None)
  = [ {| NodeModule.method := "POST"; NodeModule.path := "/api/feature";
         NodeModule.handler_name := "execute";
         NodeModule.route_description := "Execute the main feature function" |} ]
  /\ List.length (extractRoutes Samples.doubler) <= 2.
Proof.
  split; [reflexivity|].
  apply (proj1 (proj2 (extractRoutes_declared_or_synthesized Samples.doubler))).
  reflexivity.
Defined.

End ProbeFacts.

(** ** Loading ([loadFeature], [loadAllFeatures], [integrateFeature]) *)

Module LoadingFacts.

Import FeatureManager JsString.

Lemma or_else_nonempty (a : option string) (b : string) :
  b <> "" -> NodeModule.or_else a b <> "".
Proof.
  intros Hb. unfold NodeModule.or_else. destruct a as [s|]; [|exact Hb].
  destruct (String.eqb_spec s ""); [exact Hb | assumption].
Qed.

Lemma set_length {V : Type} (k : string) (v : V) (m : JsMap.t V) :
  List.length (JsMap.set k v m) <= S (List.length m).
Proof.
  induction m as [|[k' v'] rest IH]; simpl; [lia|].
  destruct (String.eqb k k'); simpl; lia.
Qed.

Lemma read_write_other (now : Z) (n name text : string) (files : list (string * File)) :
  n <> name -> read_file n (write_file now name text files) = read_file n files.
Proof.
  intros Hne. induction files as [|[n0 f] rest IH]; simpl.
  - destruct (String.eqb_spec n name); [contradiction | reflexivity].
  - destruct (String.eqb_spec name n0) as [->|Hn0]; simpl.
    + destruct (String.eqb_spec n n0); [contradiction | reflexivity].
    + destruct (String.eqb_spec n n0); [reflexivity | exact IH].
Qed.

Lemma prefix_self (s : string) : String.prefix s s = true.
Proof.
  induction s as [|c s IH]; simpl; [reflexivity|].
  destruct (ascii_dec c c); [exact IH | contradiction].
Qed.

Lemma includes_self (s : string) : includes s s = true.
Proof. destruct s; cbn [includes]; now rewrite prefix_self. Qed.

Section Loader.

Variable require : string -> Completion NodeModule.t.
Variable uuidv4 : nat -> string.
Variable toISOString : Z -> string.

(** X8. [loadFeature] either stores one fresh feature or leaves the
    manager untouched. A feature that it returns is active, has never
    been used, names its file, has a category, a complexity and a
    description that are not empty, carries the capabilities and routes
    probed from its module, and is the entry of the map under its own id;
    no other entry and no file has changed. When it throws, the manager
    is as it was. *)
Theorem loadFeature_stores_fresh_or_nothing (name : string) (st : State) :
  match loadFeature require uuidv4 name st with
  | (Normal g, st') =>
      active g = true /\ usageCount g = 0 /\ lastUsed g = None
      /\ category g <> "" /\ complexity g <> "" /\ description g <> ""
      /\ filename g = name /\ filePath g = "dynamic/" ++ name
      /\ capabilities g = analyzeCapabilities (module g)
      /\ routes g = extractRoutes (module g)
      /\ JsMap.get (id g) (features st') = Some g
      /\ (forall k, k <> id g -> JsMap.get k (features st') = JsMap.get k (features st))
      /\ dynamicDir st' = dynamicDir st
  | (Throw _, st') => st' = st
  end.
Proof.
  unfold loadFeature.
  destruct (read_file name (dynamicDir st)) as [file|]; [|reflexivity].
  destruct (require (content file)) as [m|]; [|reflexivity].
  cbv zeta. cbn [features dynamicDir].
  repeat split; try reflexivity.
  - apply or_else_nonempty. discriminate.
  - apply or_else_nonempty. discriminate.
  - apply or_else_nonempty. discriminate.
  - apply get_set_same.
  - intros k Hk. now apply get_set_other.
Qed.

Lemma unloadable_is_skipped (dir : list (string * File)) (name : string) (st : State) :
  dynamicDir st = dir ->
  loadable require dir name = false ->
  (if endsWith name ".js" then snd (loadFeature require uuidv4 name st) else st) = st.
Proof.
  intros Hdir. unfold loadable, loadFeature. rewrite Hdir.
  destruct (endsWith name ".js"); [|reflexivity]. cbn [andb].
  destruct (read_file name dir) as [file|]; [|reflexivity].
  now destruct (require (content file)).
Qed.

Lemma loadable_is_js (dir : list (string * File)) (name : string) :
  loadable require dir name = true -> endsWith name ".js" = true.
Proof. unfold loadable. intros H. now apply andb_prop in H. Qed.

Lemma loadFeature_length (name : string) (st : State) :
  List.length (features (snd (loadFeature require uuidv4 name st)))
  <= S (List.length (features st)).
Proof.
  unfold loadFeature.
  destruct (read_file name (dynamicDir st)) as [file|]; [|simpl; lia].
  destruct (require (content file)) as [m|]; [|simpl; lia].
  cbv zeta. cbn [snd features]. apply set_length.
Qed.

Lemma load_each_step (name : string) (rest : list string) (st : State) :
  load_each require uuidv4 (name :: rest) st
  = load_each require uuidv4 rest
      (if endsWith name ".js" then snd (loadFeature require uuidv4 name st) else st).
Proof. simpl. now destruct (endsWith name ".js"). Qed.

Lemma load_each_keeps_files (names : list string) (st : State) :
  dynamicDir (load_each require uuidv4 names st) = dynamicDir st.
Proof.
  revert st. induction names as [|name rest IH]; intros st; [reflexivity|].
  rewrite load_each_step, IH.
  destruct (endsWith name ".js"); [|reflexivity].
  apply RegistrationFacts.loadFeature_keeps_files.
Qed.

Lemma load_each_filter (dir : list (string * File)) (names : list string) (st : State) :
  dynamicDir st = dir ->
  load_each require uuidv4 names st
  = load_each require uuidv4 (filter (loadable require dir) names) st.
Proof.
  revert st. induction names as [|name rest IH]; intros st Hdir; [reflexivity|].
  rewrite load_each_step. cbn [filter].
  destruct (loadable require dir name) eqn:L.
  - rewrite load_each_step. rewrite (loadable_is_js dir name L).
    apply IH. now rewrite RegistrationFacts.loadFeature_keeps_files.
  - rewrite (unloadable_is_skipped dir name st Hdir L). now apply IH.
Qed.

Lemma load_each_length (dir : list (string * File)) (names : list string) (st : State) :
  dynamicDir st = dir ->
  List.length (features (load_each require uuidv4 names st))
  <= List.length (features st) + List.length (filter (loadable require dir) names).
Proof.
  revert st. induction names as [|name rest IH]; intros st Hdir;
    [simpl; lia|].
  rewrite load_each_step. cbn [filter].
  destruct (loadable require dir name) eqn:L.
  - rewrite (loadable_is_js dir name L). cbn [List.length].
    etransitivity;
      [apply IH; now rewrite RegistrationFacts.loadFeature_keeps_files|].
    pose proof (loadFeature_length name st). lia.
  - rewrite (unloadable_is_skipped dir name st Hdir L). now apply IH.
Qed.

(** X9. The scan of [loadAllFeatures] is not disturbed by what it cannot
    load: a file whose name does not end in ".js", or whose module
    [require] refuses, has no effect, so the outcome is that of loading
    the loadable files alone, in directory order. The files are left as
    they are, and a new manager ends with at most one feature for each
    loadable file. *)
Theorem loadAllFeatures_skips_what_does_not_load (st : State) :
  snd (loadAllFeatures require uuidv4 st)
  = load_each require uuidv4
      (filter (loadable require (dynamicDir st)) (map fst (dynamicDir st))) st
  /\ dynamicDir (snd (loadAllFeatures require uuidv4 st)) = dynamicDir st
  /\ List.length (fst (loadAllFeatures require uuidv4 (start (dynamicDir st) (drawn st))))
     <= List.length (filter (loadable require (dynamicDir st)) (map fst (dynamicDir st))).
Proof.
  unfold loadAllFeatures. cbn [fst snd]. split; [|split].
  - now apply load_each_filter.
  - apply load_each_keeps_files.
  - unfold JsMap.values. rewrite length_map.
    apply (load_each_length (dynamicDir st) (map fst (dynamicDir st))
             (start (dynamicDir st) (drawn st)) eq_refl).
Qed.

End Loader.

End LoadingFacts.

(** ** The safety policy ([validatePlan], [testInSandbox], [quarantineCode]) *)

Module PolicyFacts.

Import JsString SafetyManager.

Lemma allowed_iff (allowedModules : list string) (name : string) :
  existsb (String.eqb name) allowedModules = true <-> In name allowedModules.
Proof.
  rewrite existsb_exists. split.
  - intros (x & Hin & Heq). apply String.eqb_eq in Heq. now subst.
  - intros Hin. exists name. split; [exact Hin | apply String.eqb_refl].
Qed.

Lemma check_dependencies_safe (allowedModules : list string) (deps : list value) :
  check_dependencies allowedModules deps = Safe
  <-> Forall (dependency_allowed allowedModules) deps.
Proof.
  induction deps as [|dep rest IH]; simpl.
  - split; [constructor | reflexivity].
  - destruct dep as [| |b|n|name|items|fields];
      try (split; [discriminate | intros H; inversion H as [|? ? (x & Hx & _) _];
                                  discriminate]).
    destruct (existsb (String.eqb name) allowedModules) eqn:E.
    + rewrite IH. split.
      * intros H. constructor; [|exact H]. exists name. split; [reflexivity|].
        now apply allowed_iff.
      * intros H. now inversion H.
    + split; [discriminate|]. intros H. inversion H as [|? ? (x & Hx & Hin) _].
      injection Hx as <-. apply allowed_iff in Hin. congruence.
Qed.

Lemma check_paths_safe (files : list value) :
  check_paths files = Normal Safe <-> Forall path_inside files.
Proof.
  induction files as [|file rest IH]; simpl.
  - split; [constructor | reflexivity].
  - assert (Hno : forall v, Js.get file "path" = v ->
                            (forall p, v <> VStr p) -> ~ Forall path_inside (file :: rest)).
    { intros v Hv Hnot H. inversion H as [|? ? (p & Hp & _) _]. subst.
      now apply (Hnot p). }
    destruct file as [| |b|n|s|items|fields];
      try (split; [discriminate | intros H; exfalso;
                                  apply (Hno VUndefined eq_refl); [discriminate | exact H]]).
    destruct (Js.get (VObj fields) "path") as [| |b|n|path|items|fs] eqn:Hget;
      try (split; [discriminate | intros H; exfalso;
                                  eapply (Hno _ eq_refl); [discriminate | exact H]]).
    destruct (startsWith path "dynamic/") eqn:Hpre.
    + rewrite IH. split.
      * intros H. constructor; [|exact H]. exists path. now split.
      * intros H. now inversion H.
    + split; [discriminate|]. intros H. inversion H as [|? ? (p & Hp & Hin) _].
      congruence.
Qed.

Lemma find_none_iff {A : Type} (f : A -> bool) (l : list A) :
  find f l = None <-> Forall (fun x => f x = false) l.
Proof.
  induction l as [|x l IH]; simpl.
  - split; [constructor | reflexivity].
  - destruct (f x) eqn:E.
    + split; [discriminate|]. intros H. inversion H. congruence.
    + rewrite IH. split.
      * intros H. now constructor.
      * intros H. now inversion H.
Qed.

Lemma checkSuspiciousContent_safe (plan : value) :
  checkSuspiciousContent plan = Normal Safe
  <-> keywords_absent plan /\ paths_inside plan.
Proof.
  unfold checkSuspiciousContent, keywords_absent, paths_inside. cbv zeta.
  destruct (Js.stringify plan) as [text|].
  2:{ split; [discriminate|]. intros [(t & Ht & _) _]. discriminate. }
  destruct (find _ suspiciousKeywords) as [keyword|] eqn:Hfind.
  - split; [discriminate|]. intros [(t & [= <-] & Hall) _].
    destruct (find_some _ _ Hfind) as [Hin Htrue].
    rewrite Forall_forall in Hall. specialize (Hall _ Hin). simpl in Hall. congruence.
  - apply find_none_iff in Hfind.
    assert (Hk : exists t, Some text = Some t
                           /\ Forall (fun keyword => includes (toLowerCase t) keyword = false)
                                     suspiciousKeywords)
      by (exists text; now split).
    destruct (Js.get plan "files") as [| |b|n|s|items|fields]; cbn [Js.truthy].
    + split; [now split | reflexivity].
    + split; [now split | reflexivity].
    + destruct b; [split; [discriminate | intros [_ H]; discriminate]
                  | split; [now split | reflexivity]].
    + destruct (negb (n =? 0)%Z);
        [split; [discriminate | intros [_ H]; discriminate]
        | split; [now split | reflexivity]].
    + destruct (negb (String.eqb s ""));
        [split; [discriminate | intros [_ H]; discriminate]
        | split; [now split | reflexivity]].
    + rewrite check_paths_safe. split; [now split | now intros [_ H]].
    + split; [discriminate | intros [_ H]; discriminate].
Qed.

Lemma validateDependencies_safe (allowedModules : list string) (plan : value) :
  Js.get plan "dependencies" = VUndefined
  \/ (exists deps, Js.get plan "dependencies" = VArr deps) ->
  validateDependencies allowedModules (Js.or_else (Js.get plan "dependencies") (VArr []))
  = Normal Safe
  <-> dependencies_allowed allowedModules plan.
Proof.
  unfold dependencies_allowed, Js.or_else.
  intros [E|[deps E]]; rewrite E; cbn [Js.truthy].
  - split; reflexivity.
  - simpl. rewrite <- check_dependencies_safe. split; [now intros [= ->] | now intros ->].
Qed.

Lemma otherwise_none (a b : option string) :
  Joi.otherwise a b = None -> a = None /\ b = None.
Proof. destruct a; simpl; [discriminate | now split]. Qed.

(** A plan that the schema accepts declares its dependencies, if any, as
    an array. *)
Lemma schema_dependencies_shape (plan : value) :
  Joi.validate None planSchema plan = None ->
  Js.get plan "dependencies" = VUndefined
  \/ exists deps, Js.get plan "dependencies" = VArr deps.
Proof.
  intros H. unfold planSchema in H.
  destruct plan as [| |b|n|s|items|fields]; cbn [Joi.validate] in H; try discriminate.
  apply otherwise_none in H as [H _].
  do 6 (apply otherwise_none in H as [_ H]).
  apply otherwise_none in H as [Hd _].
  cbn [Js.get].
  destruct (Js.lookup "dependencies" fields);
    try (now left); try (simpl in Hd; discriminate).
  right. eexists. reflexivity.
Qed.

(** X10. What an approval by [validatePlan] means, and how a rejection is
    graded, for a plan whose [estimatedLOC], where it is a text, is the
    numeral of an integer or holds no digit (the schema converts a text
    that is a numeral to its number, and the numbers of this embedding
    are the integers). Such a plan is approved exactly when it passes
    the schema, its serialised text holds none of the suspicious
    keywords, every file it declares has a path that starts with
    "dynamic/" and every dependency it declares is an allowed module; the
    verdict then reads "Plan passed all safety checks" with severity
    none. A rejection is graded high, except for one that only the
    dependency check raises, which is graded medium; no verdict is graded
    low. *)
Theorem validatePlan_approves_exactly
        (allowedModules : list string) (plan : value) (r : ValidationReport) :
  Joi.exact_number (Js.get plan "estimatedLOC") ->
  validatePlan allowedModules plan = Normal r ->
  (approved r = true
   <-> Joi.validate None planSchema plan = None
       /\ keywords_absent plan
       /\ paths_inside plan
       /\ dependencies_allowed allowedModules plan)
  /\ (approved r = true ->
      v_reason r = "Plan passed all safety checks" /\ severity r = SevNone)
  /\ (approved r = false ->
      (severity r = SevHigh \/ severity r = SevMedium)
      /\ (severity r = SevMedium
          <-> Joi.validate None planSchema plan = None
              /\ keywords_absent plan
              /\ paths_inside plan
              /\ ~ dependencies_allowed allowedModules plan)).
Proof.
  intros _ Hrun.
  assert (Hbody :
    r = match Joi.validate None planSchema plan with
        | Some message => verdict false ("Plan validation failed: " ++ message) SevHigh
        | None =>
            match checkSuspiciousContent plan with
            | Throw message => verdict false ("Validation error: " ++ message) SevHigh
            | Normal (Unsafe why) => verdict false why SevHigh
            | Normal Safe =>
                match validateDependencies allowedModules
                        (Js.or_else (Js.get plan "dependencies") (VArr [])) with
                | Throw message => verdict false ("Validation error: " ++ message) SevHigh
                | Normal (Unsafe why) => verdict false why SevMedium
                | Normal Safe => verdict true "Plan passed all safety checks" SevNone
                end
            end
        end).
  { unfold validatePlan in Hrun. destruct plan; try discriminate; now injection Hrun. }
  clear Hrun. pose proof (checkSuspiciousContent_safe plan) as Hsusp.
  pose proof (schema_dependencies_shape plan) as Hshape.
  destruct (Joi.validate None planSchema plan) as [message|].
  { subst r. cbn. split; [split; [discriminate | intros [H _]; discriminate]|].
    split; [discriminate|]. intros _. split; [now left|].
    split; [discriminate | intros [H _]; discriminate]. }
  specialize (Hshape eq_refl).
  pose proof (validateDependencies_safe allowedModules plan Hshape) as Hdeps.
  destruct (checkSuspiciousContent plan) as [[|why]|message].
  - destruct Hsusp as [Hsusp _]. destruct (Hsusp eq_refl) as [Hk Hp].
    destruct (validateDependencies allowedModules _) as [[|why]|message] eqn:Hv.
    + destruct Hdeps as [Hdeps _]. specialize (Hdeps eq_refl). subst r. cbn.
      split; [split; [now intros _ | reflexivity]|].
      split; [now intros _ | discriminate].
    + assert (Hnot : ~ dependencies_allowed allowedModules plan)
        by (intros H; apply Hdeps in H; discriminate).
      subst r. cbn. split; [split; [discriminate | intros (_ & _ & _ & H); contradiction]|].
      split; [discriminate|]. intros _. split; [now right|].
      split; [now intros _ | reflexivity].
    + exfalso. destruct Hshape as [E|[deps E]]; rewrite E in Hv; discriminate.
  - subst r. cbn.
    split; [split; [discriminate
                   | intros (_ & Hk & Hp & _);
                     destruct Hsusp as [_ Hsusp]; specialize (Hsusp (conj Hk Hp));
                     discriminate]|].
    split; [discriminate|]. intros _. split; [now left|].
    split; [discriminate|]. intros (_ & Hk & Hp & _).
    destruct Hsusp as [_ Hsusp]. specialize (Hsusp (conj Hk Hp)). discriminate.
  - subst r. cbn.
    split; [split; [discriminate
                   | intros (_ & Hk & Hp & _);
                     destruct Hsusp as [_ Hsusp]; specialize (Hsusp (conj Hk Hp));
                     discriminate]|].
    split; [discriminate|]. intros _. split; [now left|].
    split; [discriminate|]. intros (_ & Hk & Hp & _).
    destruct Hsusp as [_ Hsusp]. specialize (Hsusp (conj Hk Hp)). discriminate.
Qed.

Lemma validatePlan_approves_exactly_witness :
  (keywords_absent Samples.valid_plan
   /\ dependencies_allowed loadAllowedModules Samples.valid_plan)
  /\ ~ dependencies_allowed loadAllowedModules Samples.fs_plan
  /\ (Joi.exact_number (Js.get Samples.text_size_plan "estimatedLOC")
      /\ keywords_absent Samples.text_size_plan).
Proof.
  split; [|split].
  - destruct (validatePlan_approves_exactly loadAllowedModules Samples.valid_plan
                (verdict true "Plan passed all safety checks" SevNone))
      as [[H _] _]; [intros s E; discriminate E | vm_compute; reflexivity |].
    destruct (H eq_refl) as (_ & Hk & _ & Hd). now split.
  - destruct (validatePlan_approves_exactly loadAllowedModules Samples.fs_plan
                (verdict false "Dependency 'fs' is not in the allowed modules list"
                         SevMedium))
      as (_ & _ & H); [intros s E; discriminate E | vm_compute; reflexivity |].
    destruct (H eq_refl) as [_ [Hm _]]. now destruct (Hm eq_refl) as (_ & _ & _ & Hd).
  - assert (Hexact : Joi.exact_number (Js.get Samples.text_size_plan "estimatedLOC"))
      by (intros s E; injection E as <-; left; discriminate).
    split; [exact Hexact|].
    destruct (validatePlan_approves_exactly loadAllowedModules Samples.text_size_plan
                (verdict true "Plan passed all safety checks" SevNone) Hexact)
      as [[H _] _]; [vm_compute; reflexivity|].
    now destruct (H eq_refl) as (_ & Hk & _).
Defined.

(** X27. A plan that lacks one of the five required keys is never
    approved: whatever else it holds, [validatePlan] rejects it at the
    schema, with severity high and a reason that starts with "Plan
    validation failed: ". *)
Theorem incomplete_plan_is_rejected
        (allowedModules : list string) (fields : list (string * value)) (key : string) :
  In key required_keys ->
  Js.lookup key fields = VUndefined ->
  exists message,
    Joi.validate None planSchema (VObj fields) = Some message
    /\ validatePlan allowedModules (VObj fields)
       = Normal {| approved := false;
                   v_reason := "Plan validation failed: " ++ message;
                   severity := SevHigh |}.
Proof.
  intros Hkey Hmissing. unfold validatePlan.
  destruct (Joi.validate None planSchema (VObj fields)) as [message|] eqn:E.
  { exists message. now split. }
  exfalso. unfold planSchema in E. cbn [Joi.validate] in E.
  apply otherwise_none in E as [E _].
  apply otherwise_none in E as [E1 E].
  apply otherwise_none in E as [E2 E].
  apply otherwise_none in E as [E3 E].
  apply otherwise_none in E as [E4 E].
  apply otherwise_none in E as [E5 _].
  unfold required_keys in Hkey. cbn [In] in Hkey.
  destruct Hkey as [<-|[<-|[<-|[<-|[<-|[]]]]]].
  - now rewrite Hmissing in E1.
  - now rewrite Hmissing in E2.
  - now rewrite Hmissing in E3.
  - now rewrite Hmissing in E4.
  - now rewrite Hmissing in E5.
Qed.

Lemma incomplete_plan_is_rejected_witness :
  exists message,
    validatePlan loadAllowedModules Samples.scenario_A
    = Normal {| approved := false;
                v_reason := "Plan validation failed: " ++ message;
                severity := SevHigh |}.
Proof.
  destruct (incomplete_plan_is_rejected loadAllowedModules
              [ ("title", VStr "Hack the system"); ("description", VStr "...");
                ("category", VStr "utility"); ("complexity", VStr "low") ]
              "id" (or_introl eq_refl) eq_refl) as (message & _ & H).
  exists message. exact H.
Defined.

Lemma Forall_iff_Forall_granted (allowedModules : list string) (deps : list value) :
  Forall (dependency_allowed allowedModules) deps
  <-> Forall (fun dep => exists name,
                  dep = VStr name
                  /\ sandbox_require allowedModules name = Normal name) deps.
Proof.
  rewrite !Forall_forall. split; intros H dep Hin; destruct (H dep Hin) as (name & -> & Hn);
    exists name; (split; [reflexivity|]).
  - unfold sandbox_require. apply allowed_iff in Hn. now rewrite Hn.
  - unfold sandbox_require in Hn. apply allowed_iff.
    now destruct (existsb (String.eqb name) allowedModules).
Qed.

(** X11. The dependency check of a plan and the [require] of the sandbox
    follow one policy. The declared dependencies pass exactly when each
    is a string that the sandbox [require] would grant; when they do not
    pass, the reason names the first dependency, in the order declared,
    that is not granted, and none after it. *)
Theorem declared_dependencies_follow_the_sandbox_policy
        (allowedModules : list string) (deps : list value) :
  (check_dependencies allowedModules deps = Safe
   <-> Forall (fun dep => exists name,
                   dep = VStr name
                   /\ sandbox_require allowedModules name = Normal name) deps)
  /\ (forall pre dep post,
         deps = (pre ++ dep :: post)%list ->
         Forall (dependency_allowed allowedModules) pre ->
         ~ dependency_allowed allowedModules dep ->
         check_dependencies allowedModules deps
         = Unsafe ("Dependency '" ++ Js.to_string dep
                     ++ "' is not in the allowed modules list")).
Proof.
  split.
  - rewrite check_dependencies_safe. apply Forall_iff_Forall_granted.
  - intros pre dep post -> Hpre Hdep.
    induction Hpre as [|d pre (name & -> & Hin) _ IH]; simpl.
    + destruct dep as [| |b|n|name|items|fields]; try reflexivity.
      destruct (existsb (String.eqb name) allowedModules) eqn:E; [|reflexivity].
      exfalso. apply Hdep. exists name. split; [reflexivity | now apply allowed_iff].
    + apply allowed_iff in Hin. now rewrite Hin.
Qed.

Lemma declared_dependencies_follow_the_sandbox_policy_witness :
  check_dependencies loadAllowedModules [VStr "crypto"; VStr "fs"; VStr "net"]
  = Unsafe "Dependency 'fs' is not in the allowed modules list".
Proof.
  apply (proj2 (declared_dependencies_follow_the_sandbox_policy loadAllowedModules
                  [VStr "crypto"; VStr "fs"; VStr "net"])
           [VStr "crypto"] (VStr "fs") [VStr "net"] eq_refl).
  - constructor; [|constructor]. exists "crypto". split; [reflexivity | now left].
  - intros (name & [= <-] & Hin). vm_compute in Hin. intuition discriminate.
Defined.

(** X12. The path check of a plan is a test of the first eight
    characters. The declared files pass exactly when the path of each
    starts with "dynamic/"; whatever follows the prefix is not looked at,
    segments that climb out of the directory included. When they do not
    pass, the reason names the first path, in the order declared, that
    lacks the prefix. *)
Theorem check_paths_is_a_prefix_test :
  (forall files, check_paths files = Normal Safe <-> Forall path_inside files)
  /\ (forall rest others,
         path_inside (VObj (("path", VStr ("dynamic/" ++ rest)) :: others)))
  /\ (forall pre fields path post,
         Forall path_inside pre ->
         Js.lookup "path" fields = VStr path ->
         startsWith path "dynamic/" = false ->
         check_paths (pre ++ VObj fields :: post)
         = Normal (Unsafe ("Unsafe file path: " ++ path
                             ++ ". All files must be in dynamic/ directory"))).
Proof.
  split; [exact check_paths_safe|]. split.
  - intros rest others. exists ("dynamic/" ++ rest). split; [reflexivity|].
    unfold startsWith. now apply StringFacts.prefix_before.
  - intros pre fields path post Hpre Hpath Hout.
    induction Hpre as [|file pre (p & Hp & Hin) _ IH]; simpl.
    + cbn [Js.get]. now rewrite Hpath, Hout.
    + destruct file as [| |b|n|s|items|fs]; try discriminate.
      rewrite Hp, Hin. exact IH.
Qed.

Lemma check_paths_is_a_prefix_test_witness :
  check_paths [VObj [("path", VStr "dynamic/../../etc/passwd")]] = Normal Safe
  /\ check_paths [VObj [("path", VStr "dynamic/a.js")]; VObj [("path", VStr "src/b.js")];
                  VObj [("path", VStr "/etc/passwd")]]
     = Normal (Unsafe "Unsafe file path: src/b.js. All files must be in dynamic/ directory").
Proof.
  destruct check_paths_is_a_prefix_test as (Hsafe & Hany & Hfirst). split.
  - apply Hsafe. constructor; [|constructor]. apply (Hany "../../etc/passwd" []).
  - apply (Hfirst [VObj [("path", VStr "dynamic/a.js")]] [("path", VStr "src/b.js")]
             "src/b.js" [VObj [("path", VStr "/etc/passwd")]]);
      [constructor; [apply (Hany "a.js" []) | constructor] | reflexivity | reflexivity].
Defined.

Lemma check_patterns_none (patterns : list RegExp.t) (code : string) :
  check_patterns patterns code = None <-> Forall (unmatched code) patterns.
Proof.
  induction patterns as [|p ps IH]; simpl.
  - split; [constructor | reflexivity].
  - unfold unmatched at 1. destruct (RegExp.match_ code p) eqn:E.
    + split; [discriminate|]. intros H. inversion H as [|? ? Hp _].
      unfold unmatched in Hp. congruence.
    + rewrite IH. split.
      * intros H. now constructor.
      * intros H. now inversion H.
Qed.

Lemma check_patterns_unsafe (patterns : list RegExp.t) (code : string) (r : Report) :
  check_patterns patterns code = Some r -> safe r = false.
Proof.
  induction patterns as [|p ps IH]; simpl; [discriminate|].
  destruct (RegExp.match_ code p); [now intros [= <-] | exact IH].
Qed.

(** X13. What the static analysis lets through. Code is found safe
    exactly when it is no longer than the size limit, matches none of the
    banned patterns, has at most 500 lines and at most 20 named
    functions; the report then carries the complexity figures and no
    reason. The counts of loops and of conditionals never reject: they
    raise the risk to medium at most. *)
Theorem performStaticAnalysis_approves_exactly
        (rules : SafetyRules) (patterns : list RegExp.t) (code : string) :
  let report := performStaticAnalysis rules patterns code in
  (safe report = true
   <-> (code_length code <= maxFileSize rules)%Z
       /\ Forall (unmatched code) patterns
       /\ split_count "010" code <= 500
       /\ RegExp.count code functions_re <= 20)
  /\ (safe report = true ->
      reason report = None
      /\ metrics report = Some (OfComplexity (analyzeComplexity code))
      /\ risk (analyzeComplexity code) <> RiskHigh).
Proof.
  cbv zeta. unfold performStaticAnalysis.
  destruct (maxFileSize rules <? code_length code)%Z eqn:Hsize.
  { apply Z.ltb_lt in Hsize. cbn.
    split; [split; [discriminate | intros [H _]; lia] | discriminate]. }
  apply Z.ltb_ge in Hsize.
  destruct (check_patterns patterns code) as [r|] eqn:Hban.
  { pose proof (check_patterns_unsafe _ _ _ Hban) as Hr. rewrite Hr.
    split; [split; [discriminate|] | discriminate].
    intros (_ & H & _). apply check_patterns_none in H. congruence. }
  apply check_patterns_none in Hban.
  unfold analyzeComplexity. cbv zeta.
  destruct (500 <? split_count "010"%char code)%nat eqn:Hl.
  { apply Nat.ltb_lt in Hl. cbn.
    split; [split; [discriminate | intros (_ & _ & H & _); lia] | discriminate]. }
  apply Nat.ltb_ge in Hl.
  destruct (20 <? RegExp.count code functions_re)%nat eqn:Hf.
  { apply Nat.ltb_lt in Hf. cbn.
    split; [split; [discriminate | intros (_ & _ & _ & H); lia] | discriminate]. }
  apply Nat.ltb_ge in Hf.
  destruct (10 <? RegExp.count code loops_re)%nat;
    [|destruct (15 <? RegExp.count code conditionals_re)%nat]; cbn;
    (split; [split; [now intros _ | reflexivity]
            | intros _; split; [reflexivity | split; [reflexivity | discriminate]]]).
Qed.

Lemma performStaticAnalysis_metrics
      (rules : SafetyRules) (patterns : list RegExp.t) (code : string) :
  safe (performStaticAnalysis rules patterns code) = true ->
  metrics (performStaticAnalysis rules patterns code)
  = Some (OfComplexity (analyzeComplexity code)).
Proof.
  unfold performStaticAnalysis.
  destruct (maxFileSize rules <? code_length code)%Z; [discriminate|].
  destruct (check_patterns patterns code) as [r|] eqn:Hban.
  - intros H. apply check_patterns_unsafe in Hban. congruence.
  - now destruct (risk (analyzeComplexity code)).
Qed.

Lemma performDynamicTesting_within
      (rules : SafetyRules) (vm_run : string -> SandboxRun) (code : string) :
  safe (performDynamicTesting rules vm_run code) = true ->
  exists m,
    metrics (performDynamicTesting rules vm_run code) = Some (OfDynamic m)
    /\ (executionTime m <= maxExecutionTime rules)%Z
    /\ (memoryDelta m <= maxMemoryUsage rules)%Z.
Proof.
  unfold performDynamicTesting. cbv zeta.
  destruct (outcome (vm_run (sandbox_script code))) as [result endTime endHeap|message];
    [|discriminate].
  destruct (maxExecutionTime rules <? _)%Z eqn:Ht; [discriminate|].
  destruct (maxMemoryUsage rules <? _)%Z eqn:Hh; [discriminate|].
  intros _. eexists. split; [reflexivity|]. cbn.
  apply Z.ltb_ge in Ht, Hh. now split.
Qed.

(** X14. [testInSandbox] runs only code that the static analysis has
    found safe: when the static analysis rejects, the report is its
    report, whatever the sandbox would have done with the code. The code
    passes exactly when both analyses pass; the report then reads "Code
    passed all sandbox tests" and carries the complexity figures together
    with a running time and a heap growth that are within the limits,
    bounds included. *)
Theorem testInSandbox_runs_only_statically_safe_code
        (rules : SafetyRules) (patterns : list RegExp.t) (code : string) :
  (safe (performStaticAnalysis rules patterns code) = false ->
   forall vm_run,
     testInSandbox rules patterns vm_run code
     = ([TestingInSandbox; StaticAnalysis], performStaticAnalysis rules patterns code))
  /\ (forall vm_run,
         let report := snd (testInSandbox rules patterns vm_run code) in
         (safe report = true
          <-> safe (performStaticAnalysis rules patterns code) = true
              /\ safe (performDynamicTesting rules vm_run code) = true)
         /\ (safe report = true ->
             reason report = Some "Code passed all sandbox tests"
             /\ exists m,
                 metrics report = Some (OfSandbox (Some (analyzeComplexity code)) (Some m))
                 /\ (executionTime m <= maxExecutionTime rules)%Z
                 /\ (memoryDelta m <= maxMemoryUsage rules)%Z)).
Proof.
  split.
  - intros Hstatic vm_run. unfold testInSandbox. cbv zeta. now rewrite Hstatic.
  - intros vm_run. cbv zeta. unfold testInSandbox. cbv zeta.
    pose proof (performStaticAnalysis_metrics rules patterns code) as Hm.
    destruct (safe (performStaticAnalysis rules patterns code)) eqn:Hstatic; cbn [negb].
    2:{ cbn [snd]. rewrite Hstatic.
        split; [split; [discriminate | intros [H _]; discriminate] | discriminate]. }
    specialize (Hm eq_refl).
    pose proof (performDynamicTesting_within rules vm_run code) as Hd.
    destruct (safe (performDynamicTesting rules vm_run code)) eqn:Hdyn; cbn [negb snd].
    2:{ rewrite Hdyn.
        split; [split; [discriminate | intros [_ H]; discriminate] | discriminate]. }
    destruct (Hd eq_refl) as (m & Hdm & Ht & Hh). cbn.
    split; [split; [now intros _ | reflexivity]|].
    intros _. split; [reflexivity|]. exists m.
    unfold complexity_of, dynamic_of. rewrite Hm, Hdm. now split.
Qed.

Lemma testInSandbox_runs_only_statically_safe_code_witness :
  testInSandbox Samples.rules loadBannedPatterns Samples.returning_vm "while (true) {}"
  = testInSandbox Samples.rules loadBannedPatterns Samples.raising_vm "while (true) {}".
Proof.
  pose proof (proj1 (testInSandbox_runs_only_statically_safe_code
                       Samples.rules loadBannedPatterns "while (true) {}")) as H.
  assert (Hstatic : safe (performStaticAnalysis Samples.rules loadBannedPatterns
                            "while (true) {}") = false)
    by (vm_compute; reflexivity).
  rewrite (H Hstatic Samples.returning_vm), (H Hstatic Samples.raising_vm). reflexivity.
Defined.

(** X15. The limits that [loadSafetyRules] reads from the environment
    are never zero: a size or a timeout that is missing, not a number, or
    zero gives way to the default of 100 KB and of 30 seconds. A negative
    size is kept as it is, and then the static analysis rejects every
    code, the empty one included, for its size. *)
Theorem loadSafetyRules_limits (max_file_size_kb sandbox_timeout_ms : option Z) :
  let rules := loadSafetyRules max_file_size_kb sandbox_timeout_ms in
  maxFileSize rules <> 0%Z
  /\ maxExecutionTime rules <> 0%Z
  /\ (max_file_size_kb = None \/ max_file_size_kb = Some 0%Z ->
      maxFileSize rules = 102400%Z)
  /\ (sandbox_timeout_ms = None \/ sandbox_timeout_ms = Some 0%Z ->
      maxExecutionTime rules = 30000%Z)
  /\ (forall k, max_file_size_kb = Some k -> (k < 0)%Z ->
      forall patterns code,
        performStaticAnalysis rules patterns code
        = rejected ("Code size (" ++ of_Z (code_length code)
                      ++ ") exceeds maximum allowed (" ++ of_Z (k * 1024) ++ ")")).
Proof.
  cbv zeta. unfold loadSafetyRules. cbn [maxFileSize maxExecutionTime].
  split; [|split; [|split; [|split]]].
  - destruct max_file_size_kb as [k|]; [|discriminate].
    destruct (k * 1024 =? 0)%Z eqn:E; [discriminate | now apply Z.eqb_neq in E].
  - destruct sandbox_timeout_ms as [t|]; [|discriminate].
    destruct (t =? 0)%Z eqn:E; [discriminate | now apply Z.eqb_neq in E].
  - now intros [-> | ->].
  - now intros [-> | ->].
  - intros k -> Hk patterns code. unfold performStaticAnalysis, code_length.
    cbn [maxFileSize].
    assert (E : (k * 1024 =? 0)%Z = false) by (apply Z.eqb_neq; lia).
    rewrite E.
    assert (L : (k * 1024 <? Z.of_nat (String.length code))%Z = true)
      by (apply Z.ltb_lt; lia).
    now rewrite L.
Qed.

Lemma loadSafetyRules_limits_witness :
  performStaticAnalysis (loadSafetyRules (Some (-1)%Z) None) loadBannedPatterns ""
  = rejected "Code size (0) exceeds maximum allowed (-1024)".
Proof.
  exact (proj2 (proj2 (proj2 (proj2 (loadSafetyRules_limits (Some (-1)%Z) None))))
           (-1)%Z eq_refl eq_refl loadBannedPatterns "").
Defined.

Lemma to_int_proper (n : Z) :
  Z.to_int n <> Decimal.Pos Decimal.Nil /\ Z.to_int n <> Decimal.Neg Decimal.Nil.
Proof.
  destruct n as [|p|p]; simpl; split; try discriminate;
    intros [= H]; now apply Unsigned.to_uint_nonnil in H.
Qed.

Lemma of_Z_inj (a b : Z) : of_Z a = of_Z b -> a = b.
Proof.
  unfold of_Z. intros H.
  assert (E : NilZero.int_of_string (NilZero.string_of_int (Z.to_int a))
              = NilZero.int_of_string (NilZero.string_of_int (Z.to_int b)))
    by now rewrite H.
  destruct (to_int_proper a) as [Ha1 Ha2]. destruct (to_int_proper b) as [Hb1 Hb2].
  rewrite !NilZero.isi in E by assumption.
  injection E as E. rewrite <- (DecimalZ.of_to a), <- (DecimalZ.of_to b). now rewrite E.
Qed.

Lemma append_inj_l (p a b : string) : p ++ a = p ++ b -> a = b.
Proof. induction p as [|c p IH]; simpl; [trivial|]. intros [= H]. now apply IH. Qed.

Lemma length_append (a b : string) :
  String.length (a ++ b) = String.length a + String.length b.
Proof. induction a as [|c a IH]; simpl; [reflexivity | now rewrite IH]. Qed.

Lemma append_inj_r (a b s : string) : a ++ s = b ++ s -> a = b.
Proof.
  intros H.
  assert (L : String.length a = String.length b).
  { apply (f_equal String.length) in H. rewrite !length_append in H. lia. }
  revert b L H. induction a as [|c a IH]; intros [|d b]; simpl; try discriminate.
  - reflexivity.
  - intros [= L] [= -> H]. f_equal. now apply IH.
Qed.

Lemma quarantine_path_inj (a b : Z) :
  "logs/quarantine/quarantine-" ++ of_Z a ++ ".js"
  = "logs/quarantine/quarantine-" ++ of_Z b ++ ".js" -> a = b.
Proof.
  intros H. apply append_inj_l in H. apply append_inj_r in H. now apply of_Z_inj.
Qed.

Lemma In_write_file (path content p text : string) (files : list (string * string)) :
  In (p, text) (write_file path content files)
  <-> (p = path /\ text = content) \/ (p <> path /\ In (p, text) files).
Proof.
  unfold write_file. rewrite in_app_iff, filter_In. cbn [fst In]. split.
  - intros [[Hin Hne]|[[= <- <-]|[]]]; [right | left; now split].
    split; [|exact Hin]. intros ->. now rewrite String.eqb_refl in Hne.
  - intros [[-> ->]|[Hne Hin]]; [right; now left | left].
    split; [exact Hin|]. apply negb_true_iff. now apply String.eqb_neq.
Qed.

(** X16. Quarantine files are keyed by the millisecond. Two calls of
    [quarantineCode] at different times write two files and the earlier
    one stays; two calls within one millisecond write the same path, and
    only the code of the later call is left there. No other file of the
    directory is touched. *)
Theorem quarantine_files_are_keyed_by_millisecond
        (toISOString : Z -> string) (now1 now2 : Z) (code1 why1 code2 why2 : string)
        (store : list (string * string)) :
  let first := quarantineCode toISOString now1 code1 why1 store in
  let second := quarantineCode toISOString now2 code2 why2 (snd first) in
  In (fst second, quarantine_content toISOString now2 code2 why2) (snd second)
  /\ (now1 <> now2 ->
      fst first <> fst second
      /\ In (fst first, quarantine_content toISOString now1 code1 why1) (snd second))
  /\ (now1 = now2 ->
      fst first = fst second
      /\ forall text, In (fst first, text) (snd second) ->
                      text = quarantine_content toISOString now2 code2 why2)
  /\ (forall p text, p <> fst first -> p <> fst second ->
                     (In (p, text) (snd second) <-> In (p, text) store)).
Proof.
  cbv zeta. unfold quarantineCode. cbn [fst snd].
  split; [|split; [|split]].
  - apply In_write_file. left. now split.
  - intros Hne.
    assert (Hp : "logs/quarantine/quarantine-" ++ of_Z now1 ++ ".js"
                 <> "logs/quarantine/quarantine-" ++ of_Z now2 ++ ".js")
      by (intros H; now apply quarantine_path_inj in H).
    split; [exact Hp|]. apply In_write_file. right. split; [exact Hp|].
    apply In_write_file. left. now split.
  - intros <-. split; [reflexivity|]. intros text Hin.
    apply In_write_file in Hin as [[_ ->]|[Hne _]]; [reflexivity | contradiction].
  - intros p text H1 H2. rewrite !In_write_file. split.
    + intros [[-> _]|[_ [[-> _]|[_ Hin]]]]; [contradiction | contradiction | exact Hin].
    + intros Hin. right. split; [exact H2|]. right. now split.
Qed.

Lemma quarantine_files_are_keyed_by_millisecond_witness :
  (forall text,
      In ("logs/quarantine/quarantine-7.js", text)
         (snd (quarantineCode Samples.iso 7 "second();" "later"
                 (snd (quarantineCode Samples.iso 7 "first();" "earlier" [])))) ->
      text = quarantine_content Samples.iso 7 "second();" "later")
  /\ In ("logs/quarantine/quarantine-7.js",
         quarantine_content Samples.iso 7 "first();" "earlier")
        (snd (quarantineCode Samples.iso 8 "second();" "later"
                (snd (quarantineCode Samples.iso 7 "first();" "earlier" [])))).
Proof.
  split.
  - exact (proj2 (proj1 (proj2 (proj2
             (quarantine_files_are_keyed_by_millisecond Samples.iso 7 7
                "first();" "earlier" "second();" "later" []))) eq_refl)).
  - refine (proj2 (proj1 (proj2
             (quarantine_files_are_keyed_by_millisecond Samples.iso 7 8
                "first();" "earlier" "second();" "later" [])) _)).
    discriminate.
Defined.

End PolicyFacts.

(** ** Integration and reloading ([integrateFeature], [loadFeature]) *)

Module ReloadFacts.

Import JsString FeatureManager.

Lemma all_chars_app (p : ascii -> bool) (a b : string) :
  all_chars p (a ++ b) = all_chars p a && all_chars p b.
Proof.
  induction a as [|c a IH]; simpl; [reflexivity|].
  now rewrite IH, andb_assoc.
Qed.

Lemma uint_is_plain (d : Decimal.uint) :
  all_chars file_char (NilEmpty.string_of_uint d) = true.
Proof. induction d; simpl; try reflexivity; exact IHd. Qed.

Lemma of_Z_is_plain (n : Z) : all_chars file_char (of_Z n) = true.
Proof.
  unfold of_Z, NilZero.string_of_int, NilZero.string_of_uint.
  destruct (Z.to_int n) as [d|d]; destruct d; try reflexivity;
    try (apply (uint_is_plain (Decimal.D0 d)));
    try (apply (uint_is_plain (Decimal.D1 d)));
    try (apply (uint_is_plain (Decimal.D2 d)));
    try (apply (uint_is_plain (Decimal.D3 d)));
    try (apply (uint_is_plain (Decimal.D4 d)));
    try (apply (uint_is_plain (Decimal.D5 d)));
    try (apply (uint_is_plain (Decimal.D6 d)));
    try (apply (uint_is_plain (Decimal.D7 d)));
    try (apply (uint_is_plain (Decimal.D8 d)));
    try (apply (uint_is_plain (Decimal.D9 d))).
Qed.

Lemma safe_char_is_plain (c : ascii) :
  file_char (lower_char (if between 48 57 c || between 65 90 c || between 97 122 c
                         then c else "-"%char)) = true.
Proof. destruct c as [[] [] [] [] [] [] [] []]; reflexivity. Qed.

Lemma safe_title_is_plain (title : string) :
  all_chars file_char (toLowerCase (dash_symbols title)) = true.
Proof.
  unfold dash_symbols. induction title as [|c t IH]; simpl; [reflexivity|].
  rewrite IH, andb_true_r. apply safe_char_is_plain.
Qed.

Lemma append_assoc (a b c : string) : (a ++ b) ++ c = a ++ b ++ c.
Proof. induction a as [|x a IH]; simpl; [reflexivity | now rewrite IH]. Qed.

Lemma endsWith_self (s : string) : endsWith s s = true.
Proof. destruct s; cbn [endsWith]; now rewrite String.eqb_refl. Qed.

Lemma endsWith_app (a s : string) : endsWith (a ++ s) s = true.
Proof.
  induction a as [|c a IH]; [apply endsWith_self|].
  change (String c a ++ s) with (String c (a ++ s)). cbn [endsWith].
  rewrite IH. apply orb_true_r.
Qed.

Lemma no_slash (s : string) :
  all_chars file_char s = true -> includes s "/" = false.
Proof.
  induction s as [|c s IH]; [reflexivity|]. cbn [all_chars includes].
  intros H. apply andb_prop in H as [Hc Hs]. rewrite (IH Hs), orb_false_r.
  cbn [String.prefix].
  destruct (ascii_dec "/" c) as [<-|]; [discriminate Hc | reflexivity].
Qed.

(** X17. The name of the file that [integrateFeature] writes is built
    from lower-case letters, digits, dashes and dots only, whatever the
    title of the plan holds: it has no slash, so the file lies directly
    in the storage root, and it ends in ".js", so the scan of
    [loadAllFeatures] takes it up. Its stem is as long as the title. *)
Theorem feature_filename_is_plain (now : Z) (title : string) :
  all_chars file_char (feature_filename now title) = true
  /\ includes (feature_filename now title) "/" = false
  /\ startsWith (feature_filename now title) "feature-" = true
  /\ endsWith (feature_filename now title) ".js" = true
  /\ String.length (feature_filename now title)
     = 12 + String.length (of_Z now) + String.length title.
Proof.
  assert (Hall : all_chars file_char (feature_filename now title) = true).
  { unfold feature_filename. cbv zeta.
    rewrite !all_chars_app, of_Z_is_plain, safe_title_is_plain. reflexivity. }
  split; [exact Hall|]. split; [now apply no_slash|]. split; [|split].
  - unfold feature_filename, startsWith. cbv zeta.
    now apply StringFacts.prefix_before.
  - unfold feature_filename. cbv zeta.
    replace ("feature-" ++ of_Z now ++ "-" ++ toLowerCase (dash_symbols title) ++ ".js")
      with (("feature-" ++ of_Z now ++ "-" ++ toLowerCase (dash_symbols title)) ++ ".js").
    + apply endsWith_app.
    + now rewrite !append_assoc.
  - unfold feature_filename. cbv zeta.
    rewrite !PolicyFacts.length_append.
    assert (L : forall t, String.length (toLowerCase (dash_symbols t)) = String.length t).
    { unfold dash_symbols. induction t as [|c t IH]; simpl; [reflexivity | now rewrite IH]. }
    rewrite L. simpl. lia.
Qed.

Section Loader.

Variable require : string -> Completion NodeModule.t.
Variable uuidv4 : nat -> string.
Variable toISOString : Z -> string.

Lemma integrateFeature_files
      (now : Z) (code : string) (plan : value) (title : string) (st : State) :
  Js.get plan "title" = VStr title ->
  dynamicDir (snd (integrateFeature require uuidv4 toISOString now code plan st))
  = write_file now (feature_filename now title)
      (wrapFeatureCode toISOString now code plan) (dynamicDir st).
Proof.
  intros Htitle. unfold integrateFeature.
  destruct plan as [| |b|n|s|items|fields]; try discriminate.
  rewrite Htitle. cbv zeta.
  match goal with
  | |- context [loadFeature require uuidv4 ?f ?s] =>
      pose proof (RegistrationFacts.loadFeature_keeps_files require uuidv4 f s) as Hkeep;
      destruct (loadFeature require uuidv4 f s) as [[g|message] st2]
  end; cbn [snd dynamicDir] in *; [|exact Hkeep].
  destruct (testFeature g) as [[w|message] g']; cbn [snd]; exact Hkeep.
Qed.

Lemma integrateFeature_refused
      (now : Z) (code : string) (plan : value) (title message : string) (st : State) :
  Js.get plan "title" = VStr title ->
  require (wrapFeatureCode toISOString now code plan) = Throw message ->
  integrateFeature require uuidv4 toISOString now code plan st
  = (Throw message,
     {| features := features st;
        dynamicDir := write_file now (feature_filename now title)
                        (wrapFeatureCode toISOString now code plan) (dynamicDir st);
        drawn := drawn st |}).
Proof.
  intros Htitle Hrefused. unfold integrateFeature.
  destruct plan; try discriminate Htitle. rewrite Htitle.
  unfold loadFeature. cbn [dynamicDir].
  destruct (RegistrationFacts.read_written now (feature_filename now title)
              (wrapFeatureCode toISOString now code (VObj fields)) (dynamicDir st))
    as (file & -> & ->).
  now rewrite Hrefused.
Qed.

(** X18. [integrateFeature] writes before it loads, and never cleans up.
    For a plan whose title is a string, the file named after the time and
    the title holds the wrapper, with the generated code inside it, once
    the call is over, whether the feature was registered or the call
    threw; every other file of the storage root is as it was. A plan
    that is [undefined] or [null], or whose title is not a string, makes
    the call throw before anything is written. *)
Theorem integrateFeature_leaves_its_file
        (now : Z) (code : string) (plan : value) (st : State) :
  let after := snd (integrateFeature require uuidv4 toISOString now code plan st) in
  (forall title,
      Js.get plan "title" = VStr title ->
      (exists file,
          read_file (feature_filename now title) (dynamicDir after) = Some file
          /\ content file = wrapFeatureCode toISOString now code plan
          /\ includes (content file) code = true)
      /\ (forall name, name <> feature_filename now title ->
                       read_file name (dynamicDir after) = read_file name (dynamicDir st)))
  /\ ((forall title, Js.get plan "title" <> VStr title) ->
      after = st
      /\ exists message,
          fst (integrateFeature require uuidv4 toISOString now code plan st)
          = Throw message).
Proof.
  cbv zeta. split.
  - intros title Htitle. rewrite (integrateFeature_files now code plan title st Htitle).
    split.
    + destruct (RegistrationFacts.read_written now (feature_filename now title)
                  (wrapFeatureCode toISOString now code plan) (dynamicDir st))
        as (file & Hread & Hcontent).
      exists file. split; [exact Hread|]. split; [exact Hcontent|].
      rewrite Hcontent. unfold wrapFeatureCode.
      do 13 apply StringFacts.includes_after.
      apply StringFacts.includes_before. apply LoadingFacts.includes_self.
    + intros name Hname. now apply LoadingFacts.read_write_other.
  - intros Hnone. unfold integrateFeature.
    destruct plan as [| |b|n|s|items|fields];
      try (split; [reflexivity | eexists; reflexivity]).
    destruct (Js.get (VObj fields) "title") as [| |b|n|title|items|fs] eqn:E;
      try (split; [reflexivity | eexists; reflexivity]).
    now destruct (Hnone title).
Qed.

(** X19. Loading a file again replaces what the manager knew of its
    feature. After [loadAllFeatures] on a running manager, the feature of
    a loadable file that declares an id is the fresh description of that
    file, whatever the entry under that id was before: it is active
    again if it had been deactivated, and its usage count and time of
    last use are reset. *)
Theorem reload_resets_the_feature
        (fname : string) (file : File) (m : NodeModule.t) (st : State) :
  read_file fname (dynamicDir st) = Some file ->
  require (content file) = Normal m ->
  declared_id m <> "" ->
  endsWith fname ".js" = true ->
  (forall name file' m',
      In (name, file') (dynamicDir st) -> name <> fname ->
      require (content file') = Normal m' -> declared_id m' <> declared_id m) ->
  (forall n, uuidv4 n <> declared_id m) ->
  let after := snd (loadAllFeatures require uuidv4 st) in
  getFeature (declared_id m) after = Some (describe fname file m (declared_id m))
  /\ (forall g, getFeature (declared_id m) after = Some g ->
                active g = true /\ usageCount g = 0 /\ lastUsed g = None)
  /\ In (describe fname file m (declared_id m)) (fst (loadAllFeatures require uuidv4 st)).
Proof.
  intros Hread Hloads Hid Hjs Hclash Hdraw after. subst after.
  assert (Hget : getFeature (declared_id m) (snd (loadAllFeatures require uuidv4 st))
                 = Some (describe fname file m (declared_id m))).
  { unfold getFeature, loadAllFeatures. cbn [snd].
    apply (RegistrationFacts.load_each_reaches require uuidv4 (dynamicDir st) fname file m
             Hread Hloads Hid Hjs Hclash Hdraw); [reflexivity|].
    left. apply RegistrationFacts.read_file_In in Hread.
    now apply (in_map fst) in Hread. }
  split; [exact Hget|]. split.
  - intros g Hg. rewrite Hget in Hg. injection Hg as <-. now split.
  - unfold loadAllFeatures. cbn [fst]. unfold getFeature, loadAllFeatures in Hget.
    cbn [snd] in Hget. now apply get_In_values in Hget.
Qed.

Lemma set_length_new {V : Type} (k : string) (v : V) (m : JsMap.t V) :
  JsMap.get k m = None -> List.length (JsMap.set k v m) = S (List.length m).
Proof.
  induction m as [|[k' v'] rest IH]; simpl; [reflexivity|].
  destruct (String.eqb k k'); [discriminate|]. intros H. simpl. now rewrite IH.
Qed.

(** X20. A file that declares no id is registered anew each time it is
    loaded. [loadFeature] draws a fresh identifier for it, so when that
    identifier is not yet a key the map grows by one entry: the features
    that were there stay, the one loaded before from the same file among
    them, and the new feature sits beside them under the identifier
    drawn. *)
Theorem idless_file_is_registered_again
        (name : string) (file : File) (m : NodeModule.t) (st : State) :
  read_file name (dynamicDir st) = Some file ->
  require (content file) = Normal m ->
  declared_id m = "" ->
  JsMap.get (uuidv4 (drawn st)) (features st) = None ->
  let after := snd (loadFeature require uuidv4 name st) in
  fst (loadFeature require uuidv4 name st)
  = Normal (describe name file m (uuidv4 (drawn st)))
  /\ List.length (features after) = S (List.length (features st))
  /\ drawn after = S (drawn st)
  /\ (forall k g, JsMap.get k (features st) = Some g ->
                  JsMap.get k (features after) = Some g)
  /\ JsMap.get (uuidv4 (drawn st)) (features after)
     = Some (describe name file m (uuidv4 (drawn st))).
Proof.
  intros Hread Hloads Hid Hfresh. cbv zeta. unfold loadFeature.
  rewrite Hread, Hloads, Hid. cbn.
  split; [reflexivity|]. split; [now apply set_length_new|]. split; [reflexivity|].
  split; [|apply get_set_same].
  intros k g Hk. rewrite get_set_other; [exact Hk|].
  intros ->. congruence.
Qed.

End Loader.

Lemma integrateFeature_leaves_its_file_witness :
  fst (integrateFeature Samples.strict_loader Samples.uuid Samples.iso 2000
         Samples.doubler_code Samples.doubler_plan (start [] 0))
  = Throw "Identifier 'exports' has already been declared"
  /\ exists file,
      read_file "feature-2000-doubler.js"
        (dynamicDir (snd (integrateFeature Samples.strict_loader Samples.uuid Samples.iso
                            2000 Samples.doubler_code Samples.doubler_plan (start [] 0))))
      = Some file
      /\ includes (content file) Samples.doubler_code = true.
Proof.
  split; [vm_compute; reflexivity|].
  destruct (proj1 (proj1 (integrateFeature_leaves_its_file Samples.strict_loader
                            Samples.uuid Samples.iso 2000 Samples.doubler_code
                            Samples.doubler_plan (start [] 0)) "Doubler" eq_refl))
    as (file & Hread & _ & Hinc).
  exists file. split; [exact Hread | exact Hinc].
Defined.

Lemma reload_resets_the_feature_witness :
  getFeature "plan-doubler" Samples.deactivated
  = Some (set_active false (describe "doubler.js" (Samples.file Samples.doubler_js)
                              Samples.doubler "plan-doubler"))
  /\ getFeature "plan-doubler"
       (snd (loadAllFeatures Samples.hand_written Samples.uuid Samples.deactivated))
     = Some (describe "doubler.js" (Samples.file Samples.doubler_js)
               Samples.doubler "plan-doubler").
Proof.
  split; [reflexivity|].
  refine (proj1 (reload_resets_the_feature Samples.hand_written Samples.uuid
                   "doubler.js" (Samples.file Samples.doubler_js) Samples.doubler
                   Samples.deactivated eq_refl eq_refl _ eq_refl _ _)).
  - discriminate.
  - intros name file' m' [[= <- <-]|[]] Hne. now destruct Hne.
  - intros n. unfold Samples.uuid. discriminate.
Defined.

Lemma idless_file_is_registered_again_witness :
  List.length (features Samples.loaded_broken) = 1
  /\ List.length
       (features (snd (loadFeature Samples.hand_written Samples.uuid "broken.js"
                         Samples.loaded_broken))) = 2.
Proof.
  split; [reflexivity|].
  exact (proj1 (proj2 (idless_file_is_registered_again Samples.hand_written Samples.uuid
                         "broken.js" (Samples.file Samples.broken_js)
                         (Samples.bare (Some Samples.throwing) (Some Samples.healthy) None)
                         Samples.loaded_broken eq_refl eq_refl eq_refl eq_refl))).
Defined.

End ReloadFacts.

(** ** Listings ([getFeaturesByCategory], [getActiveFeatures]) *)

Module QueryFacts.

Import JsString FeatureManager.

(** X21. [getFeaturesByCategory] lists the same features as
    [getActiveFeatures], narrowed to one category: a feature is in the
    one exactly when it is in the other and its category is, letter for
    letter, the one asked for. A deactivated feature is in neither, and
    the listing of a category keeps the order of registration. *)
Theorem getFeaturesByCategory_narrows_the_active_listing (wanted : string) (st : State) :
  (forall g, In g (getFeaturesByCategory wanted st)
             <-> In g (getActiveFeatures st) /\ category g = wanted)
  /\ getFeaturesByCategory wanted st
     = filter (fun f => String.eqb (category f) wanted)
              (filter active (JsMap.values (features st)))
  /\ List.length (getFeaturesByCategory wanted st) <= List.length (getActiveFeatures st).
Proof.
  assert (E : getFeaturesByCategory wanted st
              = filter (fun f => String.eqb (category f) wanted)
                       (filter active (JsMap.values (features st)))).
  { unfold getFeaturesByCategory.
    induction (JsMap.values (features st)) as [|f l IH]; simpl; [reflexivity|].
    destruct (active f); simpl; [|exact IH].
    destruct (String.eqb (category f) wanted); [now rewrite IH | exact IH]. }
  split; [|split; [exact E|]].
  - intros g. rewrite E. unfold getActiveFeatures. rewrite filter_In. split.
    + intros [Hin Hc]. split; [|now apply String.eqb_eq].
      eapply Permutation_in; [symmetry; apply sort_desc_permutation | exact Hin].
    + intros [Hin Hc]. split; [|now apply String.eqb_eq].
      eapply Permutation_in; [apply sort_desc_permutation | exact Hin].
  - rewrite E. unfold getActiveFeatures.
    rewrite (Permutation_length (sort_desc_permutation last_used_ms _)).
    apply filter_length_le.
Qed.

Lemma sorted_head {A : Type} (key : A -> Z) (x : A) (l : list A) :
  In x l ->
  (forall y, In y l -> y = x \/ (key y < key x)%Z) ->
  hd_error (JsArray.sort_desc key l) = Some x.
Proof.
  induction l as [|a l IH]; [intros []|]. intros Hin Hmax. cbn [JsArray.sort_desc].
  assert (Hrest : forall y, In y (JsArray.sort_desc key l) -> y = x \/ (key y < key x)%Z).
  { intros y Hy. apply Hmax. right.
    eapply Permutation_in; [apply sort_desc_permutation | exact Hy]. }
  destruct Hin as [->|Hin].
  - destruct (JsArray.sort_desc key l) as [|y rest]; [reflexivity|].
    cbn [JsArray.insert].
    assert (Hy : (key x <? key y)%Z = false).
    { apply Z.ltb_ge. destruct (Hrest y (or_introl eq_refl)) as [->|H]; lia. }
    now rewrite Hy.
  - assert (IH' := IH Hin (fun y Hy => Hmax y (or_intror Hy))).
    destruct (JsArray.sort_desc key l) as [|y rest]; [discriminate|].
    injection IH' as ->. cbn [JsArray.insert].
    destruct (Hmax a (or_introl eq_refl)) as [->|Ha].
    + now rewrite Z.ltb_irrefl.
    + apply Z.ltb_lt in Ha. now rewrite Ha.
Qed.

Lemma values_set_In {V : Type} (k : string) (v x : V) (m : JsMap.t V) :
  In x (JsMap.values (JsMap.set k v m)) -> x = v \/ In x (JsMap.values m).
Proof.
  unfold JsMap.values. rewrite !in_map_iff. intros ([k' x'] & <- & Hin).
  apply set_In in Hin as [[= -> ->]|Hin]; [now left | right].
  exists (k', x'). now split.
Qed.

(** X22. The feature used last is listed first. When an active feature
    is executed at a time later than every time of last use that the
    manager holds (a feature never used counts as used at time 0),
    [getActiveFeatures] puts it at the head of its listing, with its
    usage recorded, whether the execution itself succeeds or fails. *)
Theorem executed_feature_is_listed_first
        (now : Z) (featureId : string) (input : value) (st : State) (f : Feature) :
  JsMap.get featureId (features st) = Some f ->
  active f = true ->
  (forall g, In g (JsMap.values (features st)) -> (last_used_ms g < now)%Z) ->
  hd_error (getActiveFeatures (snd (executeFeature now featureId input st)))
  = Some (set_usage now f).
Proof.
  intros Hget Hactive Hlate.
  assert (Hst : features (snd (executeFeature now featureId input st))
                = JsMap.set featureId (set_usage now f) (features st)).
  { unfold executeFeature. rewrite Hget, Hactive. cbn [negb]. cbv zeta.
    destruct (entry_point (module (set_usage now f))) as [run|]; [|reflexivity].
    now destruct (NodeModule.settled (run _)). }
  unfold getActiveFeatures. rewrite Hst. apply sorted_head.
  - apply filter_In. split; [|exact Hactive].
    apply get_In_values with (k := featureId). apply get_set_same.
  - intros y Hy. apply filter_In in Hy as [Hy _].
    apply values_set_In in Hy as [->|Hy]; [now left | right].
    apply Hlate in Hy. exact Hy.
Qed.

Lemma executed_feature_is_listed_first_witness :
  hd_error (getActiveFeatures
              (snd (executeFeature 2000 "plan-doubler" (VObj [("value", VNum 21)])
                      Samples.loaded)))
  = Some (set_usage 2000 (describe "doubler.js" (Samples.file Samples.doubler_js)
                            Samples.doubler "plan-doubler")).
Proof.
  apply (executed_feature_is_listed_first 2000 "plan-doubler" (VObj [("value", VNum 21)])
           Samples.loaded
           (describe "doubler.js" (Samples.file Samples.doubler_js)
              Samples.doubler "plan-doubler") eq_refl eq_refl).
  intros g [<-|[]]. reflexivity.
Defined.

Lemma executeFeature_records_usage
      (now : Z) (featureId : string) (input : value) (st : State) (f : Feature) :
  JsMap.get featureId (features st) = Some f ->
  active f = true ->
  features (snd (executeFeature now featureId input st))
  = JsMap.set featureId (set_usage now f) (features st)
  /\ dynamicDir (snd (executeFeature now featureId input st)) = dynamicDir st.
Proof.
  intros Hget Hactive. unfold executeFeature. rewrite Hget, Hactive. cbn [negb]. cbv zeta.
  destruct (entry_point (module (set_usage now f))) as [run|]; [|now split].
  now destruct (NodeModule.settled (run _)).
Qed.

Lemma last_cons {A : Type} (l : list A) (x d : A) : last (x :: l) d = last l x.
Proof.
  revert x d. induction l as [|y l IH]; intros x d; [reflexivity|].
  change (last (x :: y :: l) d) with (last (y :: l) d). now rewrite !IH.
Qed.

(** X28. The usage count of a feature counts the requests made of it,
    not the successes. After any run of invocations of an active
    feature, the count has grown by the number of invocations, whether
    they resolved, were rejected or found nothing to call; the time of
    last use is that of the last invocation; the feature is otherwise the
    same, still active, and the files and the other features are as they
    were. *)
Theorem usage_counts_every_request
        (featureId : string) (calls : list (Z * value)) (st : State) (f : Feature) :
  JsMap.get featureId (features st) = Some f ->
  active f = true ->
  let after := execute_each featureId calls st in
  (exists g,
      JsMap.get featureId (features after) = Some g
      /\ usageCount g = usageCount f + List.length calls
      /\ lastUsed g = last (map (fun c => Some (fst c)) calls) (lastUsed f)
      /\ same_identity f g)
  /\ (forall k, k <> featureId ->
                JsMap.get k (features after) = JsMap.get k (features st))
  /\ dynamicDir after = dynamicDir st.
Proof.
  revert st f. induction calls as [|[now input] rest IH]; intros st f Hget Hactive; cbv zeta.
  - cbn. split; [|now split]. exists f. rewrite Nat.add_0_r.
    split; [exact Hget|]. split; [reflexivity|]. split; [reflexivity|].
    unfold same_identity. now repeat split.
  - cbn [execute_each].
    destruct (executeFeature_records_usage now featureId input st f Hget Hactive)
      as [Hfeatures Hfiles].
    assert (Hget' : JsMap.get featureId (features (snd (executeFeature now featureId input st)))
                    = Some (set_usage now f))
      by (rewrite Hfeatures; apply get_set_same).
    destruct (IH _ (set_usage now f) Hget' Hactive) as ((g & Hg & Hcount & Hlast & Hsame) & Hother & Hdir).
    split; [|split].
    + exists g. split; [exact Hg|]. split; [|split].
      * rewrite Hcount. cbn. lia.
      * rewrite Hlast. cbn [map fst lastUsed set_usage]. symmetry. apply last_cons.
      * unfold same_identity in *. cbn in Hsame. exact Hsame.
    + intros k Hk. rewrite (Hother k Hk), Hfeatures. now apply get_set_other.
    + now rewrite Hdir.
Qed.

Lemma usage_counts_every_request_witness :
  exists g,
    JsMap.get "uuid-0"
      (features (execute_each "uuid-0" [(2000%Z, VObj []); (3000%Z, VObj [])]
                   Samples.loaded_broken)) = Some g
    /\ usageCount g = 2
    /\ lastUsed g = Some 3000%Z.
Proof.
  destruct (JsMap.get "uuid-0" (features Samples.loaded_broken)) as [f|] eqn:E;
    [|vm_compute in E; discriminate].
  destruct (usage_counts_every_request "uuid-0" [(2000%Z, VObj []); (3000%Z, VObj [])]
              Samples.loaded_broken f E) as ((g & Hg & Hcount & Hlast & _) & _).
  - vm_compute in E. injection E as <-. reflexivity.
  - exists g. split; [exact Hg|]. split.
    + rewrite Hcount. vm_compute in E. injection E as <-. reflexivity.
    + exact Hlast.
Defined.

End QueryFacts.

(** ** The cycle and its history ([evolve], [EvolutionTracker]) *)

Module CycleFacts.

Import SafetyManager Autonomo EvolutionTracker.

(** A plan that [validatePlan] approves has a text for its title. *)
Lemma approved_plan_has_title
      (allowedModules : list string) (plan : value) (check : ValidationReport) :
  validatePlan allowedModules plan = Normal check ->
  approved check = true ->
  exists title, Js.get plan "title" = VStr title.
Proof.
  unfold validatePlan. intros Hrun Happroved.
  assert (H : Joi.validate None planSchema plan = None).
  { destruct (Joi.validate None planSchema plan) as [message|] eqn:E; [|reflexivity].
    destruct plan; try discriminate Hrun; injection Hrun as <-; discriminate Happroved. }
  clear Hrun Happroved. unfold planSchema in H.
  destruct plan as [| |b|n|s|items|fields]; cbn [Joi.validate] in H; try discriminate H.
  apply PolicyFacts.otherwise_none in H as [H _].
  apply PolicyFacts.otherwise_none in H as [_ H].
  apply PolicyFacts.otherwise_none in H as [Ht _].
  cbn [Js.get].
  destruct (Js.lookup "title" fields) as [| |b|n|title|items|fs];
    try (simpl in Ht; discriminate Ht).
  now exists title.
Qed.

Lemma testInSandbox_safe
      (rules : SafetyRules) (vm_run : string -> SandboxRun) (code : string)
      (entered : list Event) (report : Report) :
  testInSandbox rules loadBannedPatterns vm_run code = (entered, report) ->
  safe report = true ->
  entered = [TestingInSandbox; StaticAnalysis; DynamicTesting]
  /\ safe (performStaticAnalysis rules loadBannedPatterns code) = true
  /\ safe (performDynamicTesting rules vm_run code) = true.
Proof.
  unfold testInSandbox. cbv zeta.
  destruct (safe (performStaticAnalysis rules loadBannedPatterns code)) eqn:Hs; cbn [negb].
  2:{ intros [= <- <-] H. congruence. }
  destruct (safe (performDynamicTesting rules vm_run code)) eqn:Hd; cbn [negb].
  2:{ intros [= <- <-] H. congruence. }
  intros [= <- <-] _. now split.
Qed.

Lemma last_of_app (log : list EvolutionRecord) (r : EvolutionRecord) :
  getLastEvolution (log ++ [r]) = Some (r_timestamp r).
Proof.
  unfold getLastEvolution. rewrite length_app. cbn [List.length].
  replace (List.length log + 1) with (S (List.length log)) by lia.
  rewrite nth_error_app2 by lia. now rewrite Nat.sub_diag.
Qed.

Section Run.

Variable safetyRules : SafetyRules.
Variable planner : value -> string -> Completion value.
Variable coder : value -> Completion string.
Variable reflector : EvolutionRecord -> Completion unit.
Variable vm_run : string -> SandboxRun.
Variable require : string -> Completion NodeModule.t.
Variable uuidv4 : nat -> string.
Variable toISOString : Z -> string.

Local Abbreviation run :=
  (evolve safetyRules planner coder reflector vm_run require uuidv4 toISOString).

Local Abbreviation integrate :=
  (FeatureManager.integrateFeature require uuidv4 toISOString).

(** X23. A cycle that passes every check ends at the integration when
    the loader refuses the wrapper. When the planner and the coder
    answer, the plan is approved and the code is found safe by the static
    analysis and by the sandbox run, and [require] then refuses the file
    that [integrateFeature] has written, [evolve] throws the error of the
    loader. No feature has entered the map; the file stays in the storage
    root under the name made of the time and the title; the history
    gains one record, a failed one with that error; and the stages end
    with the integration and the record of a failure. *)
Theorem checked_cycle_ends_at_refused_wrapper
        (now : Z) (request : value) (mode : string) (w : World)
        (plan : value) (check : ValidationReport) (code message : string) :
  planner request mode = Normal plan ->
  validatePlan loadAllowedModules plan = Normal check ->
  approved check = true ->
  coder plan = Normal code ->
  safe (snd (testInSandbox safetyRules loadBannedPatterns vm_run code)) = true ->
  require (FeatureManager.wrapFeatureCode toISOString now code plan) = Throw message ->
  fst (run now request mode w) = Throw message
  /\ FeatureManager.features (manager (snd (run now request mode w)))
     = FeatureManager.features (manager w)
  /\ (exists title file,
         Js.get plan "title" = VStr title
         /\ FeatureManager.read_file (FeatureManager.feature_filename now title)
              (FeatureManager.dynamicDir (manager (snd (run now request mode w))))
            = Some file
         /\ FeatureManager.content file
            = FeatureManager.wrapFeatureCode toISOString now code plan)
  /\ evolutionLog (snd (run now request mode w))
     = (evolutionLog w ++ [rejection now request mode message])%list
  /\ stages (snd (run now request mode w))
     = (stages w ++ [Planning; ValidatingPlan; GeneratingCode; TestingInSandbox;
                     StaticAnalysis; DynamicTesting; Integrating;
                     Recording false])%list.
Proof.
  intros Hplan Hcheck Happroved Hcode Hsafe Hrefused.
  destruct (approved_plan_has_title _ _ _ Hcheck Happroved) as (title & Htitle).
  pose proof (ReloadFacts.integrateFeature_refused require uuidv4 toISOString
                now code plan title message (manager w) Htitle Hrefused) as Hint.
  unfold evolve, failed. cbv zeta. rewrite Hplan, Hcheck, Happroved, Hcode. cbn [negb].
  destruct (testInSandbox safetyRules loadBannedPatterns vm_run code)
    as [entered report] eqn:Hbox.
  cbn [snd] in Hsafe. rewrite Hsafe. cbn [negb].
  destruct (testInSandbox_safe _ _ _ _ _ Hbox Hsafe) as (-> & _ & _).
  cbn [enter manager]. rewrite Hint. cbn.
  split; [reflexivity|]. split; [reflexivity|]. split.
  - destruct (RegistrationFacts.read_written now
                (FeatureManager.feature_filename now title)
                (FeatureManager.wrapFeatureCode toISOString now code plan)
                (FeatureManager.dynamicDir (manager w)))
      as (file & Hread & Hcontent).
    now exists title, file.
  - split; [reflexivity | now rewrite <- !app_assoc].
Qed.

Lemma evolve_log_shape (now : Z) (request : value) (mode : string) (w : World) :
  match fst (run now request mode w) with
  | Normal e =>
      evolutionLog (snd (run now request mode w)) = (evolutionLog w ++ [e_record e])%list
      /\ r_success (e_record e) = true
      /\ r_timestamp (e_record e) = now
  | Throw message =>
      evolutionLog (snd (run now request mode w))
      = (evolutionLog w ++ [rejection now request mode message])%list
      \/ exists r,
          r_success r = true
          /\ evolutionLog (snd (run now request mode w))
             = (evolutionLog w ++ [r; rejection now request mode message])%list
  end.
Proof.
  unfold evolve, failed. cbv zeta.
  destruct (planner request mode) as [plan|message]; [|now left].
  destruct (validatePlan loadAllowedModules plan) as [check|message]; [|now left].
  destruct (approved check); cbn [negb]; [|now left].
  destruct (coder plan) as [code|message]; [|now left].
  destruct (testInSandbox safetyRules loadBannedPatterns vm_run code) as [entered report].
  destruct (safe report); cbn [negb]; [|now left].
  cbn [enter manager].
  destruct (integrate now code plan (manager w)) as [[feature|message] m]; [|now left].
  destruct (reflector _) as [[]|message]; cbn.
  - now split.
  - right. eexists. split; [|now rewrite <- app_assoc]. reflexivity.
Qed.

(** X24. Every cycle leaves its trace in the history. Whatever the
    outcome of [evolve], the history keeps its earlier records and gains
    one or two, and [getLastEvolution] then answers the time of the
    cycle. A cycle that returns adds one record to
    [getSuccessfulEvolutions] and none to [getFailedEvolutions]; a cycle
    that throws adds to [getFailedEvolutions] the record of the message
    thrown, and at most one record to [getSuccessfulEvolutions]. *)
Theorem every_cycle_is_recorded (now : Z) (request : value) (mode : string) (w : World) :
  let before := evolutionLog w in
  let after := evolutionLog (snd (run now request mode w)) in
  getLastEvolution after = Some now
  /\ (exists added,
         after = (before ++ added)%list
         /\ (List.length added = 1 \/ List.length added = 2))
  /\ match fst (run now request mode w) with
     | Normal e =>
         getSuccessfulEvolutions after
         = (getSuccessfulEvolutions before ++ [e_record e])%list
         /\ getFailedEvolutions after = getFailedEvolutions before
     | Throw message =>
         getFailedEvolutions after
         = (getFailedEvolutions before ++ [rejection now request mode message])%list
         /\ List.length (getSuccessfulEvolutions after)
            <= S (List.length (getSuccessfulEvolutions before))
     end.
Proof.
  cbv zeta. pose proof (evolve_log_shape now request mode w) as H.
  unfold getSuccessfulEvolutions, getFailedEvolutions.
  destruct (fst (run now request mode w)) as [e|message].
  - destruct H as (-> & Hs & Ht). rewrite last_of_app, Ht, !filter_app. cbn [filter].
    rewrite Hs. cbn [negb]. rewrite app_nil_r.
    split; [reflexivity|]. split; [|now split].
    eexists. split; [reflexivity | now left].
  - destruct H as [-> | (r & Hr & ->)].
    + rewrite last_of_app, !filter_app. cbn. rewrite app_nil_r.
      split; [reflexivity|]. split; [|split; [reflexivity | lia]].
      eexists. split; [reflexivity | now left].
    + replace (evolutionLog w ++ [r; rejection now request mode message])%list
        with ((evolutionLog w ++ [r]) ++ [rejection now request mode message])%list
        by now rewrite <- app_assoc.
      rewrite last_of_app, !filter_app. cbn [filter rejection r_success r_timestamp negb].
      rewrite Hr. cbn [negb]. rewrite !app_nil_r.
      split; [reflexivity|]. split; [|split; [reflexivity|]].
      * exists [r; rejection now request mode message].
        split; [now rewrite <- app_assoc | now right].
      * rewrite length_app. cbn. lia.
Qed.

End Run.

Lemma checked_cycle_ends_at_refused_wrapper_witness :
  fst Samples.doubler_cycle = Throw "Identifier 'exports' has already been declared"
  /\ FeatureManager.features (manager (snd Samples.doubler_cycle)) = []
  /\ map fst (FeatureManager.dynamicDir (manager (snd Samples.doubler_cycle)))
     = ["feature-2000-doubler.js"]
  /\ map r_success (evolutionLog (snd Samples.doubler_cycle)) = [false].
Proof.
  destruct (checked_cycle_ends_at_refused_wrapper Samples.rules
              (fun _ _ => Normal Samples.doubler_plan)
              (fun _ => Normal Samples.doubler_code) (fun _ => Normal tt)
              Samples.returning_vm Samples.strict_loader Samples.uuid Samples.iso
              2000 (VStr "Add a doubler") "guided" Samples.fresh
              Samples.doubler_plan
              (verdict true "Plan passed all safety checks" SevNone)
              Samples.doubler_code "Identifier 'exports' has already been declared")
    as (Hthrow & Hmap & _ & Hlog & _);
    try (vm_compute; reflexivity).
  split; [exact Hthrow|]. split; [exact Hmap|].
  split; [vm_compute; reflexivity|].
  unfold Samples.doubler_cycle. rewrite Hlog. reflexivity.
Defined.

(** X26. [getEvolutionHistory] answers a window of the history, newest
    first. For a positive limit the answer is made of the last [limit]
    records, all of them when the history is shorter. A limit of zero
    does not give an empty answer: [slice(-0)] keeps the whole history,
    so every record is returned. A negative limit drops that many records
    from the start. In each case the answer is in descending order of
    time stamp. *)
Theorem getEvolutionHistory_window (limit : Z) (log : list EvolutionRecord) :
  JsArray.descending r_timestamp (getEvolutionHistory limit log)
  /\ ((0 < limit)%Z ->
      Permutation (getEvolutionHistory limit log)
                  (skipn (List.length log - Z.to_nat limit) log)
      /\ List.length (getEvolutionHistory limit log)
         = Nat.min (Z.to_nat limit) (List.length log))
  /\ Permutation (getEvolutionHistory 0 log) log
  /\ ((limit < 0)%Z ->
      Permutation (getEvolutionHistory limit log) (skipn (Z.to_nat (- limit)) log)).
Proof.
  unfold getEvolutionHistory. split; [apply sort_desc_descending|].
  split; [|split].
  - intros Hpos. unfold JsArray.slice. cbv zeta.
    assert (E : (- limit <? 0)%Z = true) by (apply Z.ltb_lt; lia). rewrite E.
    replace (Z.to_nat (Z.max (Z.of_nat (List.length log) + - limit) 0))
      with (List.length log - Z.to_nat limit) by lia.
    split; [apply sort_desc_permutation|].
    rewrite (Permutation_length (sort_desc_permutation r_timestamp _)), length_skipn.
    lia.
  - unfold JsArray.slice. cbn. rewrite Z.min_l by lia. cbn [Z.to_nat skipn].
    apply sort_desc_permutation.
  - intros Hneg. unfold JsArray.slice. cbv zeta.
    assert (E : (- limit <? 0)%Z = false) by (apply Z.ltb_ge; lia). rewrite E.
    rewrite sort_desc_permutation.
    destruct (Z.min_spec (- limit) (Z.of_nat (List.length log))) as [[_ ->]|[Hle ->]];
      [reflexivity|].
    rewrite Nat2Z.id. rewrite !skipn_all2 by lia. reflexivity.
Qed.

Lemma getEvolutionHistory_window_witness :
  let log := [rejection 1 VNull "guided" "a"; rejection 2 VNull "guided" "b";
              rejection 3 VNull "guided" "c"] in
  List.length (getEvolutionHistory 2 log) = 2
  /\ List.length (getEvolutionHistory 0 log) = 3.
Proof.
  intros log.
  destruct (getEvolutionHistory_window 2 log) as (_ & H & _).
  destruct (H eq_refl) as [_ Hlen].
  destruct (getEvolutionHistory_window 0 log) as (_ & _ & Hperm & _).
  split; [exact Hlen | exact (Permutation_length Hperm)].
Defined.

End CycleFacts.

(** ** Restart over the files of a failed registration *)

Module RestartFacts.

Import FeatureManager JsString.

Section Loader.

Variable require : string -> Completion NodeModule.t.
Variable uuidv4 : nat -> string.
Variable toISOString : Z -> string.




End Loader.


End RestartFacts.

(** ** A rejection that carries no error *)

Module RejectionFacts.

Import FeatureManager.

(** X29. A rejection with [undefined] or [null] is not handled as an
    error with a message. In the self-test, an [execute] that is rejected
    so within the time limit, behind a sound health probe, is no warning:
    the self-test throws the error of reading [message] and leaves the
    feature inactive. In [executeFeature], the same rejection makes the
    call throw that error as it is, without the words "Feature execution
    failed", and the use is counted all the same. *)
Theorem bare_rejection_is_not_a_warning (null : bool) :
  (forall (f : Feature) (run : NodeModule.Fn),
      health_failure (module f) = None ->
      NodeModule.execute (module f) = Some run ->
      (NodeModule.elapsed (run test_input) < test_timeout)%Z ->
      NodeModule.settled (run test_input) = NodeModule.RejectsBare null ->
      testFeature f = (Throw (NodeModule.no_message null), set_active false f))
  /\
  (forall (now : Z) (featureId : string) (input : value) (st : State)
          (f : Feature) (run : NodeModule.Fn),
      JsMap.get featureId (features st) = Some f ->
      active f = true ->
      entry_point (module f) = Some run ->
      NodeModule.settled (run match input with VUndefined => VObj [] | _ => input end)
      = NodeModule.RejectsBare null ->
      executeFeature now featureId input st
      = (Throw (NodeModule.no_message null),
         with_features (JsMap.set featureId (set_usage now f) (features st)) st)).
Proof.
  split.
  - intros f run Hprobe Hexec Htime Hcall. unfold testFeature.
    rewrite Hprobe, Hexec. cbv zeta. apply Z.ltb_lt in Htime.
    now rewrite Htime, Hcall.
  - intros now featureId input st f run Hget Hactive Hentry Hcall.
    unfold executeFeature. rewrite Hget, Hactive. cbn [negb]. cbv zeta.
    cbn [module set_usage]. rewrite Hentry, Hcall. reflexivity.
Qed.

Lemma bare_rejection_is_not_a_warning_witness :
  let m := Samples.bare (Some Samples.rejecting_bare) (Some Samples.healthy) None in
  let f := describe "bare.js" (Samples.file "") m "uuid-0" in
  (active f = true
   /\ testFeature f
      = (Throw "Cannot read properties of undefined (reading 'message')",
         set_active false f))
  /\ fst (executeFeature 2000 "uuid-0" (VObj []) (with_features [("uuid-0", f)] (start [] 1)))
     = Throw "Cannot read properties of undefined (reading 'message')".
Proof.
  intros m f. split; [split; [reflexivity|]|].
  - apply (proj1 (bare_rejection_is_not_a_warning false) f Samples.rejecting_bare);
      reflexivity.
  - rewrite (proj2 (bare_rejection_is_not_a_warning false) 2000%Z "uuid-0" (VObj [])
               (with_features [("uuid-0", f)] (start [] 1)) f Samples.rejecting_bare);
      reflexivity.
Defined.

End RejectionFacts.
